(** * Ticket classification: pattern classifier, similarity classifier, reconciler

    A shallow embedding of the classify-ticket route (model call, vector
    similarity search over the ticket history, and the function
    [determineFinalRecommendation] that merges both answers), followed by the
    properties of its behaviour.

    Conventions of the embedding.
    - A JavaScript [number] that carries a score is a binary64 float
      ([PrimFloat.float]); [*], [+], [-], [/], [<] are the IEEE operations the
      engine performs, and [Math.round] / [Math.min] are written out below.
    - A JavaScript [number] that only ever counts array elements is a [nat]
      (array lengths stay below 2^32, where binary64 increments are exact).
    - [async] functions run in the monad [M]: a log of the calls made to the
      external services, and a result that is a value or a thrown exception. *)

From Stdlib Require Import Floats.FloatClass Floats.PrimFloat.
From Stdlib Require Import Bool Arith NArith Lia List String Ascii DecimalString.
From Stdlib Require Import Sorting.Sorted Sorting.Permutation.
Import ListNotations.

Set Warnings "-inexact-float,-register-all".

Open Scope list_scope.
Open Scope string_scope.

(* ================================================================== *)
(** ** Numbers *)

Module Math.
Local Open Scope float_scope.

(** 2^52: from here on every binary64 value is an integer. *)
Definition two52 : float := 4503599627370496.

(** Largest integer not above [a], for [0 <= a < 2^52]. Adding and removing
    2^52 rounds [a] to a nearest integer; one step down corrects an upward
    rounding. *)
Definition floor_small (a : float) : float :=
  let t := (a + two52) - two52 in
  if a <? t then t - 1 else t.

(** [Math.round]: the integer nearest to [x], halves going towards +infinity;
    NaN, the infinities and both zeros are returned unchanged, and a result
    that is zero keeps the sign of a negative argument. *)
Definition round (x : float) : float :=
  if is_nan x || is_infinity x then x
  else if x =? 0 then x
  else if two52 <=? abs x then x
  else if x <? 0 then
    let a := abs x in
    let f := floor_small a in
    - (if 0.5 <? a - f then f + 1 else f)
  else
    let f := floor_small x in
    if 0.5 <=? x - f then f + 1 else f.

Definition is_neg_zero (x : float) : bool :=
  match classify x with
  | NZero => true
  | _ => false
  end.

(** [Math.min] of two arguments: NaN if either is NaN, and -0 below +0. *)
Definition min (x y : float) : float :=
  if is_nan x || is_nan y then nan
  else if x <? y then x
  else if y <? x then y
  else if is_neg_zero x then x else y.

End Math.

(** The float holding a counter: [0] incremented [n] times. *)
Definition number_of (n : nat) : float := Nat.iter n (fun x => (x + 1)%float) 0%float.

(** Decimal text of a counter, as a template literal prints it. *)
Definition decimal (n : nat) : string := NilZero.string_of_uint (Nat.to_uint n).

(* ================================================================== *)
(** ** Data model *)

(** What the model is asked to answer (the JSON structure of the prompt). *)
Module Pattern.
Record Group : Type := {
  name : string;
  confidence : float;
  reasoning : string
}.
Record Result : Type := {
  primaryGroup : Group;
  alternativeGroups : list Group
}.
End Pattern.

(** A value stored in [groupCounts]. The object is created as [{}], so it
    inherits from [Object.prototype]; a counter is a number unless the group
    name collides with an inherited member, in which case [+ 1] concatenates
    and the stored value is a string. *)
Inductive counter : Type :=
| Num (n : nat)
| Str (s : string).

(** An element of [groupConfidence], the [results] of the similarity search. *)
Module Vector.
Record Match : Type := {
  name : string;
  confidence : float;
  count : counter
}.
End Vector.

Module Final.
Record Recommendation : Type := {
  group : string;
  confidence : float;
  source : string;
  reasoning : string
}.
End Final.

(** [`${count}`] *)
Definition show_counter (c : counter) : string :=
  match c with
  | Num n => decimal n
  | Str s => s
  end.

(* ================================================================== *)
(** ** The reconciler: [determineFinalRecommendation] *)

(** [Array.prototype.find] *)
Fixpoint find_first {A} (f : A -> bool) (l : list A) : option A :=
  match l with
  | [] => None
  | x :: l' => if f x then Some x else find_first f l'
  end.

Definition determineFinalRecommendation
    (openAIResult : Pattern.Result) (vectorResults : list Vector.Match)
  : Final.Recommendation :=
  let primary := Pattern.primaryGroup openAIResult in
  match vectorResults with
  | [] =>
      (* no vector results: use the model's classification *)
      {| Final.group := Pattern.name primary;
         Final.confidence := Pattern.confidence primary;
         Final.source := "pattern-based";
         Final.reasoning := Pattern.reasoning primary |}
  | top :: _ =>
      let openAIPrimary := Pattern.name primary in
      let vectorPrimary := Vector.name top in
      if String.eqb openAIPrimary vectorPrimary then
        let combinedConfidence :=
          Math.round
            (Pattern.confidence primary * 0.4 + Vector.confidence top * 0.6)%float in
        {| Final.group := openAIPrimary;
           Final.confidence := combinedConfidence;
           Final.source := "combined";
           Final.reasoning :=
             "Both pattern analysis and historical data agree on this group. Based on "
             ++ show_counter (Vector.count top) ++ " similar historical tickets." |}
      else
        match find_first (fun r => String.eqb (Vector.name r) openAIPrimary)
                         vectorResults with
        | Some matchingVectorResult =>
            {| Final.group := openAIPrimary;
               Final.confidence :=
                 Math.round
                   (Pattern.confidence primary * 0.7
                    + Vector.confidence matchingVectorResult * 0.3)%float;
               Final.source := "pattern-weighted";
               Final.reasoning :=
                 "Pattern analysis suggests this group, with some support from historical data ("
                 ++ show_counter (Vector.count matchingVectorResult)
                 ++ " similar tickets)." |}
        | None =>
            if (70 <? Vector.confidence top)%float then
              {| Final.group := vectorPrimary;
                 Final.confidence := Vector.confidence top;
                 Final.source := "history-weighted";
                 Final.reasoning :=
                   "Based primarily on " ++ show_counter (Vector.count top)
                   ++ " similar historical tickets that were assigned to this group." |}
            else
              {| Final.group := openAIPrimary;
                 Final.confidence := Math.min (Pattern.confidence primary) 70;
                 Final.source := "pattern-based";
                 Final.reasoning :=
                   Pattern.reasoning primary
                   ++ " (Note: Historical data suggests different groups.)" |}
        end
  end.

(** Shorthands used by the examples. *)
Definition pattern_of (n : string) (c : float) (r : string) : Pattern.Result :=
  {| Pattern.primaryGroup :=
       {| Pattern.name := n; Pattern.confidence := c; Pattern.reasoning := r |};
     Pattern.alternativeGroups := [] |}.

Definition vmatch (n : string) (c : float) (k : nat) : Vector.Match :=
  {| Vector.name := n; Vector.confidence := c; Vector.count := Num k |}.

(* ================================================================== *)
(** ** [groupCounts]: a plain object used as a map *)

Module JSObject.

(** Own properties, in the order in which they were created. *)
Definition t : Type := list (string * counter).

Fixpoint own (o : t) (k : string) : option counter :=
  match o with
  | [] => None
  | (k', v) :: o' => if String.eqb k' k then Some v else own o' k
  end.

(** Members every object inherits from [Object.prototype]. *)
Definition prototype_functions : list string :=
  [ "hasOwnProperty"; "isPrototypeOf"; "propertyIsEnumerable";
    "toLocaleString"; "toString"; "valueOf";
    "__defineGetter__"; "__defineSetter__";
    "__lookupGetter__"; "__lookupSetter__" ].

(** Text that [+] sees when its left operand is the inherited member [k]
    (the source text V8 gives a built-in function, or the tag of the
    prototype object that the [__proto__] getter returns). *)
Definition inherited (k : string) : option string :=
  if String.eqb k "constructor" then Some "function Object() { [native code] }"
  else if String.eqb k "__proto__" then Some "[object Object]"
  else if existsb (String.eqb k) prototype_functions
       then Some ("function " ++ k ++ "() { [native code] }")
       else None.

Inductive lookup : Type :=
| Own (c : counter)
| Inherited (text : string)
| Undefined.

(** [o[k]] *)
Definition get (o : t) (k : string) : lookup :=
  match own o k with
  | Some c => Own c
  | None =>
      match inherited k with
      | Some text => Inherited text
      | None => Undefined
      end
  end.

Fixpoint replace (o : t) (k : string) (v : counter) : t :=
  match o with
  | [] => []
  | (k', v') :: o' =>
      if String.eqb k' k then (k', v) :: o' else (k', v') :: replace o' k v
  end.

(** [o[k] = v] for a number or string [v]: an own property keeps its place, a
    new one is created last; the [__proto__] setter ignores such a value. *)
Definition set (o : t) (k : string) (v : counter) : t :=
  match own o k with
  | Some _ => replace o k v
  | None => if String.eqb k "__proto__" then o else (o ++ [(k, v)])%list
  end.

Definition is_digit (c : ascii) : bool :=
  let n := nat_of_ascii c in Nat.leb 48 n && Nat.leb n 57.

Fixpoint digits_value (s : string) (acc : N) : option N :=
  match s with
  | EmptyString => Some acc
  | String c s' =>
      if is_digit c
      then digits_value s' (10 * acc + N.of_nat (nat_of_ascii c - 48))%N
      else None
  end.

(** A key is an array index when it is the canonical decimal text of an
    integer below 2^32 - 1. *)
Definition array_index (k : string) : option N :=
  match k with
  | EmptyString => None
  | String c rest =>
      if Ascii.eqb c "0" && negb (String.eqb rest "") then None
      else
        match digits_value k 0%N with
        | Some v => if (v <? 4294967295)%N then Some v else None
        | None => None
        end
  end.

Definition is_index (kv : string * counter) : bool :=
  match array_index (fst kv) with
  | Some _ => true
  | None => false
  end.

Definition index_of (kv : string * counter) : N :=
  match array_index (fst kv) with
  | Some i => i
  | None => 0%N
  end.

Fixpoint insert_index (kv : string * counter) (l : t) : t :=
  match l with
  | [] => [kv]
  | kv' :: l' =>
      if (index_of kv <=? index_of kv')%N then kv :: l
      else kv' :: insert_index kv l'
  end.

(** [Object.entries(o)]: own keys that are array indices come first, in
    ascending numeric order, then the other keys in creation order. *)
Definition entries (o : t) : t :=
  (fold_right insert_index [] (filter is_index o)
   ++ filter (fun kv => negb (is_index kv)) o)%list.

End JSObject.

(* ================================================================== *)
(** ** Tallying the neighbours *)

(** A row returned by [match_tickets]. *)
Record ticket : Type := {
  id : nat;
  ticket_id : option string;
  subject : option string;
  description : option string;
  assigned_group : option string;
  similarity : float
}.

(** [if (ticket.assigned_group)]: neither null nor the empty string. *)
Definition truthy_group (tk : ticket) : option string :=
  match assigned_group tk with
  | Some g => if String.eqb g "" then None else Some g
  | None => None
  end.

(** [(groupCounts[g] || 0) + 1] *)
Definition incremented (r : JSObject.lookup) : counter :=
  match r with
  | JSObject.Own (Num n) => Num (n + 1)
  | JSObject.Own (Str s) => if String.eqb s "" then Num 1 else Str (s ++ "1")
  | JSObject.Inherited text => Str (text ++ "1")
  | JSObject.Undefined => Num 1
  end.

(** One iteration of the [forEach] over [similarTickets]. *)
Definition count_ticket (st : JSObject.t * nat) (tk : ticket) : JSObject.t * nat :=
  let (groupCounts, totalMatches) := st in
  match truthy_group tk with
  | Some g =>
      (JSObject.set groupCounts g (incremented (JSObject.get groupCounts g)),
       totalMatches + 1)
  | None => st
  end.

Definition tally (similarTickets : list ticket) : JSObject.t * nat :=
  fold_left count_ticket similarTickets ([], 0).

(** [count / totalMatches] converts [count] to a number first. Every stored
    string starts with the text of an inherited member, which is not a
    numeric literal, so it converts to NaN. *)
Definition to_number (c : counter) : float :=
  match c with
  | Num n => number_of n
  | Str _ => nan
  end.

Definition group_confidence (totalMatches : nat) (kv : string * counter)
  : Vector.Match :=
  let (group, count) := kv in
  {| Vector.name := group;
     Vector.confidence :=
       Math.round ((to_number count / number_of totalMatches) * 100)%float;
     Vector.count := count |}.

(** The comparator [(a, b) => b.confidence - a.confidence]. *)
Definition by_confidence (a b : Vector.Match) : float :=
  (Vector.confidence b - Vector.confidence a)%float.

(** [Array.prototype.sort] is stable: an element moves behind another only
    when the comparator is positive (NaN counts as zero). Insertion from the
    right realises this for any comparator that is a consistent ordering.
    Where it is not (a NaN confidence among three or more groups) the order
    is left to the engine, and nothing below states an order on such a
    list. *)
Fixpoint sort_insert {A} (cmp : A -> A -> float) (x : A) (l : list A) : list A :=
  match l with
  | [] => [x]
  | y :: l' =>
      if (0 <? cmp x y)%float then y :: sort_insert cmp x l' else x :: l
  end.

Definition sort {A} (cmp : A -> A -> float) (l : list A) : list A :=
  fold_right (sort_insert cmp) [] l.

(** Lines 352-376: from the neighbours to the ranked groups. *)
Definition rank_groups (similarTickets : list ticket) : list Vector.Match :=
  let (groupCounts, totalMatches) := tally similarTickets in
  sort by_confidence
       (map (group_confidence totalMatches) (JSObject.entries groupCounts)).

(* ================================================================== *)
(** ** Values that cross the boundary to the external services *)

(** A value produced by [JSON.parse]. *)
Inductive json : Type :=
| JNull
| JBool (b : bool)
| JNumber (x : float)
| JString (s : string)
| JArray (items : list json)
| JObject (members : list (string * json)).

(** What a [throw] carries. [ProviderError] stands for the exceptions raised
    inside the client libraries (network, quota, authentication). *)
Inductive exn : Type :=
| ProviderError (message : string)
| Error (message : string)
| TypeError (message : string)
| SyntaxError (message : string).

(** [error.message] *)
Definition exn_message (e : exn) : string :=
  match e with
  | ProviderError m => m
  | Error m => m
  | TypeError m => m
  | SyntaxError m => m
  end.

(** An awaited promise either rejects or resolves. *)
Inductive outcome (A : Type) : Type :=
| Throws (e : exn)
| Resolves (a : A).
Arguments Throws {A} e.
Arguments Resolves {A} a.

(** What the database client resolves to: [{ data, error, count }]. *)
Module Pg.
Record error_t : Type := { message : string }.
Record response (A : Type) : Type := {
  data : option A;
  error : option error_t;
  count : option nat
}.
Arguments data {A} r.
Arguments error {A} r.
Arguments count {A} r.
End Pg.

(** [response.choices[i].message.content] of a chat completion. *)
Record choice : Type := { content : option string }.
Record chat_response : Type := { choices : list choice }.

(** [response.data[i].embedding] of an embeddings request. *)
Record embeddings_response : Type := { embeddings : list (list float) }.

(** The calls that leave the process, as they appear in the log. *)
Inductive call : Type :=
| ChatCompletion (model system user : string) (temperature : float)
| CreateEmbedding (model input : string)
| CountTicketHistory
| SelectEmbedded
| Rpc (fn : string)
| MatchTickets (query_embedding : list float) (match_threshold : float)
               (match_count : nat).

(** One behaviour of the external services: the answer each call gets.
    Within one request every call below is issued at most once, so a record
    of answers covers every behaviour, including answers that depend on the
    arguments sent. *)
Record services : Type := {
  chat_completions_create : string -> string -> outcome chat_response;
  embeddings_create : string -> outcome embeddings_response;
  count_ticket_history : outcome (Pg.response unit);
  select_embedded : outcome (Pg.response (list nat));
  check_vector_extension : outcome (Pg.response bool);
  create_vector_extension : outcome (Pg.response unit);
  check_embedding_column : outcome (Pg.response bool);
  add_embedding_column : outcome (Pg.response unit);
  match_tickets : list float -> outcome (Pg.response (list ticket))
}.

(* ================================================================== *)
(** ** The monad of [async] functions *)

Definition M (A : Type) : Type := list call -> list call * (exn + A).

Definition ret {A} (a : A) : M A := fun log => (log, inr a).

Definition throw {A} (e : exn) : M A := fun log => (log, inl e).

Definition bind {A B} (m : M A) (k : A -> M B) : M B :=
  fun log =>
    match m log with
    | (log', inl e) => (log', inl e)
    | (log', inr a) => k a log'
    end.

(** [try { m } catch (e) { handler e }] *)
Definition try_catch {A} (m : M A) (handler : exn -> M A) : M A :=
  fun log =>
    match m log with
    | (log', inl e) => handler e log'
    | r => r
    end.

(** [await] of a call to an external service: the call is logged and its
    answer is either thrown or handed on. *)
Definition await {A} (c : call) (answer : outcome A) : M A :=
  fun log =>
    ((log ++ [c])%list,
     match answer with
     | Throws e => inl e
     | Resolves a => inr a
     end).

Notation "x <- m ;; k" := (bind m (fun x => k))
  (at level 61, m at next level, right associativity).

(** Running a computation from an empty log. *)
Definition run {A} (m : M A) : list call * (exn + A) := m [].
Definition calls {A} (m : M A) : list call := fst (run m).
Definition result {A} (m : M A) : exn + A := snd (run m).

(* ================================================================== *)
(** ** The taxonomy and the prompt *)

Record SupportGroup : Type := {
  group_name : string;
  responsibilities : string;
  examples : list string
}.

Definition supportGroups : list SupportGroup :=
  [ {| group_name := "Network Operations";
       responsibilities := "Handle network connectivity issues, VPN problems, internet outages, firewall configurations, and network hardware troubleshooting.";
       examples :=
         [ "Cannot connect to VPN from home office";
           "Internet connection is very slow in the marketing department";
           "Unable to access network drives after moving to a new office";
           "Firewall is blocking access to required business applications" ] |};
    {| group_name := "Desktop Support";
       responsibilities := "Manage hardware issues, software installations, operating system problems, and peripheral device setup.";
       examples :=
         [ "My laptop won't turn on";
           "Need Microsoft Office installed on my new computer";
           "Blue screen error when starting Windows";
           "Cannot connect my monitor to the docking station" ] |};
    {| group_name := "Application Support";
       responsibilities := "Resolve issues with business applications, software bugs, application access problems, and feature requests.";
       examples :=
         [ "Cannot log into the CRM system";
           "Excel crashes when opening large spreadsheets";
           "Need access to the accounting software";
           "The reporting dashboard shows incorrect data" ] |};
    {| group_name := "Email & Collaboration";
       responsibilities := "Support email services, calendar functions, video conferencing tools, and collaboration platforms.";
       examples :=
         [ "Not receiving emails from external senders";
           "Cannot schedule meetings in Outlook";
           "Teams call quality is poor during meetings";
           "Need to set up an email distribution list" ] |};
    {| group_name := "Security";
       responsibilities := "Address security incidents, suspicious activities, access control issues, and security policy compliance.";
       examples :=
         [ "Received a suspicious phishing email";
           "Need to reset multi-factor authentication";
           "Concerned about potential malware on my computer";
           "Request for temporary elevated permissions" ] |};
    {| group_name := "Database Administration";
       responsibilities := "Manage database performance issues, data access problems, query optimization, and database maintenance.";
       examples :=
         [ "Database server is running slowly";
           "Need access to the customer database";
           "Error when running SQL queries against the production database";
           "Database backup failed last night" ] |};
    {| group_name := "Server Operations";
       responsibilities := "Handle server hardware issues, operating system problems, virtualization, and server maintenance.";
       examples :=
         [ "Production web server is down";
           "Need additional storage on the file server";
           "Server performance degradation after recent updates";
           "Virtual machine not starting properly" ] |} ].

(** Line feed and double quote, for the text of the prompt. *)
Definition nl : string := String (ascii_of_nat 10) EmptyString.
Definition dq : string := String (ascii_of_nat 34) EmptyString.
Definition quoted (s : string) : string := dq ++ s ++ dq.

Definition lines (l : list string) : string :=
  fold_right (fun line rest => line ++ nl ++ rest) "" l.

(** The closing instructions of the prompt, with the JSON structure asked
    for. *)
Definition response_format : string :=
  nl ++ "Analyze the ticket details and provide:" ++ nl
  ++ lines
       [ "1. The most appropriate support group";
         "2. A confidence score (0-100%)";
         "3. Brief reasoning for your classification";
         "4. Two alternative support groups that might also be appropriate (with lower confidence)";
         "";
         "Format your response as a JSON object with the following structure:";
         "{";
         "  " ++ quoted "primaryGroup" ++ ": {";
         "    " ++ quoted "name" ++ ": " ++ quoted "Support Group Name" ++ ",";
         "    " ++ quoted "confidence" ++ ": 85,";
         "    " ++ quoted "reasoning" ++ ": "
           ++ quoted "Brief explanation of why this group is most appropriate";
         "  },";
         "  " ++ quoted "alternativeGroups" ++ ": [";
         "    {";
         "      " ++ quoted "name" ++ ": " ++ quoted "Alternative Group 1" ++ ",";
         "      " ++ quoted "confidence" ++ ": 60,";
         "      " ++ quoted "reasoning" ++ ": "
           ++ quoted "Why this could also be appropriate";
         "    },";
         "    {";
         "      " ++ quoted "name" ++ ": " ++ quoted "Alternative Group 2" ++ ",";
         "      " ++ quoted "confidence" ++ ": 40,";
         "      " ++ quoted "reasoning" ++ ": " ++ quoted "Why this might be considered";
         "    }";
         "  ]" ]
  ++ "}".

Definition generateSystemPrompt : string :=
  let prompt :=
    "You are a ticket classification assistant for an IT helpdesk. Your task is to analyze the subject and description of a support ticket and determine which support group should handle it."
    ++ nl ++ nl
    ++ "Here are the support groups and their responsibilities:" ++ nl ++ nl in
  let prompt :=
    fold_left
      (fun prompt g =>
         prompt ++ group_name g ++ ": " ++ responsibilities g ++ nl)
      supportGroups prompt in
  let prompt :=
    prompt ++ nl
    ++ "For each support group, here are some example tickets they would handle:"
    ++ nl in
  let prompt :=
    fold_left
      (fun prompt g =>
         fold_left (fun prompt example => prompt ++ "- " ++ example ++ nl)
                   (examples g)
                   (prompt ++ nl ++ group_name g ++ " examples:" ++ nl))
      supportGroups prompt in
  prompt ++ response_format.

(** [s || d] on strings: the empty string is falsy. *)
Definition or_string (s d : string) : string :=
  if String.eqb s "" then d else s.

(** The user turn of the chat completion. *)
Definition user_prompt (subject description : string) : string :=
  "Ticket Subject: " ++ subject ++ nl ++ nl ++ "Ticket Description: "
  ++ or_string description "No description provided".

(* ================================================================== *)
(** ** Reading a parsed answer as the structure the prompt asks for *)

(** [j[k]] on an object; any other non-null value has no such member. *)
Fixpoint member (k : string) (fields : list (string * json)) : option json :=
  match fields with
  | [] => None
  | (k', v) :: rest => if String.eqb k' k then Some v else member k rest
  end.

Definition field (j : json) (k : string) : option json :=
  match j with
  | JObject fields => member k fields
  | _ => None
  end.

Definition as_group (j : json) : option Pattern.Group :=
  match field j "name", field j "confidence", field j "reasoning" with
  | Some (JString n), Some (JNumber c), Some (JString r) =>
      Some {| Pattern.name := n; Pattern.confidence := c; Pattern.reasoning := r |}
  | _, _, _ => None
  end.

Fixpoint as_groups (items : list json) : option (list Pattern.Group) :=
  match items with
  | [] => Some []
  | j :: rest =>
      match as_group j, as_groups rest with
      | Some g, Some gs => Some (g :: gs)
      | _, _ => None
      end
  end.

(** The expected shape: [primaryGroup] with name, confidence and reasoning,
    and a list [alternativeGroups] of the same. *)
Definition as_result (j : json) : option Pattern.Result :=
  match field j "primaryGroup", field j "alternativeGroups" with
  | Some pg, Some (JArray alts) =>
      match as_group pg, as_groups alts with
      | Some g, Some gs =>
          Some {| Pattern.primaryGroup := g; Pattern.alternativeGroups := gs |}
      | _, _ => None
      end
  | _, _ => None
  end.

(** [alternativeGroups] where it can be read, for the typed view below. *)
Definition alternatives_of (j : json) : list Pattern.Group :=
  match field j "alternativeGroups" with
  | Some (JArray alts) =>
      match as_groups alts with
      | Some gs => gs
      | None => []
      end
  | _ => []
  end.

(* ================================================================== *)
(** ** Results handed between the functions of the route *)

Module Similarity.
Record Outcome : Type := {
  success : bool;
  error : option string;
  results : list Vector.Match;
  similarTickets : list ticket
}.
End Similarity.

Definition failed (reason : string) : Similarity.Outcome :=
  {| Similarity.success := false;
     Similarity.error := Some reason;
     Similarity.results := [];
     Similarity.similarTickets := [] |}.

(** [finalRecommendation] in the response. The argument of
    [determineFinalRecommendation] is declared [any]; [Untyped] holds what
    the function yields on an answer whose [primaryGroup] exists but does
    not have a string name, a numeric confidence and a string reasoning. *)
Inductive final_value : Type :=
| Typed (r : Final.Recommendation)
| Untyped (j : json).

(** The members of an object that are defined, as [JSON.stringify] keeps
    them. *)
Definition defined (members : list (string * option json)) : list (string * json) :=
  flat_map (fun kv => match snd kv with
                      | Some v => [(fst kv, v)]
                      | None => []
                      end) members.

(** What rule 1 returns for a [primaryGroup] of any shape: its [name],
    [confidence] and [reasoning] as they are, missing ones left out. *)
Definition verbatim (primaryGroup : json) : json :=
  JObject (defined [ ("group", field primaryGroup "name");
                     ("confidence", field primaryGroup "confidence");
                     ("source", Some (JString "pattern-based"));
                     ("reasoning", field primaryGroup "reasoning") ]).

Module Http.
Record SimilarityView : Type := {
  recommendations : list Vector.Match;
  similarTicketsCount : nat;
  confidence : float;
  success : bool;
  error : option string
}.
Record Classification : Type := {
  patternBasedClassification : json;
  vectorSimilarityClassification : SimilarityView;
  finalRecommendation : final_value
}.
Inductive Body : Type :=
| Failure (error : string)
| Success (c : Classification).
Record Response : Type := {
  status : nat;
  body : Body
}.
(** The body of a request as the handler destructures it. *)
Record Request : Type := {
  subject : option string;
  description : option string
}.
End Http.

(** The arguments of the [match_tickets] query. *)
Definition match_threshold : float := 0.5.
Definition match_count : nat := 5.

(* ================================================================== *)
(** ** The route *)

Section Route.

(** Built-ins of the runtime: [JSON.parse] ([None] when it throws) and
    [String.prototype.trim]. *)
Variable JSON_parse : string -> option json.
Variable trim : string -> string.
(** [determineFinalRecommendation] outside its typed domain (see
    [final_value]) on a list of results that is not empty. It returns, or it
    throws the TypeError of a [confidence] or a [reasoning] that cannot be
    converted to a primitive: an object whose [valueOf] and [toString] are
    no functions, met by [*], [Math.min] or [+]. *)
Variable reconcile_untyped : json -> list Vector.Match -> exn + json.

(** The behaviour of the external services during the request. *)
Variable svc : services.

Definition classifyWithOpenAI (subject description : string) : M json :=
  try_catch
    (let systemPrompt := generateSystemPrompt in
     let userPrompt := user_prompt subject description in
     response <- await (ChatCompletion "gpt-3.5-turbo" systemPrompt userPrompt 0.3)
                       (chat_completions_create svc systemPrompt userPrompt) ;;
     match choices response with
     | [] => throw (TypeError "Cannot read properties of undefined (reading 'message')")
     | first :: _ =>
         match content first with
         | None => throw (Error "No response from OpenAI")
         | Some text =>
             if String.eqb text "" then throw (Error "No response from OpenAI")
             else
               try_catch
                 (match JSON_parse text with
                  | Some parsed => ret parsed
                  | None => throw (SyntaxError "Unexpected token in JSON")
                  end)
                 (fun _ => throw (Error "Failed to parse classification response"))
         end
     end)
    (fun error => throw error).

Definition generateEmbedding (text : string) : M (list float) :=
  try_catch
    (response <- await (CreateEmbedding "text-embedding-ada-002" text)
                       (embeddings_create svc text) ;;
     match embeddings response with
     | [] => throw (TypeError "Cannot read properties of undefined (reading 'embedding')")
     | first :: _ => ret first
     end)
    (fun error => throw error).

(** The self-healing step of lines 296-304 and 309-317: when the check
    reported an error the creation is attempted; only an exception from the
    creation ends the function, with the given reason. [Some v] is the early
    [return v]. *)
Definition ensure {A B} (checked : Pg.response A) (fn : string)
    (creation : outcome (Pg.response B)) (reason : string)
  : M (option Similarity.Outcome) :=
  match Pg.error checked with
  | Some _ =>
      try_catch
        (_ <- await (Rpc fn) creation ;; ret None)
        (fun _ => ret (Some (failed reason)))
  | None => ret None
  end.

(** Lines 341-382: the search and the ranking, inside their own [try]. *)
Definition search (embedding : list float) : M Similarity.Outcome :=
  try_catch
    (found <- await (MatchTickets embedding match_threshold match_count)
                    (match_tickets svc embedding) ;;
     match Pg.error found with
     | Some error => ret (failed (Pg.message error))
     | None =>
         match Pg.data found with
         | None =>
             throw (TypeError "Cannot read properties of null (reading 'forEach')")
         | Some similarTickets =>
             ret {| Similarity.success := true;
                    Similarity.error := None;
                    Similarity.results := rank_groups similarTickets;
                    Similarity.similarTickets := similarTickets |}
         end
     end)
    (fun _ => ret (failed "Vector similarity search failed")).

Definition findSimilarTickets (subject description : string) : M Similarity.Outcome :=
  try_catch
    (table <- await CountTicketHistory (count_ticket_history svc) ;;
     match Pg.error table with
     | Some _ => ret (failed "Ticket history table not accessible")
     | None =>
     match Pg.count table with
     | Some 0 => ret (failed "No historical tickets available")
     | _ =>
     extension <- await (Rpc "check_vector_extension") (check_vector_extension svc) ;;
     early <- ensure extension "create_vector_extension"
                     (create_vector_extension svc) "Vector extension not available" ;;
     match early with
     | Some outcome => ret outcome
     | None =>
     column <- await (Rpc "check_embedding_column") (check_embedding_column svc) ;;
     early <- ensure column "add_embedding_column"
                     (add_embedding_column svc) "Embedding column could not be created" ;;
     match early with
     | Some outcome => ret outcome
     | None =>
     embeddingCheck <- await SelectEmbedded (select_embedded svc) ;;
     match Pg.error embeddingCheck with
     | Some _ => ret (failed "Could not check for embeddings")
     | None =>
     match Pg.data embeddingCheck with
     | None | Some [] => ret (failed "No tickets with embeddings")
     | Some (_ :: _) =>
     let text := trim (subject ++ " " ++ or_string description "") in
     embedding <- generateEmbedding text ;;
     search embedding
     end end end end end end)
    (fun _ => ret (failed "General error in vector similarity search")).

(** [determineFinalRecommendation(openAIClassification, ...)] on the untyped
    answer. Reading [.primaryGroup] of null, or [.name] of a missing or null
    [primaryGroup], raises a TypeError. On an empty list of results the
    members of any other [primaryGroup] are copied as they are (lines
    453-460), so nothing is converted and nothing can fail. *)
Definition reconcile (openAIResult : json) (vectorResults : list Vector.Match)
  : M final_value :=
  match openAIResult with
  | JNull =>
      throw (TypeError "Cannot read properties of null (reading 'primaryGroup')")
  | _ =>
      match field openAIResult "primaryGroup" with
      | None =>
          throw (TypeError "Cannot read properties of undefined (reading 'name')")
      | Some JNull =>
          throw (TypeError "Cannot read properties of null (reading 'name')")
      | Some pg =>
          match as_group pg with
          | Some g =>
              ret (Typed (determineFinalRecommendation
                            {| Pattern.primaryGroup := g;
                               Pattern.alternativeGroups :=
                                 alternatives_of openAIResult |}
                            vectorResults))
          | None =>
              match vectorResults with
              | [] => ret (Untyped (verbatim pg))
              | _ :: _ =>
                  match reconcile_untyped openAIResult vectorResults with
                  | inl e => throw e
                  | inr final => ret (Untyped final)
                  end
              end
          end
      end
  end.

Definition json_response (status : nat) (body : Http.Body) : Http.Response :=
  {| Http.status := status; Http.body := body |}.

(** [description || ""], where [description] may be missing from the body. *)
Definition description_of (body : Http.Request) : string :=
  match Http.description body with
  | Some d => or_string d ""
  | None => ""
  end.

(** The handler. [request] is what [await request.json()] gives. *)
Definition POST (request : outcome Http.Request) : M Http.Response :=
  try_catch
    (body <- (fun log => (log, match request with
                               | Throws e => inl e
                               | Resolves b => inr b
                               end)) ;;
     if match Http.subject body with
        | Some subject => String.eqb subject ""
        | None => true
        end
     then ret (json_response 400 (Http.Failure "Subject is required"))
     else
         let subject :=
           match Http.subject body with
           | Some subject => subject
           | None => ""
           end in
         let description := description_of body in
         openAIClassification <- classifyWithOpenAI subject description ;;
         vectorResults <- findSimilarTickets subject description ;;
         final <- reconcile openAIClassification (Similarity.results vectorResults) ;;
         ret (json_response 200
                (Http.Success
                   {| Http.patternBasedClassification := openAIClassification;
                      Http.vectorSimilarityClassification :=
                        {| Http.recommendations := Similarity.results vectorResults;
                           Http.similarTicketsCount :=
                             List.length (Similarity.similarTickets vectorResults);
                           Http.confidence :=
                             match Similarity.results vectorResults with
                             | top :: _ => Vector.confidence top
                             | [] => 0%float
                             end;
                           Http.success := Similarity.success vectorResults;
                           Http.error := Similarity.error vectorResults |};
                      Http.finalRecommendation := final |})))
    (fun error =>
       ret (json_response 500
              (Http.Failure ("Failed to classify ticket: " ++ exn_message error)))).

End Route.

(* ================================================================== *)
(** * The routes around the classification route

    The set-up route that prepares the database, the batch route that
    stores the embeddings the similarity search compares with, the chat
    route that calls the classification route, and the import route that
    fills the ticket history. *)

From Stdlib Require Import ZArith.

(* ================================================================== *)
(** ** The set-up route: [GET /api/setup-vector] *)

Module SetupVector.

(** The two shapes of body the route sends: [{ error, message }] and
    [{ success: true, message }]. *)
Inductive Body : Type :=
| Failure (error message : string)
| Success (message : string).

Record Response : Type := {
  status : nat;
  body : Body
}.

Definition json_response (status : nat) (body : Body) : Response :=
  {| SetupVector.status := status; SetupVector.body := body |}.

Section Route.

Variable svc : services.

(** Step 1, lines 13-23: the extension is created inside a [try] of its
    own; neither a reported error nor an exception ends the request. *)
Definition create_extension : M unit :=
  try_catch
    (_ <- await (Rpc "create_vector_extension") (create_vector_extension svc) ;;
     ret tt)
    (fun _ => ret tt).

(** Step 2, lines 27-68. *)
Definition add_column : M Response :=
  try_catch
    (table <- await CountTicketHistory (count_ticket_history svc) ;;
     match Pg.error table with
     | Some tableCheckError =>
         ret (json_response 500
                (Failure "Ticket history table not accessible"
                         (Pg.message tableCheckError)))
     | None =>
         altered <- await (Rpc "add_embedding_column") (add_embedding_column svc) ;;
         match Pg.error altered with
         | Some alterTableError =>
             ret (json_response 500
                    (Failure "Failed to add embedding column"
                             (Pg.message alterTableError)))
         | None =>
             ret (json_response 200
                    (Success "Vector extension and embedding column set up successfully"))
         end
     end)
    (fun err => ret (json_response 500 (Failure "Setup failed" (exn_message err)))).

Definition GET : M Response :=
  try_catch
    (_ <- create_extension ;;
     add_column)
    (fun error => ret (json_response 500 (Failure "Setup failed" (exn_message error)))).

End Route.

End SetupVector.

(* ================================================================== *)
(** ** The monad of [async] functions, for any kind of log entry *)

(** As [M], with the entries of the log left open: the other routes make
    calls that the classification route does not. *)
Module Async.

Section Log.

Context {C : Type}.

Definition M (A : Type) : Type := list C -> list C * (exn + A).

Definition ret {A} (a : A) : M A := fun log => (log, inr a).

Definition throw {A} (e : exn) : M A := fun log => (log, inl e).

Definition bind {A B} (m : M A) (k : A -> M B) : M B :=
  fun log =>
    match m log with
    | (log', inl e) => (log', inl e)
    | (log', inr a) => k a log'
    end.

Definition try_catch {A} (m : M A) (handler : exn -> M A) : M A :=
  fun log =>
    match m log with
    | (log', inl e) => handler e log'
    | r => r
    end.

(** [await] of a promise that is no call to a service: nothing is logged. *)
Definition settle {A} (answer : outcome A) : M A :=
  fun log =>
    (log,
     match answer with
     | Throws e => inl e
     | Resolves a => inr a
     end).

(** An effect that cannot fail: [c] is appended to the log. *)
Definition tell (c : C) : M unit := fun log => ((log ++ [c])%list, inr tt).

Definition await {A} (c : C) (answer : outcome A) : M A :=
  fun log =>
    ((log ++ [c])%list,
     match answer with
     | Throws e => inl e
     | Resolves a => inr a
     end).

Definition run {A} (m : M A) : list C * (exn + A) := m [].
Definition calls {A} (m : M A) : list C := fst (run m).
Definition result {A} (m : M A) : exn + A := snd (run m).

End Log.

Arguments M C A : clear implicits.

End Async.

Notation "x <~ m ;; k" := (Async.bind m (fun x => k))
  (at level 61, m at next level, right associativity).

(* ================================================================== *)
(** ** The batch route: [POST /api/update-embeddings] *)

Module UpdateEmbeddings.

(** A row of [ticket_history] as the route selects it: [id], [subject]
    (declared NOT NULL) and [description]. *)
Record ticket_row : Type := {
  id : nat;
  subject : string;
  description : option string
}.

(** The calls of this route, as they appear in its log. *)
Inductive call : Type :=
| Rpc (fn : string)
| SelectWithoutEmbedding (limit : nat)
| CreateEmbedding (model input encoding_format : string)
| UpdateEmbedding (id : nat) (embedding : list float).

(** One behaviour of the external services. The route embeds and updates
    once per ticket, so the answers to those calls are given per position
    in the batch: two tickets with the same text need not fare alike. *)
Record services : Type := {
  check_vector_extension : outcome (Pg.response bool);
  create_vector_extension : outcome (Pg.response unit);
  check_embedding_column : outcome (Pg.response bool);
  add_embedding_column : outcome (Pg.response unit);
  select_without_embedding : outcome (Pg.response (list ticket_row));
  embeddings_create : nat -> string -> outcome embeddings_response;
  update_embedding : nat -> list float -> outcome (Pg.response unit)
}.

(** The route runs in [Async.M] over the calls above. *)
Definition M : Type -> Type := Async.M call.

(** An entry of [results]: [{ id, success, error }]. *)
Record item : Type := {
  item_id : nat;
  success : bool;
  error : option string
}.

(** The three shapes of body the route sends. *)
Inductive Body : Type :=
| Failure (error : string)
| Nothing (message : string)
| Summary (processed successful failed : nat) (results : list item).

Record Response : Type := {
  status : nat;
  body : Body
}.

Definition json_response (status : nat) (body : Body) : Response :=
  {| UpdateEmbeddings.status := status; UpdateEmbeddings.body := body |}.

(** [.limit(50)] *)
Definition batch_limit : nat := 50.

Section Route.

Variable trim : string -> string.
Variable svc : services.

(** Lines 16-29; [position] is the place of the ticket in the batch. *)
Definition generateEmbedding (position : nat) (text : string) : M (list float) :=
  Async.try_catch
    (response <~ Async.await (CreateEmbedding "text-embedding-3-small" text "float")
                             (embeddings_create svc position text) ;;
     match embeddings response with
     | [] => Async.throw
               (TypeError "Cannot read properties of undefined (reading 'embedding')")
     | first :: _ => Async.ret first
     end)
    (fun error => Async.throw error).

(** The body of the loop, lines 68-97: one entry of [results]. *)
Definition embed_ticket (position : nat) (ticket : ticket_row) : M item :=
  Async.try_catch
    (let text :=
       trim (subject ticket ++ " "
             ++ match description ticket with
                | Some d => or_string d ""
                | None => ""
                end) in
     embedding <~ generateEmbedding position text ;;
     updated <~ Async.await (UpdateEmbedding (id ticket) embedding)
                            (update_embedding svc position embedding) ;;
     match Pg.error updated with
     | Some updateError =>
         Async.ret {| item_id := id ticket; success := false;
                      error := Some (Pg.message updateError) |}
     | None =>
         Async.ret {| item_id := id ticket; success := true; error := None |}
     end)
    (fun error =>
       Async.ret {| item_id := id ticket; success := false;
                    error := Some (exn_message error) |}).

(** [for (const ticket of tickets)], pushing onto [results]. *)
Fixpoint embed_each (position : nat) (tickets : list ticket_row)
    (results : list item) : M (list item) :=
  match tickets with
  | [] => Async.ret results
  | ticket :: rest =>
      entry <~ embed_ticket position ticket ;;
      embed_each (S position) rest (results ++ [entry])%list
  end.

(** The self-healing step of lines 36-48: the creation is awaited and its
    answer is dropped. *)
Definition ensure {A B} (check creation : string)
    (checked : outcome (Pg.response A)) (created : outcome (Pg.response B))
  : M unit :=
  answer <~ Async.await (Rpc check) checked ;;
  match Pg.error answer with
  | Some _ => _ <~ Async.await (Rpc creation) created ;; Async.ret tt
  | None => Async.ret tt
  end.

Definition POST : M Response :=
  Async.try_catch
    (_ <~ ensure "check_vector_extension" "create_vector_extension"
                 (check_vector_extension svc) (create_vector_extension svc) ;;
     _ <~ ensure "check_embedding_column" "add_embedding_column"
                 (check_embedding_column svc) (add_embedding_column svc) ;;
     fetched <~ Async.await (SelectWithoutEmbedding batch_limit)
                            (select_without_embedding svc) ;;
     match Pg.error fetched with
     | Some fetchError =>
         Async.throw (Error ("Failed to fetch tickets: " ++ Pg.message fetchError))
     | None =>
         match Pg.data fetched with
         | None | Some [] =>
             Async.ret (json_response 200
                          (Nothing "No tickets found that need embeddings"))
         | Some tickets =>
             results <~ embed_each 0 tickets [] ;;
             Async.ret (json_response 200
                          (Summary
                             (List.length tickets)
                             (List.length (filter success results))
                             (List.length
                                (filter (fun r => negb (success r)) results))
                             results))
         end
     end)
    (fun error => Async.ret (json_response 500 (Failure (exn_message error)))).

End Route.

End UpdateEmbeddings.

(* ================================================================== *)
(** ** Strings *)

(** A string holds the UTF-8 bytes of the JavaScript string it stands for,
    which is taken to be well formed (no lone surrogate). *)

(** The UTF-16 code units a byte accounts for: one for an ASCII byte and
    for the first byte of a sequence of two or three bytes, two (a
    surrogate pair) for the first byte of a sequence of four, none for a
    continuation byte. *)
Definition code_units (c : ascii) : nat :=
  let n := nat_of_ascii c in
  if (n <? 128)%nat then 1
  else if (n <? 192)%nat then 0
  else if (n <? 240)%nat then 1
  else 2.

(** [s.length]: the number of UTF-16 code units. *)
Fixpoint js_length (s : string) : nat :=
  match s with
  | EmptyString => 0
  | String c s' => code_units c + js_length s'
  end.

(** [String.prototype.includes]. A needle of ASCII characters occurs among
    the code units exactly where its bytes occur among the bytes. *)
Fixpoint includes (s sub : string) : bool :=
  String.prefix sub s
  || match s with
     | EmptyString => false
     | String _ s' => includes s' sub
     end.

(* ================================================================== *)
(** ** The chat route: the caller of the classification route *)

Module Chat.



Definition conversationalPhrases : list string :=
  [ "hello"; "hi"; "hey"; "greetings"; "good morning"; "good afternoon";
    "good evening"; "yo";
    "how are you"; "how's it going"; "how are things"; "what's up";
    "how do you do"; "how r u";
    "goodbye"; "bye"; "see you"; "talk to you later"; "have a good day";
    "thank you"; "thanks"; "appreciate it"; "thank you very much";
    "okay"; "ok"; "sure"; "alright"; "got it";
    "please"; "excuse me"; "pardon me" ].

Section Text.

(** [String.prototype.toLowerCase] and [String.prototype.trim]. *)
Variable toLowerCase : string -> string.
Variable trim : string -> string.

Definition isConversationalPhrase (message : string) : bool :=
  let lowerMessage := trim (toLowerCase message) in
  if existsb (String.eqb lowerMessage) conversationalPhrases then true
  else
    existsb (fun phrase =>
               includes lowerMessage phrase
               && (js_length lowerMessage <? js_length phrase + 15)%nat)
            conversationalPhrases.

Definition getConversationalResponse (message : string) : string :=
  let lowerMessage := trim (toLowerCase message) in
  if includes lowerMessage "hello" || includes lowerMessage "hi"
     || includes lowerMessage "hey" || includes lowerMessage "greetings"
  then "Hello! How can I assist you with IT support today?"
  else if includes lowerMessage "how are you" || includes lowerMessage "how's it going"
          || includes lowerMessage "what's up"
  then "I'm doing well, thank you for asking! I'm ready to help with any IT questions or issues you might have."
  else if includes lowerMessage "goodbye" || includes lowerMessage "bye"
          || includes lowerMessage "see you"
          || includes lowerMessage "talk to you later"
  then "Goodbye! Feel free to reach out if you need IT support in the future."
  else if includes lowerMessage "thank you" || includes lowerMessage "thanks"
          || includes lowerMessage "appreciate"
  then "You're welcome! I'm happy to help. Is there anything else you need assistance with?"
  else "I'm here to help with your IT support needs. What can I assist you with today?".

End Text.

(** An entry of the conversation a session keeps. *)
Record Message : Type := {
  role : string;
  content : string
}.

Definition system_message : Message :=
  {| role := "system";
     content := "You are an L1 Helpdesk assistant. Be helpful, clear, and concise when answering IT support questions." |}.

Definition user_says (message : string) : Message :=
  {| role := "user"; content := message |}.

Definition assistant_says (reply : string) : Message :=
  {| role := "assistant"; content := reply |}.

(** [if (c.length > 11) c = [c[0], ...c.slice(c.length - 10)]] *)
Definition keep_recent (conversation : list Message) : list Message :=
  if (11 <? List.length conversation)%nat then
    match conversation with
    | first :: _ => first :: skipn (List.length conversation - 10) conversation
    | [] => []
    end
  else conversation.

(** The conversation after a request that is answered without the chat
    completion (a conversational phrase or a FAQ match): both messages are
    pushed, then the conversation is cut. *)
Definition answered_directly (conversation : list Message) (message reply : string)
  : list Message :=
  keep_recent (conversation ++ [user_says message; assistant_says reply])%list.

(** On the way to the chat completion the message is pushed and the
    conversation is cut; this is what the model receives. *)
Definition sent_to_model (conversation : list Message) (message : string)
  : list Message :=
  keep_recent (conversation ++ [user_says message])%list.

(** The reply of the model is pushed after the cut. *)
Definition answered_by_model (conversation : list Message) (message reply : string)
  : list Message :=
  (sent_to_model conversation message ++ [assistant_says reply])%list.

End Chat.

(* ================================================================== *)
(** ** The import route: [POST /api/import-tickets] *)

Module ImportTickets.

(** A cell of the sheet. *)
Inductive cell : Type :=
| Text (s : string)
| Number (x : float)
| Boolean (b : bool).

(** A row of the sheet under the names of its columns. *)
Definition row : Type := list (string * cell).

(** A record for the database: each column holds a string or null. *)
Definition record : Type := list (string * option string).

Definition columnMapping : list (string * string) :=
  [ ("Ticket Id", "ticket_id");
    ("Subject", "subject");
    ("Description", "description");
    ("Requester Email", "requester_email");
    ("Requester Name", "requester_name");
    ("Department", "department");
    ("Group", "assigned_group");
    ("Category", "category");
    ("Sub-Category", "sub_category");
    ("Priority", "priority");
    ("Status", "status");
    ("Resolution Note", "resolution_note");
    ("Created Date", "created_at");
    ("Resolved Date", "resolved_at") ].

(** [o[k]] on an object whose keys are none of the inherited ones. *)
Fixpoint get {A} (o : list (string * A)) (k : string) : option A :=
  match o with
  | [] => None
  | (k', v) :: o' => if String.eqb k' k then Some v else get o' k
  end.

(** [!v] for a cell. *)
Definition falsy (v : cell) : bool :=
  match v with
  | Text s => String.eqb s ""
  | Number x => (x =? 0)%float || is_nan x
  | Boolean b => negb b
  end.

(** [!record.k]: the column is missing, null or empty. *)
Definition missing (r : record) (k : string) : bool :=
  match get r k with
  | Some (Some s) => String.eqb s ""
  | _ => true
  end.

(** What is written to the stream, one JSON line each. *)
Inductive event : Type :=
| Progress (total processed : nat) (successful failed : Z) (percentage : float)
| Complete (total : nat) (successful failed : Z)
| Failed (message : string).

(** The effects of the route, in the order in which they happen. *)
Inductive effect : Type :=
| Write (e : event)
| Insert (records : list record)
| Delay
| Close.

(** The file of the form. [read_rows] is what reading the file and parsing
    its first sheet comes to. *)
Record upload : Type := {
  file_type : string;
  read_rows : outcome (list row)
}.

Record request : Type := {
  content_type : option string;
  formData : outcome (option upload)
}.

Definition BATCH_SIZE : nat := 50.

Section Route.

(** [Number.prototype.toString], and [new Date(v).toISOString()] ([None]
    when the date is invalid). *)
Variable number_text : float -> string.
Variable iso_date : cell -> option string.

(** The answer of the database to the insert of the batch at offset [i]. *)
Variable insert : nat -> list record -> outcome (Pg.response (list record)).

Definition parseDate (dateStr : option cell) : option string :=
  match dateStr with
  | None => None
  | Some v => if falsy v then None else iso_date v
  end.

(** [v.toString()] *)
Definition toString (v : cell) : string :=
  match v with
  | Text s => s
  | Number x => number_text x
  | Boolean true => "true"
  | Boolean false => "false"
  end.

(** The loop of lines 47-56 over the entries of [columnMapping]. *)
Fixpoint map_columns (mapping : list (string * string)) (r : row) : record :=
  match mapping with
  | [] => []
  | (excelCol, dbCol) :: rest =>
      match get r excelCol with
      | Some v =>
          (dbCol,
           if String.eqb dbCol "created_at" || String.eqb dbCol "resolved_at"
           then parseDate (Some v)
           else if String.eqb (toString v) "" then None else Some (toString v))
            :: map_columns rest r
      | None => map_columns rest r
      end
  end.

Definition mapRowToRecord (r : row) : exn + record :=
  let record := map_columns columnMapping r in
  if missing record "ticket_id" || missing record "subject"
     || missing record "requester_email"
  then inl (Error ("Missing required fields: "
                   ++ (if missing record "ticket_id" then "Ticket Id, " else "")
                   ++ (if missing record "subject" then "Subject, " else "")
                   ++ (if missing record "requester_email"
                       then "Requester Email" else "")))
  else inr record.

(** Lines 187-199: the records of a batch, and how many rows gave none.
    (The row numbers collected in [batchErrors] are never read.) *)
Fixpoint map_rows (batch : list row) : list record * Z :=
  match batch with
  | [] => ([], 0%Z)
  | r :: rest =>
      let (batchRecords, failures) := map_rows rest in
      match mapRowToRecord r with
      | inr record => (record :: batchRecords, failures)
      | inl _ => (batchRecords, (failures + 1)%Z)
      end
  end.

(** [processed], [successful], [failed] *)
Definition counters : Type := nat * Z * Z.

Definition percentage (processed total : nat) : float :=
  Math.round ((number_of processed / number_of total) * 100)%float.

Section Rows.

Variable rows : list row.

(** One iteration of the loop of lines 182-233. *)
Definition process_batch (i : nat) (st : counters) : Async.M effect counters :=
  let '(processed, successful, failed) := st in
  let batch := firstn BATCH_SIZE (skipn i rows) in
  let (batchRecords, failures) := map_rows batch in
  let failed := (failed + failures)%Z in
  inserted <~
    match batchRecords with
    | [] => Async.ret (successful, failed)
    | _ :: _ =>
        answer <~ Async.await (Insert batchRecords) (insert i batchRecords) ;;
        match Pg.error answer with
        | Some _ =>
            Async.ret (successful,
                       (failed + Z.of_nat (List.length batchRecords))%Z)
        | None =>
            let stored :=
              match Pg.data answer with
              | Some data => Z.of_nat (List.length data)
              | None => 0%Z
              end in
            Async.ret ((successful + stored)%Z,
                       (failed + (Z.of_nat (List.length batchRecords) - stored))%Z)
        end
    end ;;
  let processed := processed + List.length batch in
  _ <~ Async.tell
         (Write (Progress (List.length rows) processed (fst inserted) (snd inserted)
                          (percentage processed (List.length rows)))) ;;
  _ <~ Async.tell Delay ;;
  Async.ret (processed, fst inserted, snd inserted).

(** [for (let i = 0; i < rows.length; i += BATCH_SIZE)]; [fuel] bounds the
    number of iterations, and [List.length rows] of it is never used up. *)
Fixpoint process_from (fuel i : nat) (st : counters) : Async.M effect counters :=
  if (i <? List.length rows)%nat then
    match fuel with
    | 0 => Async.ret st
    | S fuel' =>
        st' <~ process_batch i st ;;
        process_from fuel' (i + BATCH_SIZE) st'
    end
  else Async.ret st.

End Rows.

Definition write_error (error : exn) : Async.M effect unit :=
  _ <~ Async.tell
         (Write (Failed (or_string (exn_message error)
                                   "An unexpected error occurred"))) ;;
  Async.tell Close.

Definition processRequest (request : request) : Async.M effect unit :=
  Async.try_catch
    (let contentType :=
       match content_type request with
       | Some c => or_string c ""
       | None => ""
       end in
     if negb (includes contentType "multipart/form-data")
     then Async.throw (Error "Request must be multipart/form-data")
     else
       form <~ Async.settle (formData request) ;;
       match form with
       | None => Async.throw (Error "No file provided")
       | Some file =>
           if negb (String.eqb (file_type file) "application/vnd.ms-excel")
              && negb (String.eqb (file_type file)
                         "application/vnd.openxmlformats-officedocument.spreadsheetml.sheet")
           then Async.throw (Error "File must be an Excel file (.xls or .xlsx)")
           else
             rows <~ Async.settle (read_rows file) ;;
             let total := List.length rows in
             _ <~ Async.tell (Write (Progress total 0 0 0 0)) ;;
             st <~ process_from rows total 0 (0, 0%Z, 0%Z) ;;
             _ <~ Async.tell (Write (Complete total (snd (fst st)) (snd st))) ;;
             Async.tell Close
       end)
    write_error.

(** The handler starts [processRequest] and answers with the stream; a
    rejection of [processRequest] is written to the stream as well. *)
Definition POST (request : request) : Async.M effect unit :=
  Async.try_catch (processRequest request) write_error.

End Route.

End ImportTickets.

(* ================================================================== *)
(** ** Vocabulary of the statements *)

(* ------------------------------------------------------------------ *)
(** *** The pattern classifier *)

(** The single call the pattern classifier makes. *)
Definition chat_call (subject description : string) : call :=
  ChatCompletion "gpt-3.5-turbo" generateSystemPrompt
                 (user_prompt subject description) 0.3.

(** What [classifyWithOpenAI] comes to once its two [try] blocks are
    resolved, as a function of the answer to the completion call:
    rethrowing leaves an exception as it is, and a failure of [JSON.parse]
    is replaced by the classifier's own error. *)
Definition classified (JSON_parse : string -> option json)
    (answer : outcome chat_response) : exn + json :=
  match answer with
  | Throws e => inl e
  | Resolves response =>
      match choices response with
      | [] => inl (TypeError "Cannot read properties of undefined (reading 'message')")
      | first :: _ =>
          match content first with
          | None => inl (Error "No response from OpenAI")
          | Some text =>
              if String.eqb text "" then inl (Error "No response from OpenAI")
              else match JSON_parse text with
                   | Some parsed => inr parsed
                   | None => inl (Error "Failed to parse classification response")
                   end
          end
      end
  end.

(** The invariant the data model states for a classification. *)
Definition alternatives_ok (r : Pattern.Result) : Prop :=
  List.length (Pattern.alternativeGroups r) <= 2
  /\ forall a, In a (Pattern.alternativeGroups r) ->
       Pattern.name a <> Pattern.name (Pattern.primaryGroup r).

(* ------------------------------------------------------------------ *)
(** *** Failures of the similarity classifier's collaborators *)

(** The awaited call rejected. *)
Definition threw {A} (answer : outcome A) : bool :=
  match answer with
  | Throws _ => true
  | Resolves _ => false
  end.

(** The database client resolved with an [error]. *)
Definition reported_error {A} (answer : outcome (Pg.response A)) : bool :=
  match answer with
  | Resolves r => match Pg.error r with Some _ => true | None => false end
  | Throws _ => false
  end.

Definition store_unreachable (svc : services) : bool :=
  threw (count_ticket_history svc) || reported_error (count_ticket_history svc).

Definition store_empty (svc : services) : bool :=
  match count_ticket_history svc with
  | Resolves r => match Pg.count r with Some 0 => true | _ => false end
  | Throws _ => false
  end.

(** The check of the vector extension failed, or it reported an error and
    the call that creates the extension threw. *)
Definition extension_unavailable (svc : services) : bool :=
  threw (check_vector_extension svc)
  || (reported_error (check_vector_extension svc) && threw (create_vector_extension svc)).

Definition column_unavailable (svc : services) : bool :=
  threw (check_embedding_column svc)
  || (reported_error (check_embedding_column svc) && threw (add_embedding_column svc)).

(** The query for embedded rows failed or found none. *)
Definition no_embedded_rows (svc : services) : bool :=
  match select_embedded svc with
  | Throws _ => true
  | Resolves r =>
      match Pg.error r, Pg.data r with
      | Some _, _ => true
      | None, None => true
      | None, Some [] => true
      | None, Some (_ :: _) => false
      end
  end.

(** The text that is embedded. *)
Definition embedded_text (trim : string -> string) (subject description : string)
  : string :=
  trim (subject ++ " " ++ or_string description "").

(** The embedding that the search receives, if the provider delivers one. *)
Definition embedding_sent (trim : string -> string) (svc : services)
    (subject description : string) : option (list float) :=
  match embeddings_create svc (embedded_text trim subject description) with
  | Resolves response =>
      match embeddings response with
      | first :: _ => Some first
      | [] => None
      end
  | Throws _ => None
  end.

Definition embedding_failed (trim : string -> string) (svc : services)
    (subject description : string) : bool :=
  match embedding_sent trim svc subject description with
  | Some _ => false
  | None => true
  end.

(** The search threw, reported an error, or resolved with neither an error
    nor a list of rows (its data is null). *)
Definition search_failed (trim : string -> string) (svc : services)
    (subject description : string) : bool :=
  match embedding_sent trim svc subject description with
  | Some embedding =>
      match match_tickets svc embedding with
      | Throws _ => true
      | Resolves r =>
          match Pg.error r, Pg.data r with
          | Some _, _ => true
          | None, None => true
          | None, Some _ => false
          end
      end
  | None => false
  end.

(** The message of the error the search reported. *)
Definition search_error (trim : string -> string) (svc : services)
    (subject description : string) : option string :=
  match embedding_sent trim svc subject description with
  | Some embedding =>
      match match_tickets svc embedding with
      | Resolves r => option_map Pg.message (Pg.error r)
      | Throws _ => None
      end
  | None => None
  end.

(** The failures [findSimilarTickets] looks for. *)
Definition similarity_failure (trim : string -> string) (svc : services)
    (subject description : string) : bool :=
  store_unreachable svc || store_empty svc
  || extension_unavailable svc || column_unavailable svc
  || no_embedded_rows svc
  || embedding_failed trim svc subject description
  || search_failed trim svc subject description.

(** The reasons the function words itself. *)
Definition similarity_reasons : list string :=
  [ "Ticket history table not accessible";
    "No historical tickets available";
    "Vector extension not available";
    "Embedding column could not be created";
    "Could not check for embeddings";
    "No tickets with embeddings";
    "Vector similarity search failed";
    "General error in vector similarity search" ].

(** The calls that only the similarity classifier makes. *)
Definition similarity_call (c : call) : bool :=
  match c with
  | ChatCompletion _ _ _ _ => false
  | _ => true
  end.

(* ------------------------------------------------------------------ *)
(** *** The ranking in terms of the neighbours *)

(** The group names the tally counts, in the order of the neighbours. *)
Definition labels (similarTickets : list ticket) : list string :=
  flat_map (fun tk => match truthy_group tk with
                      | Some g => [g]
                      | None => []
                      end) similarTickets.

(** How often [g] labels a neighbour, and how many neighbours carry a label. *)
Definition occurrences (g : string) (similarTickets : list ticket) : nat :=
  count_occ string_dec (labels similarTickets) g.

Definition labelled (similarTickets : list ticket) : nat :=
  List.length (labels similarTickets).

(** Index of the first occurrence of [g] in [l]. *)
Fixpoint position (g : string) (l : list string) : nat :=
  match l with
  | [] => 0
  | x :: l' => if String.eqb x g then 0 else S (position g l')
  end.

Definition first_seen (g : string) (similarTickets : list ticket) : nat :=
  position g (labels similarTickets).

(** round(100 * n / t) in exact arithmetic, halves going up. *)
Definition percentage (n t : nat) : nat := (200 * n + t) / (2 * t).

Definition share (similarTickets : list ticket) (g : string) : nat :=
  percentage (occurrences g similarTickets) (labelled similarTickets).

(** [a] is ranked before [b]: a larger share, or the same share and seen
    first. *)
Definition outranks (similarTickets : list ticket) (a b : string) : Prop :=
  share similarTickets b < share similarTickets a
  \/ (share similarTickets b = share similarTickets a
      /\ first_seen a similarTickets < first_seen b similarTickets).

(** A group name that is neither an array index nor the name of a member
    inherited from [Object.prototype]. *)
Definition plain_name (g : string) : bool :=
  match JSObject.array_index g, JSObject.inherited g with
  | None, None => true
  | _, _ => false
  end.

(** Below this number of counted neighbours the binary64 value of
    [(count / total) * 100] rounds as the exact quotient does; with 23 of 40
    it no longer does. *)
Definition rounding_bound : nat := 40.

(* ------------------------------------------------------------------ *)
(** *** The tally on plain names *)

(** The labels without repetition, each at its first occurrence. *)
Fixpoint distinct (l : list string) : list string :=
  match l with
  | [] => []
  | x :: l' => x :: filter (fun y => negb (String.eqb y x)) (distinct l')
  end.

(** The tally on plain names: one counter per label. *)
Definition count_label (st : JSObject.t * nat) (g : string) : JSObject.t * nat :=
  (JSObject.set (fst st) g (incremented (JSObject.get (fst st) g)), snd st + 1).

Fixpoint bump (acc : list (string * nat)) (g : string) : list (string * nat) :=
  match acc with
  | [] => [(g, 1)]
  | (k, n) :: acc' =>
      if String.eqb k g then (k, n + 1) :: acc' else (k, n) :: bump acc' g
  end.

Definition nums (acc : list (string * nat)) : JSObject.t :=
  map (fun kn => (fst kn, Num (snd kn))) acc.

Definition mem (g : string) (l : list string) : bool := existsb (String.eqb g) l.

Fixpoint lookup (acc : list (string * nat)) (g : string) : option nat :=
  match acc with
  | [] => None
  | (k, n) :: acc' => if String.eqb k g then Some n else lookup acc' g
  end.

(** The entry of [groupConfidence] for a group [g] that has a numeric
    counter. *)
Definition entry_of (similarTickets : list ticket) (g : string) : Vector.Match :=
  group_confidence (labelled similarTickets) (g, Num (occurrences g similarTickets)).

(** The order a stable descending sort by [key] establishes on elements
    that arrive in the order of [pos]. *)
Definition precedes {A} (key pos : A -> nat) (a b : A) : Prop :=
  key b < key a \/ (key b = key a /\ pos a < pos b).

(** The pairs (count, total) with 1 <= count <= total < [bound]. *)
Definition pairs_below (bound : nat) : list (nat * nat) :=
  flat_map (fun t => map (fun n => (n, t)) (seq 1 t)) (seq 1 (bound - 1)).

(** The confidence as line 370 computes it, and as exact arithmetic has it. *)
Definition float_confidence (nt : nat * nat) : float :=
  Math.round ((number_of (fst nt) / number_of (snd nt)) * 100)%float.

Definition exact_confidence (nt : nat * nat) : float :=
  number_of (percentage (fst nt) (snd nt)).

(** On whole percentages the comparator and [<=] of binary64 agree with the
    order of the naturals, and the values lie between 0 and 100. *)
Definition percent_ok (a b : nat) : bool :=
  Bool.eqb (0 <? number_of b - number_of a)%float (a <? b)%nat
  && Bool.eqb (number_of b <=? number_of a)%float (b <=? a)%nat
  && (0 <=? number_of a)%float && (number_of a <=? 100)%float.

(* ------------------------------------------------------------------ *)
(** *** Sample behaviours, for the examples *)

(** A runtime whose [JSON.parse] is only asked about [text], which it reads
    as [value]. *)
Definition parses (text : string) (value : json) : string -> option json :=
  fun s => if String.eqb s text then Some value else None.

Definition pg_ok {A} (d : option A) (n : option nat) : outcome (Pg.response A) :=
  Resolves {| Pg.data := d; Pg.error := None; Pg.count := n |}.

Definition pg_error {A} (message : string) : outcome (Pg.response A) :=
  Resolves {| Pg.data := None;
              Pg.error := Some {| Pg.message := message |};
              Pg.count := None |}.

Definition says (text : string) : outcome chat_response :=
  Resolves {| choices := [ {| content := Some text |} ] |}.

Definition neighbour (g : option string) : ticket :=
  {| id := 1; ticket_id := None; subject := None; description := None;
     assigned_group := g; similarity := 0.75%float |}.

(** A store that is set up and holds embedded tickets; the model answers
    [chat] and the search answers [found]. *)
Definition ready_store (chat : outcome chat_response)
    (found : outcome (Pg.response (list ticket))) : services :=
  {| chat_completions_create := fun _ _ => chat;
     embeddings_create := fun _ => Resolves {| embeddings := [[0.25%float; 0.5%float]] |};
     count_ticket_history := pg_ok None (Some 3);
     select_embedded := pg_ok (Some [1]) None;
     check_vector_extension := pg_ok (Some true) None;
     create_vector_extension := pg_ok None None;
     check_embedding_column := pg_ok (Some true) None;
     add_embedding_column := pg_ok None None;
     match_tickets := fun _ => found |}.

Definition history_of (similarTickets : list ticket) : services :=
  ready_store (says "{}") (pg_ok (Some similarTickets) None).

Definition ranked (similarTickets : list ticket) (results : list Vector.Match)
  : Similarity.Outcome :=
  {| Similarity.success := true;
     Similarity.error := None;
     Similarity.results := results;
     Similarity.similarTickets := similarTickets |}.

Definition json_group (n : string) (c : float) (r : string) : json :=
  JObject [("name", JString n); ("confidence", JNumber c); ("reasoning", JString r)].

(** A well-formed answer with three alternatives, the first of which
    repeats the primary group. *)
Definition repeated_primary : json :=
  JObject
    [ ("primaryGroup", json_group "Security" 90 "phishing");
      ("alternativeGroups",
       JArray [ json_group "Security" 60 "again";
                json_group "Desktop Support" 40 "laptop";
                json_group "Network Operations" 20 "vpn" ]) ].

(** The text of [repeated_primary]. *)
Definition repeated_primary_text : string :=
  "{" ++ quoted "primaryGroup" ++ ":{" ++ quoted "name" ++ ":" ++ quoted "Security"
  ++ "," ++ quoted "confidence" ++ ":90," ++ quoted "reasoning" ++ ":"
  ++ quoted "phishing" ++ "}," ++ quoted "alternativeGroups" ++ ":[{"
  ++ quoted "name" ++ ":" ++ quoted "Security" ++ "," ++ quoted "confidence"
  ++ ":60," ++ quoted "reasoning" ++ ":" ++ quoted "again" ++ "},{"
  ++ quoted "name" ++ ":" ++ quoted "Desktop Support" ++ "," ++ quoted "confidence"
  ++ ":40," ++ quoted "reasoning" ++ ":" ++ quoted "laptop" ++ "},{"
  ++ quoted "name" ++ ":" ++ quoted "Network Operations" ++ ","
  ++ quoted "confidence" ++ ":20," ++ quoted "reasoning" ++ ":" ++ quoted "vpn"
  ++ "}]}".

(** The model is over quota while the ticket history is in order. *)
Definition over_quota : services :=
  ready_store (Throws (ProviderError "429 You exceeded your current quota"))
              (pg_ok (Some [neighbour (Some "Security")]) None).

Definition suspicious_email : Http.Request :=
  {| Http.subject := Some "Suspicious email"; Http.description := None |}.


(** The check of the extension and its creation both resolve with an error
    (the role may not create extensions); everything else answers. *)
Definition creation_denied : services :=
  {| chat_completions_create := fun _ _ => says "{}";
     embeddings_create := fun _ => Resolves {| embeddings := [[0.25%float; 0.5%float]] |};
     count_ticket_history := pg_ok None (Some 3);
     select_embedded := pg_ok (Some [1]) None;
     check_vector_extension := pg_error "permission denied for function check_vector_extension";
     create_vector_extension := pg_error "permission denied to create extension";
     check_embedding_column := pg_ok (Some true) None;
     add_embedding_column := pg_ok None None;
     match_tickets := fun _ => pg_ok (Some [neighbour (Some "Security")]) None |}.


(** Five neighbours over three groups; the two larger groups tie. *)
Definition five_neighbours : list ticket :=
  map neighbour
      [ Some "Desktop Support"; Some "Security"; Some "Network Operations";
        Some "Security"; Some "Network Operations" ].

(** Neighbours whose groups are numbered. *)
Definition numbered_groups : list ticket :=
  map neighbour [ Some "10"; Some "2" ].

(** A neighbour whose group has the name of a member of [Object.prototype]. *)
Definition inherited_group : list ticket :=
  map neighbour [ Some "constructor"; Some "Security" ].

(** Forty neighbours, should the store return more rows than asked for. *)
Definition forty_neighbours : list ticket :=
  map neighbour (repeat (Some "Security") 23 ++ repeat (Some "Desktop Support") 17)%list.

(* ================================================================== *)
(** ** Vocabulary of the further properties *)

(* ------------------------------------------------------------------ *)
(** *** Whole percentages *)

(** The four values [source] can take. *)
Definition source_tags : list string :=
  [ "pattern-based"; "combined"; "pattern-weighted"; "history-weighted" ].

(** All pairs of whole percentages. *)
Definition percent_pairs : list (nat * nat) := list_prod (seq 0 101) (seq 0 101).

(** The blend of rule 2 as line 469 computes it, and its value in exact
    arithmetic, halves going up. *)
Definition blend_agree (ab : nat * nat) : float :=
  Math.round (number_of (fst ab) * 0.4 + number_of (snd ab) * 0.6)%float.

Definition exact_agree (ab : nat * nat) : nat := (4 * fst ab + 6 * snd ab + 5) / 10.

(** The blend of rule 3 as line 489 computes it, its value in exact
    arithmetic, and the whole number the computed blend is. *)
Definition blend_partial (ab : nat * nat) : float :=
  Math.round (number_of (fst ab) * 0.7 + number_of (snd ab) * 0.3)%float.

Definition exact_partial (ab : nat * nat) : nat := (7 * fst ab + 3 * snd ab + 5) / 10.

Definition partial_value (ab : nat * nat) : nat :=
  if (blend_partial ab <? number_of (exact_partial ab))%float
  then exact_partial ab - 1 else exact_partial ab.

(** Three neighbours in three groups: each group has a share of 33. *)
Definition three_groups : list ticket :=
  map neighbour [ Some "Desktop Support"; Some "Security"; Some "Network Operations" ].

(** A confidence that is a whole number between [lo] and [hi]. *)
Definition whole_between (lo hi : nat) (x : float) : Prop :=
  exists k, lo <= k <= hi /\ x = number_of k.

(** A whole percentage is above 70 in binary64 exactly when it is as a
    natural number. *)
Definition strong_ok (b : nat) : bool :=
  Bool.eqb (70 <? number_of b)%float (70 <? b)%nat.

(** The blend of rule 3 stays between the two values it blends. *)
Definition partial_within (ab : nat * nat) : bool :=
  (Nat.min (fst ab) (snd ab) <=? partial_value ab)%nat
  && (partial_value ab <=? Nat.max (fst ab) (snd ab))%nat.

(* ------------------------------------------------------------------ *)
(** *** The set-up route *)

(** The awaited call resolved and reported no error. *)
Definition resolved_clean {A} (answer : outcome (Pg.response A)) : bool :=
  negb (threw answer || reported_error answer).

(** The same services, except that creating the extension is answered by
    [answer]. *)
Definition with_extension_creation (svc : services)
    (answer : outcome (Pg.response unit)) : services :=
  {| chat_completions_create := chat_completions_create svc;
     embeddings_create := embeddings_create svc;
     count_ticket_history := count_ticket_history svc;
     select_embedded := select_embedded svc;
     check_vector_extension := check_vector_extension svc;
     create_vector_extension := answer;
     check_embedding_column := check_embedding_column svc;
     add_embedding_column := add_embedding_column svc;
     match_tickets := match_tickets svc |}.

Definition setup_done : SetupVector.Response :=
  SetupVector.json_response 200
    (SetupVector.Success "Vector extension and embedding column set up successfully").

(** The database refuses to create extensions; the table and the column
    are in order. *)
Definition extension_refused : services :=
  with_extension_creation (history_of [])
    (Throws (ProviderError "permission denied to create extension")).

(* ------------------------------------------------------------------ *)
(** *** Calls and answers of the classification route *)

(** A computation that only appends to the log, and whose calls and result
    do not depend on what the log held before. *)
Definition framed {A} (m : M A) : Prop :=
  forall log, m log = ((log ++ calls m)%list, result m).

(** The store checks that precede the embedding all passed. *)
Definition store_ready (svc : services) : bool :=
  negb (store_unreachable svc || store_empty svc
        || extension_unavailable svc || column_unavailable svc
        || no_embedded_rows svc).

Definition is_embedding_call (c : call) : bool :=
  match c with
  | CreateEmbedding _ _ => true
  | _ => false
  end.

(** The ticket history cannot be reached. *)
Definition store_down : services :=
  {| chat_completions_create := fun _ _ => says "{}";
     embeddings_create := fun _ => Resolves {| embeddings := [[0.25%float; 0.5%float]] |};
     count_ticket_history := Throws (ProviderError "fetch failed");
     select_embedded := pg_ok (Some [1]) None;
     check_vector_extension := pg_ok (Some true) None;
     create_vector_extension := pg_ok None None;
     check_embedding_column := pg_ok (Some true) None;
     add_embedding_column := pg_ok None None;
     match_tickets := fun _ => pg_ok (Some [neighbour (Some "Security")]) None |}.

(** [vectorSimilarityClassification] of the answer, lines 421-429. *)
Definition view_of (v : Similarity.Outcome) : Http.SimilarityView :=
  {| Http.recommendations := Similarity.results v;
     Http.similarTicketsCount := List.length (Similarity.similarTickets v);
     Http.confidence :=
       match Similarity.results v with
       | top :: _ => Vector.confidence top
       | [] => 0%float
       end;
     Http.success := Similarity.success v;
     Http.error := Similarity.error v |}.

(** The answer of the [catch] of the handler. *)
Definition failure_response (e : exn) : Http.Response :=
  json_response 500 (Http.Failure ("Failed to classify ticket: " ++ exn_message e)).

(** The answer of the handler once both classifiers have returned. *)
Definition combined_response (reconcile_untyped : json -> list Vector.Match -> exn + json)
    (j : json) (v : Similarity.Outcome) : Http.Response :=
  match result (reconcile reconcile_untyped j (Similarity.results v)) with
  | inl e => failure_response e
  | inr final =>
      json_response 200
        (Http.Success
           {| Http.patternBasedClassification := j;
              Http.vectorSimilarityClassification := view_of v;
              Http.finalRecommendation := final |})
  end.

(** The answer is null, or its [primaryGroup] is missing, null or well
    formed: the reconciler then has no member to convert. *)
Definition shaped_or_missing (j : json) : bool :=
  match j with
  | JNull => true
  | _ =>
      match field j "primaryGroup" with
      | None | Some JNull => true
      | Some pg =>
          match as_group pg with
          | Some _ => true
          | None => false
          end
      end
  end.

(** An answer whose confidence cannot be converted to a number, and the
    TypeError the conversion throws. *)
Definition unconvertible_answer : json :=
  JObject
    [ ("primaryGroup",
       JObject [ ("name", JString "Security");
                 ("confidence",
                  JObject [ ("valueOf", JNumber 1); ("toString", JNumber 1) ]);
                 ("reasoning", JString "phishing") ]) ].

Definition conversion_error : exn :=
  TypeError "Cannot convert object to primitive value".

(** The answer to a request that names no subject. *)
Definition subject_required : Http.Response :=
  json_response 400 (Http.Failure "Subject is required").

(** The view of a similarity classifier that failed with [reason]. *)
Definition no_history (reason : string) : Http.SimilarityView :=
  {| Http.recommendations := [];
     Http.similarTicketsCount := 0;
     Http.confidence := 0%float;
     Http.success := false;
     Http.error := Some reason |}.

(** The recommendation of rule 1. *)
Definition pattern_only (g : Pattern.Group) : Final.Recommendation :=
  {| Final.group := Pattern.name g;
     Final.confidence := Pattern.confidence g;
     Final.source := "pattern-based";
     Final.reasoning := Pattern.reasoning g |}.

Definition vpn_down : Http.Request :=
  {| Http.subject := Some "VPN is down"; Http.description := None |}.

(** A shaped answer of the model, and its text. *)
Definition network_answer : json :=
  JObject [ ("primaryGroup", json_group "Network Operations" 90 "vpn");
            ("alternativeGroups", JArray []) ].

Definition network_text : string :=
  "{" ++ quoted "primaryGroup" ++ ":{" ++ quoted "name" ++ ":"
  ++ quoted "Network Operations" ++ "," ++ quoted "confidence" ++ ":90,"
  ++ quoted "reasoning" ++ ":" ++ quoted "vpn" ++ "},"
  ++ quoted "alternativeGroups" ++ ":[]}".

(* ------------------------------------------------------------------ *)
(** *** Further properties of the ranking *)

(** The names of the ranked groups. *)
Definition ranked_names (similarTickets : list ticket) : list string :=
  map Vector.name (rank_groups similarTickets).

(** The number a counter holds; a counter that has become text holds none. *)
Definition count_value (c : counter) : nat :=
  match c with
  | Num n => n
  | Str _ => 0
  end.

(** Three neighbours, one of them filed under the group [__proto__]. *)
Definition proto_neighbours : list ticket :=
  map neighbour [ Some "Security"; Some "__proto__"; Some "Security" ].

(** Neighbours without a group. *)
Definition unlabelled_neighbours : list ticket :=
  map neighbour [ None; Some ""; None ].

(* ------------------------------------------------------------------ *)
(** *** From the neighbours to the answer *)

(** Every neighbour that carries a group carries [g], and one does. *)
Definition unanimous (similarTickets : list ticket) (g : string) : Prop :=
  In g (labels similarTickets)
  /\ forall g', In g' (labels similarTickets) -> g' = g.

(** Three neighbours filed under the same group, and one without a group. *)
Definition security_neighbours : list ticket :=
  map neighbour [ Some "Security"; None; Some "Security"; Some "Security" ].

(** The classification the handler sends for [network_answer] over
    [five_neighbours]. *)
Definition network_classification : Http.Classification :=
  {| Http.patternBasedClassification := network_answer;
     Http.vectorSimilarityClassification :=
       view_of (ranked five_neighbours (rank_groups five_neighbours));
     Http.finalRecommendation :=
       Typed (determineFinalRecommendation
                (pattern_of "Network Operations" 90 "vpn")
                (rank_groups five_neighbours)) |}.

(* ------------------------------------------------------------------ *)
(** *** The batch route *)

Definition is_batch_embedding (c : UpdateEmbeddings.call) : bool :=
  match c with
  | UpdateEmbeddings.CreateEmbedding _ _ _ => true
  | _ => false
  end.

(** The checks before the batch went through: neither check threw, and a
    creation that was attempted did not throw. *)
Definition batch_prepared (svc : UpdateEmbeddings.services) : bool :=
  negb (threw (UpdateEmbeddings.check_vector_extension svc))
  && negb (reported_error (UpdateEmbeddings.check_vector_extension svc)
           && threw (UpdateEmbeddings.create_vector_extension svc))
  && negb (threw (UpdateEmbeddings.check_embedding_column svc))
  && negb (reported_error (UpdateEmbeddings.check_embedding_column svc)
           && threw (UpdateEmbeddings.add_embedding_column svc)).

(** Three tickets wait for an embedding; the provider fails on the second
    and the database rejects the update of the third. *)
Definition three_waiting : list UpdateEmbeddings.ticket_row :=
  [ {| UpdateEmbeddings.id := 7; UpdateEmbeddings.subject := "VPN is down";
       UpdateEmbeddings.description := None |};
    {| UpdateEmbeddings.id := 8; UpdateEmbeddings.subject := "Printer jam";
       UpdateEmbeddings.description := Some "third floor" |};
    {| UpdateEmbeddings.id := 9; UpdateEmbeddings.subject := "New laptop";
       UpdateEmbeddings.description := Some "" |} ].

Definition flaky_batch : UpdateEmbeddings.services :=
  {| UpdateEmbeddings.check_vector_extension := pg_ok (Some true) None;
     UpdateEmbeddings.create_vector_extension := pg_ok None None;
     UpdateEmbeddings.check_embedding_column := pg_ok (Some true) None;
     UpdateEmbeddings.add_embedding_column := pg_ok None None;
     UpdateEmbeddings.select_without_embedding := pg_ok (Some three_waiting) None;
     UpdateEmbeddings.embeddings_create :=
       fun position _ =>
         if Nat.eqb position 1 then Throws (ProviderError "429 Rate limit reached")
         else Resolves {| embeddings := [[0.25%float; 0.5%float]] |};
     UpdateEmbeddings.update_embedding :=
       fun position _ =>
         if Nat.eqb position 2 then pg_error "value too long" else pg_ok None None |}.

(* ------------------------------------------------------------------ *)
(** *** The chat route *)


(** One request of a session changes its conversation in one of three
    ways: it is answered directly, it is answered by the model, or the
    chat completion throws after the message was pushed. *)
Inductive turn (before : list Chat.Message) : list Chat.Message -> Prop :=
| turn_direct (message reply : string) :
    turn before (Chat.answered_directly before message reply)
| turn_model (message reply : string) :
    turn before (Chat.answered_by_model before message reply)
| turn_failed (message : string) :
    turn before (Chat.sent_to_model before message).

(** The conversations a session can hold. *)
Inductive conversation : list Chat.Message -> Prop :=
| conversation_opened : conversation [Chat.system_message]
| conversation_continued (before after : list Chat.Message) :
    conversation before -> turn before after -> conversation after.

(** The longest conversational phrase has 19 characters. *)
Definition phrase_bound : nat := 19.

(** The euro sign, three bytes in UTF-8 and one UTF-16 code unit. *)
Definition euro : string :=
  String (ascii_of_nat 226) (String (ascii_of_nat 130)
    (String (ascii_of_nat 172) EmptyString)).

(** "ok" followed by eleven euro signs. *)
Definition ok_in_euros : string :=
  "ok" ++ concat "" (repeat euro 11).

(* ------------------------------------------------------------------ *)
(** *** The import route *)

(** The events among the effects. *)
Definition written (log : list ImportTickets.effect) : list ImportTickets.event :=
  flat_map (fun x => match x with
                     | ImportTickets.Write e => [e]
                     | _ => []
                     end) log.




(** A sheet of three rows; the second has no subject. *)
Definition three_rows : list ImportTickets.row :=
  [ [ ("Ticket Id", ImportTickets.Number 101); ("Subject", ImportTickets.Text "VPN is down");
      ("Requester Email", ImportTickets.Text "a@example.com");
      ("Group", ImportTickets.Text "Network Operations") ];
    [ ("Ticket Id", ImportTickets.Number 102);
      ("Requester Email", ImportTickets.Text "b@example.com") ];
    [ ("Ticket Id", ImportTickets.Number 103); ("Subject", ImportTickets.Text "Printer jam");
      ("Requester Email", ImportTickets.Text "c@example.com") ] ].

Definition sheet_upload : ImportTickets.request :=
  {| ImportTickets.content_type := Some "multipart/form-data; boundary=x";
     ImportTickets.formData :=
       Resolves (Some {| ImportTickets.file_type := "application/vnd.ms-excel";
                         ImportTickets.read_rows := Resolves three_rows |}) |}.
(* ================================================================== *)
(** ** The blends on whole percentages *)

(** The binary64 blends of rules 2 and 3, the cap of rule 5 and the test of
    rule 4, computed for every whole percentage and compared with exact
    arithmetic. *)

Lemma agree_table :
  map blend_agree percent_pairs
  = map (fun ab => number_of (exact_agree ab)) percent_pairs.
Proof. vm_compute. reflexivity. Qed.

Lemma partial_table :
  map blend_partial percent_pairs
  = map (fun ab => number_of (partial_value ab)) percent_pairs.
Proof. vm_compute. reflexivity. Qed.

Lemma capped_table :
  map (fun a => Math.min (number_of a) 70) (seq 0 101)
  = map (fun a => number_of (Nat.min a 70)) (seq 0 101).
Proof. vm_compute. reflexivity. Qed.

Lemma strong_table : forallb strong_ok (seq 0 101) = true.
Proof. vm_compute. reflexivity. Qed.

Lemma partial_within_table : forallb partial_within percent_pairs = true.
Proof. vm_compute. reflexivity. Qed.

Lemma in_percent_pairs (a b : nat) : a <= 100 -> b <= 100 -> In (a, b) percent_pairs.
Proof.
  intros Ha Hb. unfold percent_pairs. apply in_prod; apply in_seq; lia.
Qed.

Lemma agree_exact (a b : nat) :
  a <= 100 -> b <= 100 ->
  Math.round (number_of a * 0.4 + number_of b * 0.6)%float
  = number_of ((4 * a + 6 * b + 5) / 10).
Proof.
  intros Ha Hb.
  exact (proj1 map_ext_in_iff agree_table (a, b) (in_percent_pairs a b Ha Hb)).
Qed.

Lemma agree_within (a b : nat) :
  Nat.min a b <= (4 * a + 6 * b + 5) / 10 <= Nat.max a b.
Proof.
  split.
  - apply Nat.div_le_lower_bound; lia.
  - apply Nat.lt_succ_r. apply Nat.Div0.div_lt_upper_bound. lia.
Qed.

Lemma partial_near_exact (a b : nat) :
  a <= 100 -> b <= 100 ->
  exists k,
    Math.round (number_of a * 0.7 + number_of b * 0.3)%float = number_of k
    /\ (k = (7 * a + 3 * b + 5) / 10 \/ k + 1 = (7 * a + 3 * b + 5) / 10)
    /\ Nat.min a b <= k <= Nat.max a b.
Proof.
  intros Ha Hb. exists (partial_value (a, b)).
  pose proof (in_percent_pairs a b Ha Hb) as Hin.
  split; [exact (proj1 map_ext_in_iff partial_table (a, b) Hin)|].
  split.
  - unfold partial_value, exact_partial. simpl fst. simpl snd.
    destruct (_ <? _)%float eqn:Hlt; [|now left].
    destruct ((7 * a + 3 * b + 5) / 10) eqn:E; [left; reflexivity | right; lia].
  - pose proof (proj1 (forallb_forall _ _) partial_within_table (a, b) Hin) as Hw.
    unfold partial_within in Hw. simpl fst in Hw. simpl snd in Hw.
    apply andb_prop in Hw. destruct Hw as [Hlo Hhi].
    apply Nat.leb_le in Hlo. apply Nat.leb_le in Hhi. split; assumption.
Qed.

Lemma strong_exact (b : nat) :
  b <= 100 -> (70 <? number_of b)%float = (70 <? b)%nat.
Proof.
  intros Hb.
  assert (Hin : In b (seq 0 101)) by (apply in_seq; lia).
  pose proof (proj1 (forallb_forall _ _) strong_table b Hin) as H.
  unfold strong_ok in H. now apply Bool.eqb_prop in H.
Qed.


(* ================================================================== *)
(** ** The reconciler *)

Lemma find_first_none {A} (f : A -> bool) (l : list A) :
  (forall x, In x l -> f x = false) -> find_first f l = None.
Proof.
  induction l as [|y l IH]; intros H; simpl; [reflexivity|].
  rewrite (H y (or_introl eq_refl)).
  apply IH. intros x Hx. apply H. now right.
Qed.

Lemma find_first_split {A} (f : A -> bool) (before after : list A) (m : A) :
  (forall x, In x before -> f x = false) -> f m = true ->
  find_first f (before ++ m :: after)%list = Some m.
Proof.
  induction before as [|y l IH]; intros Hb Hm; simpl.
  - now rewrite Hm.
  - rewrite (Hb y (or_introl eq_refl)). apply IH; [|exact Hm].
    intros x Hx. apply Hb. now right.
Qed.

Lemma name_differs {a b : string} : a <> b -> String.eqb a b = false.
Proof. intros H. now apply String.eqb_neq. Qed.

(** The four examples of the specification, evaluated. *)
Example reconcile_combined_example :
  determineFinalRecommendation
    (pattern_of "Security" 70 "phishing") [vmatch "Security" 90 9]
  = {| Final.group := "Security";
       Final.confidence := 82;
       Final.source := "combined";
       Final.reasoning :=
         "Both pattern analysis and historical data agree on this group. Based on 9 similar historical tickets." |}.
Proof. vm_compute. reflexivity. Qed.

Example reconcile_pattern_weighted_example :
  determineFinalRecommendation
    (pattern_of "Desktop Support" 60 "laptop")
    [vmatch "Email & Collaboration" 75 5; vmatch "Desktop Support" 40 2]
  = {| Final.group := "Desktop Support";
       Final.confidence := 54;
       Final.source := "pattern-weighted";
       Final.reasoning :=
         "Pattern analysis suggests this group, with some support from historical data (2 similar tickets)." |}.
Proof. vm_compute. reflexivity. Qed.

Example reconcile_history_weighted_example :
  determineFinalRecommendation
    (pattern_of "Application Support" 50 "crm")
    [vmatch "Database Administration" 85 8]
  = {| Final.group := "Database Administration";
       Final.confidence := 85;
       Final.source := "history-weighted";
       Final.reasoning :=
         "Based primarily on 8 similar historical tickets that were assigned to this group." |}.
Proof. vm_compute. reflexivity. Qed.

Example reconcile_capped_example :
  determineFinalRecommendation
    (pattern_of "Server Operations" 65 "vm") [vmatch "Security" 60 3]
  = {| Final.group := "Server Operations";
       Final.confidence := 65;
       Final.source := "pattern-based";
       Final.reasoning := "vm (Note: Historical data suggests different groups.)" |}.
Proof. vm_compute. reflexivity. Qed.

(** The confidences are the engine's binary64 numbers: 68 * 0.7 + 33 * 0.3
    is 57.49999999999999 there, so rule 3 gives 57 on these inputs, where
    the same expression over decimal fractions would give 57.5 and 58. *)
Example blend_is_binary64 :
  Final.confidence
    (determineFinalRecommendation
       (pattern_of "Security" 68 "phishing")
       [vmatch "Desktop Support" 67 2; vmatch "Security" 33 1])
  = 57%float.
Proof. vm_compute. reflexivity. Qed.

(** C1. With an empty list of similarity results the recommendation is the
    primary group of the pattern classifier, unchanged: its name, its
    confidence and its reasoning, with source "pattern-based". *)
Theorem reconcile_no_history (p : Pattern.Result) (similarity : Similarity.Outcome) :
  Similarity.results similarity = [] ->
  determineFinalRecommendation p (Similarity.results similarity)
  = {| Final.group := Pattern.name (Pattern.primaryGroup p);
       Final.confidence := Pattern.confidence (Pattern.primaryGroup p);
       Final.source := "pattern-based";
       Final.reasoning := Pattern.reasoning (Pattern.primaryGroup p) |}.
Proof. intros ->. reflexivity. Qed.

Lemma reconcile_no_history_witness :
  Similarity.results (failed "No historical tickets available") = []
  /\ determineFinalRecommendation
       (pattern_of "Network Operations" 80 "vpn")
       (Similarity.results (failed "No historical tickets available"))
     = {| Final.group := "Network Operations";
          Final.confidence := 80;
          Final.source := "pattern-based";
          Final.reasoning := "vpn" |}.
Proof.
  split; [reflexivity|].
  apply (reconcile_no_history (pattern_of "Network Operations" 80 "vpn")
                              (failed "No historical tickets available")).
  reflexivity.
Defined.

(** C2. When the primary group of the pattern classifier has the name of
    the top similarity match, the recommendation is that group, its
    confidence is round(pattern confidence * 0.4 + top confidence * 0.6),
    its source is "combined", and its reasoning cites the count of the top
    match. *)
Theorem reconcile_agreement (p : Pattern.Result) (top : Vector.Match)
    (rest : list Vector.Match) :
  Pattern.name (Pattern.primaryGroup p) = Vector.name top ->
  determineFinalRecommendation p (top :: rest)
  = {| Final.group := Vector.name top;
       Final.confidence :=
         Math.round
           (Pattern.confidence (Pattern.primaryGroup p) * 0.4
            + Vector.confidence top * 0.6)%float;
       Final.source := "combined";
       Final.reasoning :=
         "Both pattern analysis and historical data agree on this group. Based on "
         ++ show_counter (Vector.count top) ++ " similar historical tickets." |}.
Proof.
  intros H. unfold determineFinalRecommendation.
  rewrite H, String.eqb_refl. reflexivity.
Qed.

Lemma reconcile_agreement_witness :
  Pattern.name (Pattern.primaryGroup (pattern_of "Security" 70 "phishing"))
  = Vector.name (vmatch "Security" 90 9)
  /\ determineFinalRecommendation
       (pattern_of "Security" 70 "phishing") [vmatch "Security" 90 9]
     = {| Final.group := "Security";
          Final.confidence := 82;
          Final.source := "combined";
          Final.reasoning :=
            "Both pattern analysis and historical data agree on this group. Based on 9 similar historical tickets." |}.
Proof.
  split; [reflexivity|].
  exact (reconcile_agreement (pattern_of "Security" 70 "phishing")
                             (vmatch "Security" 90 9) [] eq_refl).
Defined.

(** Rule 3 with the matching entry made explicit: [m] is the first entry
    after the top one that carries the pattern's name. *)
Lemma reconcile_first_match (p : Pattern.Result) (top m : Vector.Match)
    (before after : list Vector.Match) :
  Pattern.name (Pattern.primaryGroup p) <> Vector.name top ->
  (forall r, In r before -> Vector.name r <> Pattern.name (Pattern.primaryGroup p)) ->
  Vector.name m = Pattern.name (Pattern.primaryGroup p) ->
  determineFinalRecommendation p (top :: before ++ m :: after)%list
  = {| Final.group := Pattern.name (Pattern.primaryGroup p);
       Final.confidence :=
         Math.round
           (Pattern.confidence (Pattern.primaryGroup p) * 0.7
            + Vector.confidence m * 0.3)%float;
       Final.source := "pattern-weighted";
       Final.reasoning :=
         "Pattern analysis suggests this group, with some support from historical data ("
         ++ show_counter (Vector.count m) ++ " similar tickets)." |}.
Proof.
  intros Htop Hbefore Hm. unfold determineFinalRecommendation.
  rewrite (name_differs Htop).
  change (top :: before ++ m :: after)%list
    with ((top :: before) ++ m :: after)%list.
  rewrite (find_first_split _ (top :: before) after m).
  - reflexivity.
  - intros x [<-|Hx]; apply name_differs.
    + congruence.
    + now apply Hbefore.
  - rewrite Hm. apply String.eqb_refl.
Qed.

Lemma first_occurrence (n : string) (l : list Vector.Match) :
  (exists r, In r l /\ Vector.name r = n) ->
  exists before m after,
    l = (before ++ m :: after)%list
    /\ (forall r, In r before -> Vector.name r <> n)
    /\ Vector.name m = n.
Proof.
  induction l as [|x l IH]; intros (r & Hr & Hn); [contradiction|].
  destruct (string_dec (Vector.name x) n) as [Hx|Hx].
  - exists [], x, l. split; [reflexivity|]. split; [intros ? []|exact Hx].
  - destruct Hr as [->|Hr]; [contradiction|].
    destruct (IH (ex_intro _ r (conj Hr Hn))) as (before & m & after & -> & Hb & Hm).
    exists (x :: before), m, after. split; [reflexivity|]. split; [|exact Hm].
    intros y [<-|Hy]; [exact Hx | now apply Hb].
Qed.

(** C3, as the code has it. When the primary group of the pattern
    classifier is not the top similarity match but carries the name of some
    entry further down the list, the recommendation is the pattern's group,
    with source "pattern-weighted" and the confidence that [Math.round]
    gives the binary64 value of pattern confidence * 0.7 + m's confidence *
    0.3, where [m] is such an entry: the first one, should the list name a
    group twice. On whole percentages that confidence is the weighted mean
    (7 * pattern + 3 * m) / 10 rounded to the nearest whole number, halves
    going up, or one less: the binary64 sum can fall just below a half
    that the exact sum reaches. *)
Theorem reconcile_partial_support (p : Pattern.Result) (top : Vector.Match)
    (rest : list Vector.Match) :
  Pattern.name (Pattern.primaryGroup p) <> Vector.name top ->
  (exists r, In r rest /\ Vector.name r = Pattern.name (Pattern.primaryGroup p)) ->
  exists before m after,
    rest = (before ++ m :: after)%list
    /\ (forall r, In r before ->
          Vector.name r <> Pattern.name (Pattern.primaryGroup p))
    /\ Vector.name m = Pattern.name (Pattern.primaryGroup p)
    /\ determineFinalRecommendation p (top :: rest)
       = {| Final.group := Pattern.name (Pattern.primaryGroup p);
            Final.confidence :=
              Math.round
                (Pattern.confidence (Pattern.primaryGroup p) * 0.7
                 + Vector.confidence m * 0.3)%float;
            Final.source := "pattern-weighted";
            Final.reasoning :=
              "Pattern analysis suggests this group, with some support from historical data ("
              ++ show_counter (Vector.count m) ++ " similar tickets)." |}
    /\ forall a b,
         a <= 100 -> b <= 100 ->
         Pattern.confidence (Pattern.primaryGroup p) = number_of a ->
         Vector.confidence m = number_of b ->
         exists k,
           Final.confidence (determineFinalRecommendation p (top :: rest))
           = number_of k
           /\ (k = (7 * a + 3 * b + 5) / 10 \/ k + 1 = (7 * a + 3 * b + 5) / 10).
Proof.
  intros Htop Hsome.
  destruct (first_occurrence _ rest Hsome) as (before & m & after & -> & Hb & Hm).
  exists before, m, after.
  split; [reflexivity|]. split; [exact Hb|]. split; [exact Hm|].
  rewrite (reconcile_first_match p top m before after Htop Hb Hm).
  split; [reflexivity|].
  intros a b Ha Hb' Ea Eb. simpl. rewrite Ea, Eb.
  destruct (partial_near_exact a b Ha Hb') as (k & Hk & Hnear & _).
  exists k. split; assumption.
Qed.

Lemma reconcile_partial_support_witness :
  Pattern.name (Pattern.primaryGroup (pattern_of "Desktop Support" 60 "laptop"))
  <> Vector.name (vmatch "Email & Collaboration" 75 5)
  /\ (exists r, In r [vmatch "Desktop Support" 40 2]
                /\ Vector.name r
                   = Pattern.name (Pattern.primaryGroup
                                     (pattern_of "Desktop Support" 60 "laptop")))
  /\ exists before m after,
       [vmatch "Desktop Support" 40 2] = (before ++ m :: after)%list
       /\ (forall r, In r before ->
             Vector.name r
             <> Pattern.name (Pattern.primaryGroup
                                (pattern_of "Desktop Support" 60 "laptop")))
       /\ Vector.name m
          = Pattern.name (Pattern.primaryGroup (pattern_of "Desktop Support" 60 "laptop"))
       /\ determineFinalRecommendation
            (pattern_of "Desktop Support" 60 "laptop")
            [vmatch "Email & Collaboration" 75 5; vmatch "Desktop Support" 40 2]
          = {| Final.group := "Desktop Support";
               Final.confidence :=
                 Math.round (60 * 0.7 + Vector.confidence m * 0.3)%float;
               Final.source := "pattern-weighted";
               Final.reasoning :=
                 "Pattern analysis suggests this group, with some support from historical data ("
                 ++ show_counter (Vector.count m) ++ " similar tickets)." |}.
Proof.
  assert (H1 : Pattern.name (Pattern.primaryGroup (pattern_of "Desktop Support" 60 "laptop"))
               <> Vector.name (vmatch "Email & Collaboration" 75 5))
    by (simpl; discriminate).
  assert (H2 : exists r, In r [vmatch "Desktop Support" 40 2]
                 /\ Vector.name r
                    = Pattern.name (Pattern.primaryGroup
                                      (pattern_of "Desktop Support" 60 "laptop")))
    by (exists (vmatch "Desktop Support" 40 2); split; [now left | reflexivity]).
  split; [exact H1 | split; [exact H2|]].
  destruct (reconcile_partial_support
              (pattern_of "Desktop Support" 60 "laptop")
              (vmatch "Email & Collaboration" 75 5) [vmatch "Desktop Support" 40 2]
              H1 H2)
    as (before & m & after & Hrest & Hbefore & Hm & Hfinal & _).
  exists before, m, after.
  split; [exact Hrest | split; [exact Hbefore | split; [exact Hm | exact Hfinal]]].
Defined.

(** C3 as stated fails where the exact sum ends in a half. Three neighbours
    in three groups rank each group at 33; for a pattern confidence of 68
    the claim's round(68 * 0.7 + 33 * 0.3) is round(57.5) = 58, and the
    code returns 57, because the binary64 sum is 57.49999999999999. *)
Lemma reconcile_partial_support_rounds_below :
  rank_groups three_groups
  = [ vmatch "Desktop Support" 33 1; vmatch "Security" 33 1;
      vmatch "Network Operations" 33 1 ]
  /\ determineFinalRecommendation (pattern_of "Security" 68 "phishing")
                                  (rank_groups three_groups)
     = {| Final.group := "Security";
          Final.confidence := number_of 57;
          Final.source := "pattern-weighted";
          Final.reasoning :=
            "Pattern analysis suggests this group, with some support from historical data (1 similar tickets)." |}
  /\ (7 * 68 + 3 * 33 + 5) / 10 = 58
  /\ number_of 57 <> number_of 58.
Proof.
  split; [vm_compute; reflexivity|]. split; [vm_compute; reflexivity|].
  split; [reflexivity|].
  intros H. apply (f_equal (fun x => (x =? number_of 57)%float)) in H.
  vm_compute in H. discriminate H.
Qed.

(** C4. When the primary group of the pattern classifier occurs nowhere in
    the similarity results: a top match with confidence above 70 is returned
    with its own group and confidence and source "history-weighted";
    otherwise the pattern's group is returned with confidence
    min(pattern confidence, 70), source "pattern-based", and the pattern's
    reasoning followed by the note on the historical data. *)
Theorem reconcile_disagreement (p : Pattern.Result) (top : Vector.Match)
    (rest : list Vector.Match) :
  (forall r, In r (top :: rest) ->
     Vector.name r <> Pattern.name (Pattern.primaryGroup p)) ->
  ((70 <? Vector.confidence top)%float = true ->
   determineFinalRecommendation p (top :: rest)
   = {| Final.group := Vector.name top;
        Final.confidence := Vector.confidence top;
        Final.source := "history-weighted";
        Final.reasoning :=
          "Based primarily on " ++ show_counter (Vector.count top)
          ++ " similar historical tickets that were assigned to this group." |})
  /\
  ((70 <? Vector.confidence top)%float = false ->
   determineFinalRecommendation p (top :: rest)
   = {| Final.group := Pattern.name (Pattern.primaryGroup p);
        Final.confidence :=
          Math.min (Pattern.confidence (Pattern.primaryGroup p)) 70;
        Final.source := "pattern-based";
        Final.reasoning :=
          Pattern.reasoning (Pattern.primaryGroup p)
          ++ " (Note: Historical data suggests different groups.)" |}).
Proof.
  intros Hnone.
  assert (Htop : String.eqb (Pattern.name (Pattern.primaryGroup p)) (Vector.name top)
                 = false).
  { apply name_differs. intros E. apply (Hnone top (or_introl eq_refl)). now symmetry. }
  assert (Hfind : find_first
                    (fun r => String.eqb (Vector.name r)
                                         (Pattern.name (Pattern.primaryGroup p)))
                    (top :: rest) = None).
  { apply find_first_none. intros x Hx. apply name_differs. now apply Hnone. }
  unfold determineFinalRecommendation. rewrite Htop, Hfind.
  split; intros ->; reflexivity.
Qed.

Lemma reconcile_disagreement_witness :
  (forall r, In r [vmatch "Security" 60 3] ->
     Vector.name r
     <> Pattern.name (Pattern.primaryGroup (pattern_of "Server Operations" 65 "vm")))
  /\ (70 <? Vector.confidence (vmatch "Security" 60 3))%float = false
  /\ determineFinalRecommendation
       (pattern_of "Server Operations" 65 "vm") [vmatch "Security" 60 3]
     = {| Final.group := "Server Operations";
          Final.confidence := 65;
          Final.source := "pattern-based";
          Final.reasoning := "vm (Note: Historical data suggests different groups.)" |}.
Proof.
  assert (H : forall r, In r [vmatch "Security" 60 3] ->
                Vector.name r
                <> Pattern.name (Pattern.primaryGroup
                                   (pattern_of "Server Operations" 65 "vm"))).
  { intros r [<-|[]]. simpl. discriminate. }
  split; [exact H | split; [reflexivity|]].
  exact (proj2 (reconcile_disagreement
                  (pattern_of "Server Operations" 65 "vm")
                  (vmatch "Security" 60 3) [] H) eq_refl).
Defined.

(** C9. The group of the recommendation is the primary group of the pattern
    classifier or the group of one of the similarity results. *)
Theorem reconcile_group_from_inputs (p : Pattern.Result) (s : list Vector.Match) :
  Final.group (determineFinalRecommendation p s)
  = Pattern.name (Pattern.primaryGroup p)
  \/ exists r, In r s /\ Final.group (determineFinalRecommendation p s) = Vector.name r.
Proof.
  unfold determineFinalRecommendation.
  destruct s as [|top rest]; [now left|].
  destruct (String.eqb _ (Vector.name top)); [now left|].
  destruct (find_first _ (top :: rest)); [now left|].
  destruct (70 <? Vector.confidence top)%float; [|now left].
  right. exists top. split; [now left | reflexivity].
Qed.

(** Rule 3 for every entry that carries the pattern's name: on a list whose
    names are pairwise distinct there is only one such entry, so the blend
    uses it. *)
Lemma reconcile_partial_support_distinct (p : Pattern.Result) (top m : Vector.Match)
    (rest : list Vector.Match) :
  NoDup (map Vector.name (top :: rest)) ->
  Pattern.name (Pattern.primaryGroup p) <> Vector.name top ->
  In m rest ->
  Vector.name m = Pattern.name (Pattern.primaryGroup p) ->
  Final.confidence (determineFinalRecommendation p (top :: rest))
  = Math.round
      (Pattern.confidence (Pattern.primaryGroup p) * 0.7
       + Vector.confidence m * 0.3)%float
  /\ Final.source (determineFinalRecommendation p (top :: rest)) = "pattern-weighted".
Proof.
  intros Hnd Htop Hin Hm.
  destruct (in_split _ _ Hin) as (before & after & ->).
  rewrite (reconcile_first_match p top m before after Htop); [now split| |exact Hm].
  intros r Hr E.
  inversion Hnd as [|? ? _ Hnd']. subst.
  rewrite map_app in Hnd'. simpl in Hnd'.
  apply NoDup_remove_2 in Hnd'. apply Hnd'.
  apply in_or_app. left. rewrite Hm, <- E. now apply in_map.
Qed.

(* ================================================================== *)
(** ** The pattern classifier *)

Lemma classifyWithOpenAI_from (JSON_parse : string -> option json) (svc : services)
    (subject description : string) (log : list call) :
  classifyWithOpenAI JSON_parse svc subject description log
  = ((log ++ [chat_call subject description])%list,
     classified JSON_parse
                (chat_completions_create svc generateSystemPrompt
                                         (user_prompt subject description))).
Proof.
  unfold classifyWithOpenAI, try_catch, bind, await, throw, ret, classified, chat_call.
  destruct (chat_completions_create svc _ _) as [e|response]; [reflexivity|].
  destruct (choices response) as [|first rest]; [reflexivity|].
  destruct (content first) as [text|]; [|reflexivity].
  destruct (String.eqb text ""); [reflexivity|].
  destruct (JSON_parse text); reflexivity.
Qed.

Lemma classifyWithOpenAI_result (JSON_parse : string -> option json)
    (svc : services) (subject description : string) :
  result (classifyWithOpenAI JSON_parse svc subject description)
  = classified JSON_parse
               (chat_completions_create svc generateSystemPrompt
                                        (user_prompt subject description)).
Proof. unfold result, run. now rewrite classifyWithOpenAI_from. Qed.

(** C7, as the code has it. The classifier issues exactly one completion
    call and never a second one. It fails with the provider's own exception
    when that call throws. When the call resolves, it fails with a TypeError
    if there is no choice and with "No response from OpenAI" if the text of
    the first choice is null or empty; on a non-empty text it fails with
    "Failed to parse classification response" exactly when [JSON.parse]
    rejects the text, and returns the parsed value, whatever its shape,
    exactly when [JSON.parse] accepts it. *)
Theorem pattern_classifier_outcome (JSON_parse : string -> option json)
    (svc : services) (subject description : string) :
  calls (classifyWithOpenAI JSON_parse svc subject description)
  = [chat_call subject description]
  /\ (forall e,
        chat_completions_create svc generateSystemPrompt
                                (user_prompt subject description) = Throws e ->
        result (classifyWithOpenAI JSON_parse svc subject description) = inl e)
  /\ (forall response,
        chat_completions_create svc generateSystemPrompt
                                (user_prompt subject description) = Resolves response ->
        (choices response = [] ->
         result (classifyWithOpenAI JSON_parse svc subject description)
         = inl (TypeError "Cannot read properties of undefined (reading 'message')"))
        /\ (forall first others,
              choices response = first :: others ->
              (content first = None \/ content first = Some "" ->
               result (classifyWithOpenAI JSON_parse svc subject description)
               = inl (Error "No response from OpenAI"))
              /\ (forall text,
                    content first = Some text -> text <> "" ->
                    (result (classifyWithOpenAI JSON_parse svc subject description)
                     = inl (Error "Failed to parse classification response")
                     <-> JSON_parse text = None)
                    /\ (forall parsed,
                          result (classifyWithOpenAI JSON_parse svc subject description)
                          = inr parsed
                          <-> JSON_parse text = Some parsed)))).
Proof.
  rewrite classifyWithOpenAI_result.
  split; [unfold calls, run; now rewrite classifyWithOpenAI_from|].
  split; [intros e ->; reflexivity|].
  intros response ->. unfold classified.
  split; [intros ->; reflexivity|].
  intros first others ->. split.
  - intros [->| ->]; reflexivity.
  - intros text -> Hne. rewrite (proj2 (String.eqb_neq text "") Hne).
    destruct (JSON_parse text) as [j|]; split; try split;
      intros H; try discriminate H; try reflexivity.
    + now injection H as ->.
    + now injection H as ->.
Qed.

Lemma pattern_classifier_outcome_witness :
  result (classifyWithOpenAI (parses "{}" (JObject []))
                             (ready_store (says "Sorry, I cannot classify this.")
                                          (pg_ok (Some []) None))
                             "VPN is down" "")
  = inl (Error "Failed to parse classification response").
Proof.
  destruct (pattern_classifier_outcome
              (parses "{}" (JObject []))
              (ready_store (says "Sorry, I cannot classify this.")
                           (pg_ok (Some []) None))
              "VPN is down" "") as (_ & _ & Hresolved).
  destruct (Hresolved _ eq_refl) as (_ & Hchoice).
  destruct (Hchoice _ _ eq_refl) as (_ & Htext).
  destruct (Htext "Sorry, I cannot classify this." eq_refl) as (Hfails & _);
    [discriminate|].
  apply Hfails. reflexivity.
Defined.

(** The malformed-response error stands for a text that is not JSON at all,
    and for nothing else. *)
Lemma parse_failure_iff (JSON_parse : string -> option json) (text : string) :
  text <> "" ->
  classified JSON_parse (says text)
  = inl (Error "Failed to parse classification response")
  <-> JSON_parse text = None.
Proof.
  intros Hne. unfold classified, says. simpl.
  rewrite (proj2 (String.eqb_neq text "") Hne).
  destruct (JSON_parse text); split; intros H; try discriminate; reflexivity.
Qed.

(** C7 as stated fails: the text of an empty object is valid JSON without
    the expected members, and the classifier returns it instead of failing
    with the malformed-response error. *)
Lemma pattern_classifier_accepts_any_json :
  as_result (JObject []) = None
  /\ result (classifyWithOpenAI (parses "{}" (JObject []))
                                (ready_store (says "{}") (pg_ok (Some []) None))
                                "VPN is down" "")
     = inr (JObject []).
Proof.
  split; [reflexivity|].
  rewrite classifyWithOpenAI_result. reflexivity.
Qed.

(** C8, as the code has it. A value the classifier returns is the value
    [JSON.parse] gives for the text of the first choice of the provider's
    answer, unchanged: nothing is checked or removed. *)
Theorem pattern_classifier_returns_parsed_text (JSON_parse : string -> option json)
    (svc : services) (subject description : string) (returned : json) :
  result (classifyWithOpenAI JSON_parse svc subject description) = inr returned ->
  exists response first others text,
    chat_completions_create svc generateSystemPrompt (user_prompt subject description)
    = Resolves response
    /\ choices response = first :: others
    /\ content first = Some text
    /\ JSON_parse text = Some returned.
Proof.
  unfold result, run. rewrite classifyWithOpenAI_from. simpl. unfold classified.
  destruct (chat_completions_create svc _ _) as [e|response]; [discriminate|].
  destruct (choices response) as [|first rest] eqn:Hc; [discriminate|].
  destruct (content first) as [text|] eqn:Ht; [|discriminate].
  destruct (String.eqb text ""); [discriminate|].
  destruct (JSON_parse text) as [j|] eqn:Hj; [|discriminate].
  intros H. injection H as <-.
  exists response, first, rest, text. auto.
Qed.

Lemma pattern_classifier_returns_parsed_text_witness :
  result (classifyWithOpenAI (parses repeated_primary_text repeated_primary)
                             (ready_store (says repeated_primary_text)
                                          (pg_ok (Some []) None))
                             "Suspicious email" "")
  = inr repeated_primary
  /\ exists response first others text,
       says repeated_primary_text = Resolves response
       /\ choices response = first :: others
       /\ content first = Some text
       /\ parses repeated_primary_text repeated_primary text = Some repeated_primary.
Proof.
  assert (H : result (classifyWithOpenAI
                        (parses repeated_primary_text repeated_primary)
                        (ready_store (says repeated_primary_text)
                                     (pg_ok (Some []) None))
                        "Suspicious email" "")
              = inr repeated_primary).
  { rewrite classifyWithOpenAI_result. reflexivity. }
  split; [exact H|].
  exact (pattern_classifier_returns_parsed_text
           (parses repeated_primary_text repeated_primary)
           (ready_store (says repeated_primary_text) (pg_ok (Some []) None))
           "Suspicious email" "" repeated_primary H).
Defined.

(** C8 as stated fails: the provider answers with three alternatives, one
    of them the primary group, and the classifier returns that answer. *)
Lemma pattern_classifier_keeps_bad_alternatives :
  result (classifyWithOpenAI (parses repeated_primary_text repeated_primary)
                             (ready_store (says repeated_primary_text)
                                          (pg_ok (Some []) None))
                             "Suspicious email" "")
  = inr repeated_primary
  /\ exists r, as_result repeated_primary = Some r
               /\ List.length (Pattern.alternativeGroups r) = 3
               /\ (exists a, In a (Pattern.alternativeGroups r)
                             /\ Pattern.name a = Pattern.name (Pattern.primaryGroup r))
               /\ ~ alternatives_ok r.
Proof.
  split.
  - rewrite classifyWithOpenAI_result. reflexivity.
  - eexists. split; [reflexivity|]. split; [reflexivity|]. split.
    + eexists. split; [left; reflexivity | reflexivity].
    + intros [Hlen _]. simpl in Hlen. lia.
Qed.

(* ================================================================== *)
(** ** The similarity classifier: failures *)

Lemma similarity_reasons_nonempty (reason : string) :
  In reason similarity_reasons -> reason <> "".
Proof.
  unfold similarity_reasons. simpl.
  intros H; repeat (destruct H as [<-|H]; [discriminate|]); contradiction.
Qed.

(** Closes one path through [findSimilarTickets] once its result is known:
    the path succeeded, or it failed with a fixed reason, or it passed on
    the message of the search. *)
Ltac close_path :=
  solve [ eexists; split; [reflexivity|]; split; [reflexivity|]; intros H;
          first [ discriminate H
                | split; [reflexivity|]; split; [reflexivity|];
                  eexists; split; [reflexivity|];
                  first [ left; split; [simpl; tauto | discriminate]
                        | right; reflexivity ] ] ].

(** Every path through [findSimilarTickets]: it returns, with success
    false exactly on the failures of [similarity_failure]. *)
Lemma findSimilarTickets_paths (trim : string -> string) (svc : services)
    (subject description : string) :
  exists v,
    result (findSimilarTickets trim svc subject description) = inr v
    /\ Similarity.success v = negb (similarity_failure trim svc subject description)
    /\ (similarity_failure trim svc subject description = true ->
        Similarity.results v = [] /\ Similarity.similarTickets v = []
        /\ exists reason, Similarity.error v = Some reason
             /\ ((In reason similarity_reasons /\ reason <> "")
                 \/ search_error trim svc subject description = Some reason)).
Proof.
  destruct svc as [chat emb cnt sel chk cre chkc addc mt].
  unfold result, run, findSimilarTickets, similarity_failure, store_unreachable,
    store_empty, extension_unavailable, column_unavailable, no_embedded_rows,
    embedding_failed, search_failed, search_error, embedding_sent, embedded_text,
    ensure, search, generateEmbedding, try_catch, bind, await, ret, throw,
    threw, reported_error. simpl.
  destruct cnt as [e|[d [err|] [[|n]|]]]; simpl; try close_path;
  (destruct chk as [e|[d1 [err1|] c1]]; simpl; try close_path;
   [destruct cre as [e|r]; simpl; try close_path|]);
  (destruct chkc as [e|[d2 [err2|] c2]]; simpl; try close_path;
   [destruct addc as [e|r']; simpl; try close_path|]);
  destruct sel as [e|[[[|row rows]|] [err3|] c3]]; simpl; try close_path;
  destruct (emb _) as [e|[[|first others]]]; simpl; try close_path;
  destruct (mt first) as [e|[[found|] [err4|] c4]]; simpl; close_path.
Qed.




(** A search that finds no neighbour is a success: the value has no error,
    no results and no similar tickets. *)
Example search_without_matches_succeeds :
  similarity_failure (fun s => s) (history_of []) "VPN is down" "" = false
  /\ result (findSimilarTickets (fun s => s) (history_of []) "VPN is down" "")
     = inr (ranked [] []).
Proof. split; vm_compute; reflexivity. Qed.

(* ================================================================== *)
(** ** The request handler *)

(** C10. When the pattern classifier throws, the handler answers with
    status 500 and the message of the exception, and the only call that
    left the process is the completion call: the similarity classifier was
    not invoked, whatever the ticket history would have answered. *)
Theorem pattern_failure_fails_request
    (JSON_parse : string -> option json) (trim : string -> string)
    (reconcile_untyped : json -> list Vector.Match -> exn + json)
    (svc : services) (body : Http.Request) (subject : string) (e : exn) :
  Http.subject body = Some subject ->
  subject <> "" ->
  result (classifyWithOpenAI JSON_parse svc subject (description_of body)) = inl e ->
  result (POST JSON_parse trim reconcile_untyped svc (Resolves body))
  = inr {| Http.status := 500;
           Http.body := Http.Failure ("Failed to classify ticket: " ++ exn_message e) |}
  /\ calls (POST JSON_parse trim reconcile_untyped svc (Resolves body))
     = [chat_call subject (description_of body)]
  /\ existsb similarity_call
             (calls (POST JSON_parse trim reconcile_untyped svc (Resolves body)))
     = false.
Proof.
  intros Hsubject Hne Hthrows.
  rewrite classifyWithOpenAI_result in Hthrows.
  assert (Hrun : run (POST JSON_parse trim reconcile_untyped svc (Resolves body))
                 = ([chat_call subject (description_of body)],
                    inr {| Http.status := 500;
                           Http.body :=
                             Http.Failure ("Failed to classify ticket: "
                                           ++ exn_message e) |})).
  { unfold run, POST, try_catch, bind at 1.
    rewrite Hsubject, (proj2 (String.eqb_neq subject "") Hne).
    unfold bind at 1. rewrite classifyWithOpenAI_from, Hthrows. reflexivity. }
  unfold result, calls. rewrite Hrun. simpl. auto.
Qed.

Lemma pattern_failure_fails_request_witness :
  Http.subject suspicious_email = Some "Suspicious email"
  /\ "Suspicious email" <> ""
  /\ result (classifyWithOpenAI (parses "{}" (JObject [])) over_quota
                                "Suspicious email" (description_of suspicious_email))
     = inl (ProviderError "429 You exceeded your current quota")
  /\ result (POST (parses "{}" (JObject [])) (fun s => s) (fun j _ => inr j) over_quota
                  (Resolves suspicious_email))
     = inr {| Http.status := 500;
              Http.body :=
                Http.Failure
                  "Failed to classify ticket: 429 You exceeded your current quota" |}
  /\ calls (POST (parses "{}" (JObject [])) (fun s => s) (fun j _ => inr j) over_quota
                 (Resolves suspicious_email))
     = [chat_call "Suspicious email" ""].
Proof.
  assert (H1 : Http.subject suspicious_email = Some "Suspicious email") by reflexivity.
  assert (H2 : "Suspicious email" <> "") by discriminate.
  assert (H3 : result (classifyWithOpenAI (parses "{}" (JObject [])) over_quota
                         "Suspicious email" (description_of suspicious_email))
               = inl (ProviderError "429 You exceeded your current quota")).
  { rewrite classifyWithOpenAI_result. reflexivity. }
  split; [exact H1 | split; [exact H2 | split; [exact H3|]]].
  destruct (pattern_failure_fails_request
              (parses "{}" (JObject [])) (fun s => s) (fun j _ => inr j)
              over_quota suspicious_email "Suspicious email"
              (ProviderError "429 You exceeded your current quota") H1 H2 H3)
    as (Hresult & Hcalls & _).
  split; [exact Hresult | exact Hcalls].
Defined.

(** The same store answers the similarity classifier when it is asked: the
    failure above is not for want of historical data. *)
Example similarity_would_have_answered :
  result (findSimilarTickets (fun s => s) over_quota "Suspicious email" "")
  = inr {| Similarity.success := true;
           Similarity.error := None;
           Similarity.results := [vmatch "Security" 100 1];
           Similarity.similarTickets := [neighbour (Some "Security")] |}.
Proof. vm_compute. reflexivity. Qed.

(* ================================================================== *)
(** ** The similarity classifier: ranking *)

(* ---- the tally over labels ---- *)

Lemma tally_over_labels (tickets : list ticket) (st : JSObject.t * nat) :
  fold_left count_ticket tickets st = fold_left count_label (labels tickets) st.
Proof.
  revert st. induction tickets as [|tk tickets IH]; intros st; [reflexivity|].
  simpl. unfold count_ticket at 2. destruct st as [gc total].
  destruct (truthy_group tk) as [g|]; simpl; apply IH.
Qed.

Lemma own_nums (acc : list (string * nat)) (g : string) :
  JSObject.own (nums acc) g = option_map Num (lookup acc g).
Proof.
  induction acc as [|[k n] acc IH]; simpl; [reflexivity|].
  destruct (String.eqb k g); [reflexivity | exact IH].
Qed.

Lemma bump_absent (acc : list (string * nat)) (g : string) :
  lookup acc g = None -> bump acc g = (acc ++ [(g, 1)])%list.
Proof.
  induction acc as [|[k n] acc IH]; simpl; [reflexivity|].
  destruct (String.eqb k g); [discriminate|].
  intros H. now rewrite IH.
Qed.

Lemma bump_present (acc : list (string * nat)) (g : string) (n : nat) :
  lookup acc g = Some n ->
  JSObject.replace (nums acc) g (Num (n + 1)) = nums (bump acc g).
Proof.
  induction acc as [|[k m] acc IH]; simpl; [discriminate|].
  destruct (String.eqb k g).
  - intros H. injection H as ->. reflexivity.
  - intros H. simpl. now rewrite IH.
Qed.

Lemma plain_not_inherited (g : string) :
  plain_name g = true -> JSObject.inherited g = None /\ String.eqb g "__proto__" = false.
Proof.
  unfold plain_name. destruct (JSObject.array_index g); [discriminate|].
  destruct (JSObject.inherited g) eqn:E; [discriminate|]. intros _. split; [reflexivity|].
  unfold JSObject.inherited in E.
  destruct (String.eqb g "constructor"); [discriminate|].
  destruct (String.eqb g "__proto__"); [discriminate | reflexivity].
Qed.

Lemma count_label_plain (acc : list (string * nat)) (total : nat) (g : string) :
  plain_name g = true ->
  count_label (nums acc, total) g = (nums (bump acc g), total + 1).
Proof.
  intros Hp. destruct (plain_not_inherited g Hp) as [Hi Hproto].
  unfold count_label, JSObject.set, JSObject.get. simpl.
  rewrite own_nums. destruct (lookup acc g) as [n|] eqn:E; simpl.
  - now rewrite (bump_present acc g n E).
  - rewrite Hi, Hproto. rewrite (bump_absent acc g E).
    unfold nums. rewrite map_app. reflexivity.
Qed.

Lemma tally_plain (l : list string) (acc : list (string * nat)) (total : nat) :
  (forall g, In g l -> plain_name g = true) ->
  fold_left count_label l (nums acc, total)
  = (nums (fold_left bump l acc), total + List.length l).
Proof.
  revert acc total. induction l as [|x l IH]; intros acc total Hp; simpl.
  - now rewrite Nat.add_0_r.
  - rewrite count_label_plain by (apply Hp; now left).
    rewrite IH by (intros g Hg; apply Hp; now right).
    f_equal. lia.
Qed.

(* ---- keys and counters of the folded tally ---- *)

Lemma keys_bump (acc : list (string * nat)) (x : string) :
  map fst (bump acc x)
  = if mem x (map fst acc) then map fst acc else (map fst acc ++ [x])%list.
Proof.
  unfold mem. induction acc as [|[k n] acc IH]; simpl; [reflexivity|].
  rewrite (String.eqb_sym x k).
  destruct (String.eqb k x); simpl; [reflexivity|].
  rewrite IH. now destruct (existsb (String.eqb x) (map fst acc)).
Qed.

Lemma mem_app (g : string) (l1 l2 : list string) :
  mem g (l1 ++ l2) = mem g l1 || mem g l2.
Proof. apply existsb_app. Qed.

Lemma mem_In (g : string) (l : list string) : mem g l = true <-> In g l.
Proof.
  unfold mem. rewrite existsb_exists. split.
  - intros (x & Hx & E). apply String.eqb_eq in E. now subst.
  - intros H. exists g. split; [exact H | apply String.eqb_refl].
Qed.

Lemma filter_known (ks d : list string) (x : string) :
  mem x ks = true ->
  filter (fun g => negb (mem g ks)) (filter (fun y => negb (String.eqb y x)) d)
  = filter (fun g => negb (mem g ks)) d.
Proof.
  intros Hx. induction d as [|y d IHd]; simpl; [reflexivity|].
  destruct (String.eqb y x) eqn:Hyx; simpl.
  - apply String.eqb_eq in Hyx. subst y. rewrite Hx. simpl. exact IHd.
  - now rewrite IHd.
Qed.

Lemma filter_new (ks d : list string) (x : string) :
  filter (fun g => negb (mem g (ks ++ [x]))) d
  = filter (fun g => negb (mem g ks)) (filter (fun y => negb (String.eqb y x)) d).
Proof.
  induction d as [|y d IHd]; simpl; [reflexivity|].
  rewrite mem_app. unfold mem at 2. simpl. rewrite orb_false_r.
  destruct (String.eqb y x) eqn:Hyx; simpl.
  - rewrite orb_true_r. simpl. exact IHd.
  - rewrite orb_false_r. destruct (mem y ks); simpl; now rewrite IHd.
Qed.

Lemma keys_tally (l : list string) (acc : list (string * nat)) :
  map fst (fold_left bump l acc)
  = (map fst acc
     ++ filter (fun g => negb (mem g (map fst acc))) (distinct l))%list.
Proof.
  revert acc. induction l as [|x l IH]; intros acc; simpl.
  - now rewrite app_nil_r.
  - rewrite IH, keys_bump.
    destruct (mem x (map fst acc)) eqn:Hx; simpl.
    + now rewrite filter_known.
    + rewrite <- app_assoc. simpl. now rewrite filter_new.
Qed.

Lemma lookup_bump (acc : list (string * nat)) (x g : string) :
  lookup (bump acc x) g
  = if String.eqb x g
    then Some (match lookup acc g with Some n => n + 1 | None => 1 end)
    else lookup acc g.
Proof.
  induction acc as [|[k n] acc IH]; simpl.
  - now destruct (String.eqb x g).
  - destruct (String.eqb k x) eqn:Hkx; simpl.
    + apply String.eqb_eq in Hkx. subst k. now destruct (String.eqb x g).
    + destruct (String.eqb k g) eqn:Hkg.
      * apply String.eqb_eq in Hkg. subst k.
        rewrite String.eqb_sym in Hkx. now rewrite Hkx.
      * exact IH.
Qed.

Lemma lookup_tally (l : list string) (acc : list (string * nat)) (g : string) :
  lookup (fold_left bump l acc) g
  = match lookup acc g, count_occ string_dec l g with
    | None, 0 => None
    | None, c => Some c
    | Some n, c => Some (n + c)
    end.
Proof.
  revert acc. induction l as [|x l IH]; intros acc; simpl.
  - destruct (lookup acc g); [now rewrite Nat.add_0_r | reflexivity].
  - rewrite IH, lookup_bump.
    destruct (string_dec x g) as [->|Hne].
    + rewrite String.eqb_refl.
      destruct (lookup acc g); f_equal; lia.
    + rewrite (proj2 (String.eqb_neq x g) Hne). reflexivity.
Qed.

Lemma lookup_In (acc : list (string * nat)) (g : string) (n : nat) :
  NoDup (map fst acc) -> In (g, n) acc -> lookup acc g = Some n.
Proof.
  induction acc as [|[k m] acc IH]; simpl; [contradiction|].
  intros Hnd [H|H].
  - injection H as -> ->. now rewrite String.eqb_refl.
  - inversion Hnd as [|? ? Hk Hnd']. subst.
    destruct (String.eqb k g) eqn:E.
    + apply String.eqb_eq in E. subst k. exfalso. apply Hk.
      change g with (fst (g, n)). now apply in_map.
    + now apply IH.
Qed.

Lemma distinct_In (l : list string) (g : string) : In g (distinct l) <-> In g l.
Proof.
  induction l as [|x l IH]; simpl; [tauto|].
  rewrite filter_In, IH. destruct (String.eqb g x) eqn:E.
  - apply String.eqb_eq in E. subst. tauto.
  - apply String.eqb_neq in E. simpl. split.
    + intros [H|[H _]]; auto.
    + intros [H|H]; [now left | right; auto].
Qed.

Lemma distinct_NoDup (l : list string) : NoDup (distinct l).
Proof.
  induction l as [|x l IH]; simpl; constructor.
  - rewrite filter_In, String.eqb_refl. simpl. intros [_ H]. discriminate.
  - now apply NoDup_filter.
Qed.

(** The counters after the tally: one per distinct label, in the order of
    first occurrence, holding the number of occurrences. *)
Lemma tally_counters (l : list string) :
  fold_left bump l [] = map (fun g => (g, count_occ string_dec l g)) (distinct l).
Proof.
  assert (Hkeys : map fst (fold_left bump l []) = distinct l).
  { rewrite keys_tally. simpl. induction (distinct l) as [|y d IHd]; simpl; congruence. }
  assert (Hvals : forall kn, In kn (fold_left bump l []) ->
                    kn = (fst kn, count_occ string_dec l (fst kn))).
  { intros [g n] Hin. simpl.
    assert (Hl : lookup (fold_left bump l []) g = Some n).
    { apply lookup_In; [|exact Hin]. rewrite Hkeys. apply distinct_NoDup. }
    rewrite lookup_tally in Hl. simpl in Hl.
    destruct (count_occ string_dec l g); [discriminate|]. now injection Hl as <-. }
  rewrite <- Hkeys, map_map.
  rewrite <- (map_id (fold_left bump l [])) at 1.
  apply map_ext_in. exact Hvals.
Qed.

(* ---- order of first occurrence ---- *)

Lemma StronglySorted_weaken {A} (R R' : A -> A -> Prop) (l : list A) :
  (forall a b, In a l -> In b l -> R a b -> R' a b) ->
  StronglySorted R l -> StronglySorted R' l.
Proof.
  intros Hw H. induction H as [|a l Hs IH Hall]; constructor.
  - apply IH. intros x y Hx Hy. apply Hw; now right.
  - rewrite Forall_forall in *. intros y Hy. apply Hw; [now left | now right | now apply Hall].
Qed.

Lemma StronglySorted_filter {A} (R : A -> A -> Prop) (f : A -> bool) (l : list A) :
  StronglySorted R l -> StronglySorted R (filter f l).
Proof.
  intros H. induction H as [|a l Hs IH Hall]; simpl; [constructor|].
  destruct (f a); [|exact IH]. constructor; [exact IH|].
  rewrite Forall_forall in *. intros y Hy. apply Hall.
  apply filter_In in Hy. tauto.
Qed.

Lemma StronglySorted_map {A B} (R : B -> B -> Prop) (f : A -> B) (l : list A) :
  StronglySorted (fun a b => R (f a) (f b)) l -> StronglySorted R (map f l).
Proof.
  intros H. induction H as [|a l Hs IH Hall]; simpl; constructor; [exact IH|].
  rewrite Forall_forall in *. intros y Hy.
  apply in_map_iff in Hy. destruct Hy as (x & <- & Hx). now apply Hall.
Qed.

Lemma distinct_by_position (l : list string) :
  StronglySorted (fun a b => position a l < position b l) (distinct l).
Proof.
  induction l as [|x l IH]; simpl; constructor.
  - apply StronglySorted_filter with (f := fun y => negb (String.eqb y x)) in IH.
    revert IH. apply StronglySorted_weaken.
    intros a b Ha Hb Hab.
    apply filter_In in Ha. apply filter_In in Hb.
    destruct Ha as [_ Ha]. destruct Hb as [_ Hb].
    apply negb_true_iff in Ha, Hb.
    rewrite (String.eqb_sym x a), (String.eqb_sym x b), Ha, Hb. lia.
  - rewrite Forall_forall. intros y Hy. apply filter_In in Hy. destruct Hy as [_ Hy].
    apply negb_true_iff in Hy.
    rewrite String.eqb_refl, (String.eqb_sym x y), Hy. lia.
Qed.

(* ---- the stable sort ---- *)

Section StableSort.

Context {A : Type}.
Variable cmp : A -> A -> float.
Variable key pos : A -> nat.

Lemma sort_insert_perm (x : A) (s : list A) :
  Permutation (x :: s) (sort_insert cmp x s).
Proof.
  induction s as [|y s IH]; simpl; [apply Permutation_refl|].
  destruct (0 <? cmp x y)%float; [|apply Permutation_refl].
  eapply perm_trans; [apply perm_swap|]. now apply perm_skip.
Qed.

Lemma sort_perm (l : list A) : Permutation l (sort cmp l).
Proof.
  induction l as [|x l IH]; simpl; [constructor|].
  eapply perm_trans; [|apply sort_insert_perm]. now apply perm_skip.
Qed.

Lemma sort_insert_sorted (x : A) (s : list A) :
  (forall y, In y s -> (0 <? cmp x y)%float = (key x <? key y)%nat) ->
  (forall y, In y s -> pos x < pos y) ->
  StronglySorted (precedes key pos) s ->
  StronglySorted (precedes key pos) (sort_insert cmp x s).
Proof.
  intros Hcmp Hpos Hs. induction Hs as [|y s Hs IH Hall]; simpl.
  - constructor; constructor.
  - rewrite (Hcmp y (or_introl eq_refl)).
    rewrite Forall_forall in Hall.
    destruct (key x <? key y)%nat eqn:E.
    + apply Nat.ltb_lt in E. constructor.
      * apply IH; intros z Hz; [apply Hcmp | apply Hpos]; now right.
      * rewrite Forall_forall. intros z Hz.
        apply (Permutation_in _ (Permutation_sym (sort_insert_perm x s))) in Hz.
        destruct Hz as [<-|Hz]; [now left | now apply Hall].
    + apply Nat.ltb_ge in E. constructor; [now constructor; [|rewrite Forall_forall]|].
      rewrite Forall_forall. intros z Hz.
      assert (Hxz : pos x < pos z) by now apply Hpos.
      assert (Hyz : key z <= key y).
      { destruct Hz as [<-|Hz]; [lia|]. destruct (Hall z Hz) as [H|[H _]]; lia. }
      unfold precedes. lia.
Qed.

Lemma sort_sorted (l : list A) :
  (forall x y, In x l -> In y l -> (0 <? cmp x y)%float = (key x <? key y)%nat) ->
  StronglySorted (fun a b => pos a < pos b) l ->
  StronglySorted (precedes key pos) (sort cmp l).
Proof.
  intros Hcmp Hl. induction Hl as [|x l Hl IH Hall]; simpl; [constructor|].
  rewrite Forall_forall in Hall.
  apply sort_insert_sorted.
  - intros y Hy. apply Hcmp; [now left|]. right.
    apply (Permutation_in _ (Permutation_sym (sort_perm l))). exact Hy.
  - intros y Hy. apply Hall.
    apply (Permutation_in _ (Permutation_sym (sort_perm l))). exact Hy.
  - apply IH. intros a b Ha Hb. apply Hcmp; now right.
Qed.

End StableSort.

(* ---- confidences in binary64 ---- *)

Lemma confidence_table :
  map float_confidence (pairs_below rounding_bound)
  = map exact_confidence (pairs_below rounding_bound).
Proof. vm_compute. reflexivity. Qed.

Lemma percent_table :
  forallb (fun a => forallb (percent_ok a) (seq 0 101)) (seq 0 101) = true.
Proof. vm_compute. reflexivity. Qed.

Lemma percentage_bound (n t : nat) : 1 <= n <= t -> percentage n t <= 100.
Proof.
  intros H. unfold percentage.
  assert (Hlt : (200 * n + t) / (2 * t) < 101)
    by (apply Nat.Div0.div_lt_upper_bound; lia).
  lia.
Qed.

Lemma confidence_exact (n t : nat) :
  1 <= n <= t -> t < rounding_bound ->
  Math.round ((number_of n / number_of t) * 100)%float
  = number_of (percentage n t).
Proof.
  intros Hn Ht.
  apply (proj1 (map_ext_in_iff (f := float_confidence) (g := exact_confidence)
                               (l := pairs_below rounding_bound))
               confidence_table (n, t)).
  unfold pairs_below. apply in_flat_map. exists t. split.
  - apply in_seq. unfold rounding_bound in *. lia.
  - apply in_map_iff. exists n. split; [reflexivity | apply in_seq; lia].
Qed.

Lemma percent_order (a b : nat) :
  a <= 100 -> b <= 100 ->
  (0 <? number_of b - number_of a)%float = (a <? b)%nat
  /\ (number_of b <=? number_of a)%float = (b <=? a)%nat
  /\ (0 <=? number_of a)%float = true
  /\ (number_of a <=? 100)%float = true.
Proof.
  intros Ha Hb.
  pose proof percent_table as H. rewrite forallb_forall in H.
  assert (Hab : percent_ok a b = true).
  { specialize (H a). rewrite forallb_forall in H.
    apply H; apply in_seq; lia. }
  unfold percent_ok in Hab.
  apply andb_prop in Hab. destruct Hab as [Hab H4].
  apply andb_prop in Hab. destruct Hab as [Hab H3].
  apply andb_prop in Hab. destruct Hab as [H1 H2].
  apply Bool.eqb_prop in H1, H2. auto.
Qed.

(* ---- the ranking on plain names ---- *)

Lemma entries_plain (gc : JSObject.t) :
  (forall kn, In kn gc -> JSObject.is_index kn = false) ->
  JSObject.entries gc = gc.
Proof.
  intros H. unfold JSObject.entries.
  assert (H1 : filter JSObject.is_index gc = []).
  { induction gc as [|kn gc IH]; simpl; [reflexivity|].
    rewrite (H kn (or_introl eq_refl)). apply IH. intros x Hx. apply H. now right. }
  assert (H2 : filter (fun kn => negb (JSObject.is_index kn)) gc = gc).
  { induction gc as [|kn gc IH]; simpl; [reflexivity|].
    rewrite (H kn (or_introl eq_refl)). simpl. f_equal.
    apply IH; [intros x Hx; apply H; now right|].
    simpl in H1. rewrite (H kn (or_introl eq_refl)) in H1. exact H1. }
  now rewrite H1, H2.
Qed.

Lemma plain_not_index (g : string) (c : counter) :
  plain_name g = true -> JSObject.is_index (g, c) = false.
Proof.
  unfold plain_name, JSObject.is_index. simpl.
  now destruct (JSObject.array_index g).
Qed.

Lemma rank_groups_plain (tickets : list ticket) :
  (forall g, In g (labels tickets) -> plain_name g = true) ->
  rank_groups tickets
  = sort by_confidence (map (entry_of tickets) (distinct (labels tickets))).
Proof.
  intros Hp. unfold rank_groups, tally.
  rewrite tally_over_labels.
  change ([], 0) with (nums [], 0).
  rewrite (tally_plain (labels tickets) [] 0 Hp), tally_counters. simpl.
  rewrite entries_plain.
  - unfold nums. rewrite !map_map. reflexivity.
  - intros kn Hkn. unfold nums in Hkn. rewrite map_map in Hkn.
    apply in_map_iff in Hkn. destruct Hkn as (g & <- & Hg). simpl.
    apply plain_not_index, Hp. now apply distinct_In.
Qed.

Lemma labels_In (tickets : list ticket) (g : string) :
  In g (labels tickets) ->
  exists tk, In tk tickets /\ assigned_group tk = Some g.
Proof.
  unfold labels. rewrite in_flat_map. intros (tk & Htk & Hg).
  exists tk. split; [exact Htk|].
  unfold truthy_group in Hg. destruct (assigned_group tk) as [g'|]; [|contradiction].
  destruct (String.eqb g' ""); [contradiction|].
  destruct Hg as [->|[]]. reflexivity.
Qed.

Lemma labels_length (tickets : list ticket) :
  List.length (labels tickets) <= List.length tickets.
Proof.
  induction tickets as [|tk tickets IH]; simpl; [lia|].
  rewrite length_app. destruct (truthy_group tk); simpl; lia.
Qed.

Lemma occurrences_range (tickets : list ticket) (g : string) :
  In g (labels tickets) -> 1 <= occurrences g tickets <= labelled tickets.
Proof.
  intros H. unfold occurrences, labelled. split.
  - now apply (count_occ_In string_dec).
  - apply count_occ_bound.
Qed.

Lemma ranked_entries (tickets : list ticket) :
  (forall g, In g (labels tickets) -> plain_name g = true) ->
  labelled tickets < rounding_bound ->
  (forall e, In e (rank_groups tickets) ->
     In (Vector.name e) (labels tickets)
     /\ Vector.count e = Num (occurrences (Vector.name e) tickets)
     /\ Vector.confidence e = number_of (share tickets (Vector.name e)))
  /\ StronglySorted (fun a b => outranks tickets (Vector.name a) (Vector.name b))
                    (rank_groups tickets).
Proof.
  intros Hp Ht.
  rewrite (rank_groups_plain tickets Hp).
  assert (Hentry : forall g, In g (distinct (labels tickets)) ->
            Vector.name (entry_of tickets g) = g
            /\ Vector.count (entry_of tickets g) = Num (occurrences g tickets)
            /\ Vector.confidence (entry_of tickets g) = number_of (share tickets g)).
  { intros g Hg. apply (proj1 (distinct_In _ _)) in Hg.
    pose proof (occurrences_range tickets g Hg) as Hr.
    unfold entry_of, group_confidence, share. simpl.
    split; [reflexivity|]. split; [reflexivity|].
    apply (confidence_exact _ _ Hr Ht). }
  split.
  - intros e He.
    apply (Permutation_in _ (Permutation_sym (sort_perm by_confidence _))) in He.
    apply in_map_iff in He. destruct He as (g & <- & Hg).
    destruct (Hentry g Hg) as (-> & Hc & Hconf).
    split; [now apply distinct_In | now split].
  - apply (sort_sorted by_confidence
             (fun e => share tickets (Vector.name e))
             (fun e => first_seen (Vector.name e) tickets)).
    + intros x y Hx Hy.
      apply in_map_iff in Hx. destruct Hx as (gx & <- & Hgx).
      apply in_map_iff in Hy. destruct Hy as (gy & <- & Hgy).
      destruct (Hentry gx Hgx) as (-> & _ & Hcx).
      destruct (Hentry gy Hgy) as (-> & _ & Hcy).
      unfold by_confidence. rewrite Hcx, Hcy. unfold share.
      apply (proj1 (distinct_In _ _)) in Hgx, Hgy.
      apply percent_order; apply percentage_bound, occurrences_range; assumption.
    + apply StronglySorted_map
        with (R := fun a b : Vector.Match =>
                     first_seen (Vector.name a) tickets
                     < first_seen (Vector.name b) tickets)
             (f := entry_of tickets).
      exact (distinct_by_position (labels tickets)).
Qed.

Ltac close_success_path :=
  solve [ intros H Hs; injection H as <-; first [discriminate Hs | reflexivity] ].

Lemma successful_results (trim : string -> string) (svc : services)
    (subject description : string) (v : Similarity.Outcome) :
  result (findSimilarTickets trim svc subject description) = inr v ->
  Similarity.success v = true ->
  Similarity.results v = rank_groups (Similarity.similarTickets v).
Proof.
  destruct svc as [chat emb cnt sel chk cre chkc addc mt].
  unfold result, run, findSimilarTickets, ensure, search, generateEmbedding,
    try_catch, bind, await, ret, throw. simpl.
  destruct cnt as [e|[d [err|] [[|n]|]]]; simpl; try close_success_path;
  (destruct chk as [e|[d1 [err1|] c1]]; simpl; try close_success_path;
   [destruct cre as [e|r]; simpl; try close_success_path|]);
  (destruct chkc as [e|[d2 [err2|] c2]]; simpl; try close_success_path;
   [destruct addc as [e|r']; simpl; try close_success_path|]);
  destruct sel as [e|[[[|row rows]|] [err3|] c3]]; simpl; try close_success_path;
  destruct (emb _) as [e|[[|first others]]]; simpl; try close_success_path;
  destruct (mt first) as [e|[[found|] [err4|] c4]]; simpl; close_success_path.
Qed.

(** A store that returns no more than the rows it is asked for stays below
    the bound. *)
Lemma requested_rows_within_bound (similarTickets : list ticket) :
  List.length similarTickets <= match_count ->
  labelled similarTickets < rounding_bound.
Proof.
  unfold match_count, rounding_bound, labelled. intros H.
  pose proof (labels_length similarTickets). lia.
Qed.

(** C6, as the code has it. When the similarity classifier succeeds with
    fewer than 40 counted neighbours (the query asks for 5 rows), and no
    counted group name is an array index or the name of a member inherited
    from [Object.prototype], then every entry of results is the
    group of a returned neighbour, its count is the number of neighbours
    with that group, its confidence is round(100 * count / counted
    neighbours) and lies between 0 and 100, and results is sorted by
    confidence, highest first, groups of equal confidence in the order in
    which they were first met. A neighbour is counted when its group is
    neither null nor empty. *)
Theorem similarity_results_ranked (trim : string -> string) (svc : services)
    (subject description : string) (v : Similarity.Outcome) :
  result (findSimilarTickets trim svc subject description) = inr v ->
  Similarity.success v = true ->
  labelled (Similarity.similarTickets v) < rounding_bound ->
  (forall g, In g (labels (Similarity.similarTickets v)) -> plain_name g = true) ->
  (forall e, In e (Similarity.results v) ->
     (exists tk, In tk (Similarity.similarTickets v)
                 /\ assigned_group tk = Some (Vector.name e))
     /\ Vector.count e = Num (occurrences (Vector.name e) (Similarity.similarTickets v))
     /\ Vector.confidence e
        = number_of (share (Similarity.similarTickets v) (Vector.name e))
     /\ share (Similarity.similarTickets v) (Vector.name e) <= 100
     /\ (0 <=? Vector.confidence e)%float = true
     /\ (Vector.confidence e <=? 100)%float = true)
  /\ StronglySorted
       (fun a b => (Vector.confidence b <=? Vector.confidence a)%float = true)
       (Similarity.results v)
  /\ StronglySorted (outranks (Similarity.similarTickets v))
                    (map Vector.name (Similarity.results v)).
Proof.
  intros Hv Hs Ht Hp.
  rewrite (successful_results _ _ _ _ _ Hv Hs).
  set (tickets := Similarity.similarTickets v) in *.
  destruct (ranked_entries tickets Hp Ht) as [Hentries Hsorted].
  assert (Hshare : forall g, In g (labels tickets) -> share tickets g <= 100)
    by (intros g Hg; apply percentage_bound, occurrences_range, Hg).
  assert (Hfloat : forall e, In e (rank_groups tickets) ->
            share tickets (Vector.name e) <= 100
            /\ (0 <=? Vector.confidence e)%float = true
            /\ (Vector.confidence e <=? 100)%float = true).
  { intros e He. destruct (Hentries e He) as (Hin & _ & ->).
    split; [now apply Hshare|].
    apply (percent_order _ _ (Hshare _ Hin) (Hshare _ Hin)). }
  split; [|split].
  - intros e He. destruct (Hentries e He) as (Hin & Hc & Hconf).
    split; [now apply labels_In|]. split; [exact Hc|]. split; [exact Hconf|].
    now apply Hfloat.
  - revert Hsorted. apply StronglySorted_weaken.
    intros a b Ha Hb Hab.
    destruct (Hentries a Ha) as (Hina & _ & ->).
    destruct (Hentries b Hb) as (Hinb & _ & ->).
    rewrite (proj1 (proj2 (percent_order _ _ (Hshare _ Hina) (Hshare _ Hinb)))).
    apply Nat.leb_le. unfold outranks in Hab. lia.
  - apply StronglySorted_map. exact Hsorted.
Qed.

Lemma five_neighbours_plain (g : string) :
  In g (labels five_neighbours) -> plain_name g = true.
Proof.
  simpl. intros H.
  repeat (destruct H as [<-|H]; [reflexivity|]). contradiction.
Qed.

Lemma similarity_results_ranked_witness :
  result (findSimilarTickets (fun s => s) (history_of five_neighbours) "VPN is down" "")
  = inr (ranked five_neighbours
                [ vmatch "Security" 40 2; vmatch "Network Operations" 40 2;
                  vmatch "Desktop Support" 20 1 ])
  /\ labelled five_neighbours < rounding_bound
  /\ StronglySorted (outranks five_neighbours)
                    [ "Security"; "Network Operations"; "Desktop Support" ].
Proof.
  assert (Hv : result (findSimilarTickets (fun s => s) (history_of five_neighbours)
                                          "VPN is down" "")
               = inr (ranked five_neighbours
                             [ vmatch "Security" 40 2; vmatch "Network Operations" 40 2;
                               vmatch "Desktop Support" 20 1 ]))
    by (vm_compute; reflexivity).
  assert (Hlen : labelled five_neighbours < rounding_bound)
    by (vm_compute; lia).
  split; [exact Hv | split; [exact Hlen|]].
  exact (proj2 (proj2 (similarity_results_ranked
                         (fun s => s) (history_of five_neighbours) "VPN is down" ""
                         (ranked five_neighbours
                                 [ vmatch "Security" 40 2;
                                   vmatch "Network Operations" 40 2;
                                   vmatch "Desktop Support" 20 1 ])
                         Hv eq_refl Hlen five_neighbours_plain))).
Defined.

(** C6 as stated fails in three places. Groups named "10" and "2" tie and
    come out as "2", "10", although "10" was met first: array-index keys
    are enumerated in numeric order. A group named "constructor" finds the
    inherited member, its counter becomes a string and its confidence NaN.
    And with forty neighbours, 23 of them in one group, binary64 gives
    (23 / 40) * 100 = 57.49999999999999 and the confidence 57, where
    round(100 * 23 / 40) is 58. *)
Lemma similarity_ranking_counterexamples :
  (result (findSimilarTickets (fun s => s) (history_of numbered_groups) "VPN is down" "")
   = inr (ranked numbered_groups [ vmatch "2" 50 1; vmatch "10" 50 1 ])
   /\ first_seen "10" numbered_groups < first_seen "2" numbered_groups
   /\ ~ outranks numbered_groups "2" "10")
  /\ (result (findSimilarTickets (fun s => s) (history_of inherited_group)
                                 "VPN is down" "")
      = inr (ranked inherited_group
                    [ {| Vector.name := "constructor";
                         Vector.confidence := nan;
                         Vector.count := Str "function Object() { [native code] }1" |};
                      vmatch "Security" 50 1 ])
      /\ (0 <=? nan)%float = false)
  /\ (result (findSimilarTickets (fun s => s) (history_of forty_neighbours)
                                 "VPN is down" "")
      = inr (ranked forty_neighbours
                    [ vmatch "Security" 57 23; vmatch "Desktop Support" 43 17 ])
      /\ share forty_neighbours "Security" = 58
      /\ Math.round (100 * number_of 23 / number_of 40)%float = 58%float).
Proof.
  split; [|split].
  - split; [vm_compute; reflexivity|]. split; [vm_compute; lia|].
    unfold outranks. vm_compute. lia.
  - split; vm_compute; reflexivity.
  - repeat split; vm_compute; reflexivity.
Qed.

(* ---- the names of the ranked groups are pairwise distinct ---- *)

Lemma own_absent (gc : JSObject.t) (k : string) :
  JSObject.own gc k = None -> ~ In k (map fst gc).
Proof.
  induction gc as [|[k' v] gc IH]; simpl; [tauto|].
  destruct (String.eqb k' k) eqn:E; [discriminate|].
  apply String.eqb_neq in E. intros H [H'|H']; [contradiction | now apply IH].
Qed.

Lemma keys_replace (gc : JSObject.t) (k : string) (v : counter) :
  map fst (JSObject.replace gc k v) = map fst gc.
Proof.
  induction gc as [|[k' v'] gc IH]; simpl; [reflexivity|].
  destruct (String.eqb k' k); simpl; [reflexivity | now rewrite IH].
Qed.

Lemma keys_set_distinct (gc : JSObject.t) (k : string) (v : counter) :
  NoDup (map fst gc) -> NoDup (map fst (JSObject.set gc k v)).
Proof.
  intros H. unfold JSObject.set. destruct (JSObject.own gc k) eqn:E.
  - now rewrite keys_replace.
  - destruct (String.eqb k "__proto__"); [exact H|].
    rewrite map_app. simpl.
    apply NoDup_rev in H. rewrite <- (rev_involutive (map fst gc ++ [k])).
    apply NoDup_rev. rewrite rev_app_distr. simpl. constructor; [|exact H].
    rewrite <- in_rev. now apply own_absent.
Qed.

Lemma tally_keys_distinct (similarTickets : list ticket) :
  NoDup (map fst (fst (tally similarTickets))).
Proof.
  unfold tally.
  assert (H : forall st, NoDup (map fst (fst st)) ->
                NoDup (map fst (fst (fold_left count_ticket similarTickets st)))).
  { induction similarTickets as [|tk tks IH]; intros st Hst; [exact Hst|].
    simpl. apply IH. unfold count_ticket. destruct st as [gc total].
    destruct (truthy_group tk); simpl; [now apply keys_set_distinct | exact Hst]. }
  apply H. constructor.
Qed.

Lemma insert_index_perm (kv : string * counter) (l : JSObject.t) :
  Permutation (kv :: l) (JSObject.insert_index kv l).
Proof.
  induction l as [|kv' l IH]; simpl; [apply Permutation_refl|].
  destruct (JSObject.index_of kv <=? JSObject.index_of kv')%N;
    [apply Permutation_refl|].
  eapply perm_trans; [apply perm_swap|]. now apply perm_skip.
Qed.

Lemma filter_partition_perm {A} (f : A -> bool) (l : list A) :
  Permutation (filter f l ++ filter (fun x => negb (f x)) l) l.
Proof.
  induction l as [|x l IH]; simpl; [constructor|].
  destruct (f x); simpl.
  - now apply perm_skip.
  - apply Permutation_sym. eapply perm_trans; [|apply Permutation_middle].
    apply perm_skip. now apply Permutation_sym.
Qed.

Lemma entries_perm (gc : JSObject.t) : Permutation (JSObject.entries gc) gc.
Proof.
  unfold JSObject.entries.
  eapply perm_trans; [|apply (filter_partition_perm JSObject.is_index)].
  apply Permutation_app_tail.
  induction (filter JSObject.is_index gc) as [|kv l IH]; simpl; [constructor|].
  eapply perm_trans; [apply Permutation_sym, insert_index_perm|].
  now apply perm_skip.
Qed.

(** Whatever the group names are, no two ranked groups share a name. *)
Lemma rank_groups_names_distinct (similarTickets : list ticket) :
  NoDup (map Vector.name (rank_groups similarTickets)).
Proof.
  pose proof (tally_keys_distinct similarTickets) as Hkeys.
  unfold rank_groups. destruct (tally similarTickets) as [gc total]. simpl in Hkeys.
  apply (Permutation_NoDup (l := map fst gc)); [|exact Hkeys].
  apply Permutation_sym.
  eapply perm_trans;
    [apply Permutation_map, Permutation_sym, (sort_perm by_confidence)|].
  rewrite map_map.
  erewrite map_ext; [apply Permutation_map, entries_perm|].
  intros [g c]. reflexivity.
Qed.

(** Rule 3 for every entry that carries the pattern's name, on the lists
    the similarity classifier produces. *)
Lemma reconcile_partial_support_ranked (p : Pattern.Result)
    (similarTickets : list ticket) (top m : Vector.Match) (rest : list Vector.Match) :
  rank_groups similarTickets = top :: rest ->
  Pattern.name (Pattern.primaryGroup p) <> Vector.name top ->
  In m rest ->
  Vector.name m = Pattern.name (Pattern.primaryGroup p) ->
  Final.confidence (determineFinalRecommendation p (rank_groups similarTickets))
  = Math.round
      (Pattern.confidence (Pattern.primaryGroup p) * 0.7
       + Vector.confidence m * 0.3)%float
  /\ Final.source (determineFinalRecommendation p (rank_groups similarTickets))
     = "pattern-weighted".
Proof.
  intros Hr Htop Hin Hm.
  pose proof (rank_groups_names_distinct similarTickets) as Hnd.
  rewrite Hr in *. now apply reconcile_partial_support_distinct.
Qed.

(* ================================================================== *)
(** ** Further properties of the reconciler *)

Lemma find_first_found {A} (f : A -> bool) (l : list A) (m : A) :
  find_first f l = Some m -> In m l /\ f m = true.
Proof.
  induction l as [|y l IH]; simpl; [discriminate|].
  destruct (f y) eqn:Hy; intros H.
  - injection H as <-. auto.
  - destruct (IH H). auto.
Qed.

Lemma find_first_missing {A} (f : A -> bool) (l : list A) :
  find_first f l = None -> forall x, In x l -> f x = false.
Proof.
  induction l as [|y l IH]; simpl; [contradiction|].
  destruct (f y) eqn:Hy; [discriminate|].
  intros H x [<-|Hx]; [exact Hy | now apply IH].
Qed.

Lemma reconcile_rules (p : Pattern.Result) (s : list Vector.Match) :
  let primary := Pattern.primaryGroup p in
  let final := determineFinalRecommendation p s in
  (s = []
   /\ Final.group final = Pattern.name primary
   /\ Final.confidence final = Pattern.confidence primary
   /\ Final.source final = "pattern-based")
  \/ (exists top rest,
        s = top :: rest /\ Pattern.name primary = Vector.name top
        /\ Final.group final = Pattern.name primary
        /\ Final.confidence final
           = Math.round (Pattern.confidence primary * 0.4
                         + Vector.confidence top * 0.6)%float
        /\ Final.source final = "combined")
  \/ (exists top rest m,
        s = top :: rest /\ Pattern.name primary <> Vector.name top
        /\ In m rest /\ Vector.name m = Pattern.name primary
        /\ Final.group final = Pattern.name primary
        /\ Final.confidence final
           = Math.round (Pattern.confidence primary * 0.7
                         + Vector.confidence m * 0.3)%float
        /\ Final.source final = "pattern-weighted")
  \/ (exists top rest,
        s = top :: rest
        /\ (forall r, In r s -> Vector.name r <> Pattern.name primary)
        /\ (70 <? Vector.confidence top)%float = true
        /\ Final.group final = Vector.name top
        /\ Final.confidence final = Vector.confidence top
        /\ Final.source final = "history-weighted")
  \/ (exists top rest,
        s = top :: rest
        /\ (forall r, In r s -> Vector.name r <> Pattern.name primary)
        /\ (70 <? Vector.confidence top)%float = false
        /\ Final.group final = Pattern.name primary
        /\ Final.confidence final = Math.min (Pattern.confidence primary) 70
        /\ Final.source final = "pattern-based").
Proof.
  intros primary final. subst primary final.
  unfold determineFinalRecommendation.
  destruct s as [|top rest]; [left; repeat split; reflexivity|]. right.
  destruct (String.eqb _ (Vector.name top)) eqn:Etop.
  { left. apply String.eqb_eq in Etop. exists top, rest. repeat split; auto. }
  right. apply String.eqb_neq in Etop.
  destruct (find_first _ (top :: rest)) as [m|] eqn:Efind.
  { left. apply find_first_found in Efind. destruct Efind as [Hin Hm].
    apply String.eqb_eq in Hm. exists top, rest, m.
    split; [reflexivity|]. split; [exact Etop|]. split.
    - destruct Hin as [<-|Hin]; [congruence | exact Hin].
    - repeat split; auto. }
  right.
  assert (Hnone : forall r, In r (top :: rest) ->
                    Vector.name r <> Pattern.name (Pattern.primaryGroup p)).
  { intros r Hr. apply String.eqb_neq.
    exact (find_first_missing _ _ Efind r Hr). }
  destruct (70 <? Vector.confidence top)%float eqn:E70.
  - left. exists top, rest. repeat split; auto.
  - right. exists top, rest. repeat split; auto.
Qed.

(** The source of a recommendation tells which rule produced it: it is
    "combined" exactly when the history is not empty and its top entry
    carries the pattern's group, and in every case it is one of the four
    tags. *)
Theorem reconcile_source_reads_agreement (p : Pattern.Result) (s : list Vector.Match) :
  In (Final.source (determineFinalRecommendation p s)) source_tags
  /\ (Final.source (determineFinalRecommendation p s) = "combined"
      <-> exists top rest,
            s = top :: rest /\ Vector.name top = Pattern.name (Pattern.primaryGroup p))
  /\ (Final.source (determineFinalRecommendation p s) = "history-weighted"
      <-> Final.group (determineFinalRecommendation p s)
          <> Pattern.name (Pattern.primaryGroup p)).
Proof.
  destruct (reconcile_rules p s)
    as [(Hs & Hg & _ & Hsrc)
       |[(top & rest & Hs & Hn & Hg & _ & Hsrc)
        |[(top & rest & m & Hs & Hn & _ & _ & Hg & _ & Hsrc)
         |[(top & rest & Hs & Hnone & _ & Hg & _ & Hsrc)
          |(top & rest & Hs & Hnone & _ & Hg & _ & Hsrc)]]]];
    rewrite Hsrc, Hg; (split; [simpl; auto|]); split; split;
    try discriminate; try congruence.
  - intros (top & rest & E & _). rewrite Hs in E. discriminate.
  - intros _. exists top, rest. split; [exact Hs | now symmetry].
  - intros (top' & rest' & E & Hn'). rewrite Hs in E. injection E as <- <-.
    congruence.
  - intros (top' & rest' & E & Hn'). rewrite Hs in E. injection E as <- <-.
    exfalso. apply (Hnone top); [rewrite Hs; now left | exact Hn'].
  - intros _. apply (Hnone top). rewrite Hs. now left.
  - intros (top' & rest' & E & Hn'). rewrite Hs in E. injection E as <- <-.
    exfalso. apply (Hnone top); [rewrite Hs; now left | exact Hn'].
Qed.

(** X1. The recommendation departs from the pattern classifier's primary group
    only under rule 4: the history is not empty, no entry of it carries the
    pattern's group, and its top entry has a confidence above 70; the
    recommendation then takes the group and the confidence of that top
    entry, with source "history-weighted". *)
Theorem reconcile_departs_only_on_strong_history (p : Pattern.Result)
    (s : list Vector.Match) :
  Final.group (determineFinalRecommendation p s)
  <> Pattern.name (Pattern.primaryGroup p) ->
  exists top rest,
    s = top :: rest
    /\ (forall r, In r s -> Vector.name r <> Pattern.name (Pattern.primaryGroup p))
    /\ (70 <? Vector.confidence top)%float = true
    /\ Final.group (determineFinalRecommendation p s) = Vector.name top
    /\ Final.confidence (determineFinalRecommendation p s) = Vector.confidence top
    /\ Final.source (determineFinalRecommendation p s) = "history-weighted".
Proof.
  intros Hne.
  destruct (reconcile_rules p s)
    as [(_ & Hg & _)
       |[(? & ? & _ & _ & Hg & _)
        |[(? & ? & ? & _ & _ & _ & _ & Hg & _)
         |[(top & rest & Hs & Hnone & H70 & Hg & Hc & Hsrc)
          |(? & ? & _ & _ & _ & Hg & _)]]]];
    try contradiction.
  exists top, rest. auto 10.
Qed.

Lemma reconcile_departs_only_on_strong_history_witness :
  Final.group (determineFinalRecommendation
                 (pattern_of "Application Support" 50 "login page")
                 [vmatch "Database Administration" 85 4])
  <> "Application Support"
  /\ exists top rest,
       [vmatch "Database Administration" 85 4] = top :: rest
       /\ Final.group (determineFinalRecommendation
                         (pattern_of "Application Support" 50 "login page")
                         [vmatch "Database Administration" 85 4])
          = Vector.name top.
Proof.
  assert (H : Final.group (determineFinalRecommendation
                             (pattern_of "Application Support" 50 "login page")
                             [vmatch "Database Administration" 85 4])
              <> "Application Support") by (vm_compute; discriminate).
  split; [exact H|].
  destruct (reconcile_departs_only_on_strong_history
              (pattern_of "Application Support" 50 "login page")
              [vmatch "Database Administration" 85 4] H)
    as (top & rest & Hs & _ & _ & Hg & _).
  exists top, rest. split; [exact Hs | exact Hg].
Defined.

(** The three computed confidences on whole percentages: each stays
    between the values it is computed from. *)
Lemma blends_within (lo hi a b : nat) (x y : float) :
  hi <= 100 -> lo <= a <= hi -> lo <= b <= hi ->
  x = number_of a -> y = number_of b ->
  whole_between lo hi (Math.round (x * 0.4 + y * 0.6)%float)
  /\ whole_between lo hi (Math.round (x * 0.7 + y * 0.3)%float)
  /\ ((70 <? y)%float = false -> whole_between lo hi (Math.min x 70)).
Proof.
  intros Hhi Ha Hb -> ->. split; [|split].
  - rewrite (agree_exact a b) by lia.
    eexists. split; [|reflexivity].
    pose proof (agree_within a b). lia.
  - destruct (partial_near_exact a b) as (k & -> & _ & Hk); [lia|lia|].
    exists k. split; [lia | reflexivity].
  - intros H70. rewrite strong_exact in H70 by lia. apply Nat.ltb_ge in H70.
    exists (Nat.min a 70). split; [lia|].
    assert (Hin : In a (seq 0 101)) by (apply in_seq; lia).
    exact (proj1 map_ext_in_iff capped_table a Hin).
Qed.

(** X2. The confidence of the recommendation stays within the confidences it
    was computed from: when the pattern's confidence and the confidence of
    every historical entry are whole numbers between [lo] and [hi] (at most
    100), so is the confidence of the recommendation, in binary64 as the
    code computes it. *)
Theorem reconcile_confidence_within_inputs (lo hi : nat) (p : Pattern.Result)
    (s : list Vector.Match) :
  hi <= 100 ->
  whole_between lo hi (Pattern.confidence (Pattern.primaryGroup p)) ->
  (forall r, In r s -> whole_between lo hi (Vector.confidence r)) ->
  whole_between lo hi (Final.confidence (determineFinalRecommendation p s)).
Proof.
  intros Hhi (a & Ha & Ea) Hs.
  destruct (reconcile_rules p s)
    as [(_ & _ & Hc & _)
       |[(top & rest & -> & _ & _ & Hc & _)
        |[(top & rest & m & -> & _ & Hm & _ & _ & Hc & _)
         |[(top & rest & -> & _ & _ & _ & Hc & _)
          |(top & rest & -> & _ & H70 & _ & Hc & _)]]]];
    rewrite Hc; clear Hc.
  - exists a. auto.
  - destruct (Hs top (or_introl eq_refl)) as (b & Hb & Eb).
    exact (proj1 (blends_within lo hi a b _ _ Hhi Ha Hb Ea Eb)).
  - destruct (Hs m (or_intror Hm)) as (b & Hb & Eb).
    exact (proj1 (proj2 (blends_within lo hi a b _ _ Hhi Ha Hb Ea Eb))).
  - exact (Hs top (or_introl eq_refl)).
  - destruct (Hs top (or_introl eq_refl)) as (b & Hb & Eb).
    exact (proj2 (proj2 (blends_within lo hi a b _ _ Hhi Ha Hb Ea Eb)) H70).
Qed.

Lemma reconcile_confidence_within_inputs_witness :
  60 <= 100
  /\ whole_between 20 60 (Pattern.confidence
                            (Pattern.primaryGroup (pattern_of "Security" 60 "phishing")))
  /\ (forall r, In r [vmatch "Desktop Support" 40 2; vmatch "Security" 20 1] ->
        whole_between 20 60 (Vector.confidence r))
  /\ whole_between 20 60
       (Final.confidence
          (determineFinalRecommendation
             (pattern_of "Security" 60 "phishing")
             [vmatch "Desktop Support" 40 2; vmatch "Security" 20 1])).
Proof.
  assert (H1 : 60 <= 100) by lia.
  assert (H2 : whole_between 20 60
                 (Pattern.confidence
                    (Pattern.primaryGroup (pattern_of "Security" 60 "phishing")))).
  { exists 60. split; [lia | vm_compute; reflexivity]. }
  assert (H3 : forall r,
             In r [vmatch "Desktop Support" 40 2; vmatch "Security" 20 1] ->
             whole_between 20 60 (Vector.confidence r)).
  { intros r [<-|[<-|[]]].
    - exists 40. split; [lia | vm_compute; reflexivity].
    - exists 20. split; [lia | vm_compute; reflexivity]. }
  split; [exact H1 | split; [exact H2 | split; [exact H3|]]].
  exact (reconcile_confidence_within_inputs 20 60
           (pattern_of "Security" 60 "phishing")
           [vmatch "Desktop Support" 40 2; vmatch "Security" 20 1] H1 H2 H3).
Defined.

(** X3. On whole percentages the blend of rule 2 is computed without any
    floating-point error: when the top entry of the history carries the
    pattern's group, the confidence of the recommendation is
    (4 * pattern + 6 * history + 5) / 10 rounded down, which is the weighted
    mean rounded to the nearest whole number, halves going up. *)
Theorem reconcile_agreement_exact (p : Pattern.Result) (top : Vector.Match)
    (rest : list Vector.Match) (a b : nat) :
  Pattern.name (Pattern.primaryGroup p) = Vector.name top ->
  Pattern.confidence (Pattern.primaryGroup p) = number_of a -> a <= 100 ->
  Vector.confidence top = number_of b -> b <= 100 ->
  Final.confidence (determineFinalRecommendation p (top :: rest))
  = number_of ((4 * a + 6 * b + 5) / 10).
Proof.
  intros Hn Ea Ha Eb Hb. unfold determineFinalRecommendation.
  rewrite Hn, String.eqb_refl. simpl. rewrite Ea, Eb.
  exact (agree_exact a b Ha Hb).
Qed.

Lemma reconcile_agreement_exact_witness :
  Pattern.name (Pattern.primaryGroup (pattern_of "Security" 85 "phishing"))
  = Vector.name (vmatch "Security" 60 3)
  /\ Final.confidence (determineFinalRecommendation
                         (pattern_of "Security" 85 "phishing")
                         [vmatch "Security" 60 3; vmatch "Desktop Support" 40 2])
     = number_of 70.
Proof.
  split; [reflexivity|].
  refine (reconcile_agreement_exact
            (pattern_of "Security" 85 "phishing") (vmatch "Security" 60 3)
            [vmatch "Desktop Support" 40 2] 85 60 eq_refl _ _ _ _).
  - vm_compute. reflexivity.
  - lia.
  - vm_compute. reflexivity.
  - lia.
Defined.

(** X4. On whole percentages the blend of rule 3 is the weighted mean
    (7 * pattern + 3 * history) / 10 rounded to the nearest whole number,
    halves going up, or one less than that: the binary64 sum can fall just
    below a half that exact arithmetic reaches. *)
Theorem reconcile_partial_support_near_exact (p : Pattern.Result)
    (top m : Vector.Match) (before after : list Vector.Match) (a b : nat) :
  Pattern.name (Pattern.primaryGroup p) <> Vector.name top ->
  (forall r, In r before -> Vector.name r <> Pattern.name (Pattern.primaryGroup p)) ->
  Vector.name m = Pattern.name (Pattern.primaryGroup p) ->
  Pattern.confidence (Pattern.primaryGroup p) = number_of a -> a <= 100 ->
  Vector.confidence m = number_of b -> b <= 100 ->
  exists k,
    Final.confidence
      (determineFinalRecommendation p (top :: before ++ m :: after)%list)
    = number_of k
    /\ (k = (7 * a + 3 * b + 5) / 10 \/ k + 1 = (7 * a + 3 * b + 5) / 10).
Proof.
  intros Htop Hbefore Hm Ea Ha Eb Hb.
  rewrite (reconcile_first_match p top m before after Htop Hbefore Hm).
  simpl. rewrite Ea, Eb.
  destruct (partial_near_exact a b Ha Hb) as (k & Hk & Hnear & _).
  exists k. split; assumption.
Qed.

Lemma reconcile_partial_support_near_exact_witness :
  exists k,
    Final.confidence
      (determineFinalRecommendation
         (pattern_of "Security" 92 "phishing")
         [vmatch "Desktop Support" 33 1; vmatch "Security" 67 2])
    = number_of k
    /\ (k = (7 * 92 + 3 * 67 + 5) / 10 \/ k + 1 = (7 * 92 + 3 * 67 + 5) / 10).
Proof.
  refine (reconcile_partial_support_near_exact
            (pattern_of "Security" 92 "phishing")
            (vmatch "Desktop Support" 33 1) (vmatch "Security" 67 2) [] []
            92 67 _ _ eq_refl _ _ _ _).
  - discriminate.
  - intros r [].
  - vm_compute. reflexivity.
  - lia.
  - vm_compute. reflexivity.
  - lia.
Defined.

(** The second case occurs: 92 * 0.7 + 67 * 0.3 is 84.5 exactly and
    84.49999999999999 in binary64, so the recommendation carries 84. *)
Example partial_support_one_below :
  Final.confidence
    (determineFinalRecommendation
       (pattern_of "Security" 92 "phishing")
       [vmatch "Desktop Support" 33 1; vmatch "Security" 67 2])
  = number_of 84
  /\ (7 * 92 + 3 * 67 + 5) / 10 = 85.
Proof. split; vm_compute; reflexivity. Qed.

(* ================================================================== *)
(** ** The set-up route *)

(** X5. The set-up route always answers, with status 200 or 500, and it
    reports success exactly when the count of the ticket history and the
    call that adds the column both resolve without an error. *)
Theorem setup_succeeds_iff (svc : services) :
  exists r,
    result (SetupVector.GET svc) = inr r
    /\ (SetupVector.status r = 200 \/ SetupVector.status r = 500)
    /\ (r = setup_done
        <-> resolved_clean (count_ticket_history svc)
            && resolved_clean (add_embedding_column svc) = true)
    /\ (SetupVector.status r = 200 <-> r = setup_done).
Proof.
  destruct svc as [chat emb cnt sel chk cre chkc addc mt].
  unfold result, run, SetupVector.GET, SetupVector.create_extension,
    SetupVector.add_column, try_catch, bind, await, ret, resolved_clean,
    threw, reported_error, setup_done. simpl.
  destruct cre as [e|r0]; simpl;
    (destruct cnt as [e1|[d [err|] c]]; simpl;
     [| |destruct addc as [e2|[d2 [err2|] c2]]; simpl]);
    eexists; (split; [reflexivity|]); simpl;
    (split; [auto|]); split; split; intros H;
    try discriminate H; try reflexivity.
Qed.

(** X6. Whether the extension could be created has no effect on the answer of
    the set-up route: a reported error and an exception of that call are
    both dropped, and the calls that follow are the same. *)
Theorem setup_ignores_extension_failure (svc : services)
    (answer : outcome (Pg.response unit)) :
  run (SetupVector.GET (with_extension_creation svc answer))
  = run (SetupVector.GET svc).
Proof.
  destruct svc as [chat emb cnt sel chk cre chkc addc mt].
  unfold run, SetupVector.GET, SetupVector.create_extension,
    SetupVector.add_column, try_catch, bind, await, ret, with_extension_creation.
  simpl. destruct answer, cre; reflexivity.
Qed.

(** The set-up route first asks for the extension, then counts the ticket
    history, and asks for the column only when that count resolved without
    an error; it makes no other call. *)
Theorem setup_calls (svc : services) :
  calls (SetupVector.GET svc)
  = ([Rpc "create_vector_extension"; CountTicketHistory]
     ++ (if resolved_clean (count_ticket_history svc)
         then [Rpc "add_embedding_column"] else []))%list.
Proof.
  destruct svc as [chat emb cnt sel chk cre chkc addc mt].
  unfold calls, run, SetupVector.GET, SetupVector.create_extension,
    SetupVector.add_column, try_catch, bind, await, ret, resolved_clean,
    threw, reported_error. simpl.
  destruct cre as [e|r0]; simpl;
    (destruct cnt as [e1|[d [err|] c]]; simpl;
     [| |destruct addc as [e2|[d2 [err2|] c2]]; simpl]); reflexivity.
Qed.

(** So the route reports that the vector extension was set up even when the
    database refused to create it. *)
Example setup_reports_success_without_extension :
  threw (create_vector_extension extension_refused) = true
  /\ result (SetupVector.GET extension_refused) = inr setup_done.
Proof. split; vm_compute; reflexivity. Qed.

(* ================================================================== *)
(** ** Calls and answers of the classification route *)

Lemma framed_ret {A} (a : A) : framed (ret a).
Proof. intros log. unfold ret, calls, result, run. simpl. now rewrite app_nil_r. Qed.

Lemma framed_throw {A} (e : exn) : framed (@throw A e).
Proof. intros log. unfold throw, calls, result, run. simpl. now rewrite app_nil_r. Qed.

Lemma framed_await {A} (c : call) (answer : outcome A) : framed (await c answer).
Proof. intros log. reflexivity. Qed.

Lemma framed_bind {A B} (m : M A) (k : A -> M B) :
  framed m -> (forall a, framed (k a)) -> framed (bind m k).
Proof.
  intros Hm Hk log. unfold bind, calls, result, run. rewrite (Hm log).
  unfold calls, result, run. destruct (m []) as [c1 [e|a]]; simpl; [reflexivity|].
  rewrite (Hk a (log ++ c1)%list), (Hk a c1). simpl.
  now rewrite app_assoc.
Qed.

Lemma framed_try_catch {A} (m : M A) (handler : exn -> M A) :
  framed m -> (forall e, framed (handler e)) -> framed (try_catch m handler).
Proof.
  intros Hm Hh log. unfold try_catch, calls, result, run. rewrite (Hm log).
  unfold calls, result, run. destruct (m []) as [c1 [e|a]]; simpl; [|reflexivity].
  rewrite (Hh e (log ++ c1)%list), (Hh e c1). simpl.
  now rewrite app_assoc.
Qed.

(** Decomposes a computation into its binds, handlers and awaited calls. *)
Ltac framed :=
  repeat first
    [ apply framed_ret
    | apply framed_throw
    | apply framed_await
    | apply framed_bind; [|intros ?]
    | apply framed_try_catch; [|intros ?]
    | match goal with
      | |- framed (match ?x with _ => _ end) => destruct x
      end ].

Lemma findSimilarTickets_framed (trim : string -> string) (svc : services)
    (subject description : string) :
  framed (findSimilarTickets trim svc subject description).
Proof.
  unfold findSimilarTickets, ensure, search, generateEmbedding. framed.
Qed.

(** Runs through the paths of [findSimilarTickets] in program order,
    closing each one with [tac]. *)
Ltac similarity_paths tac :=
  match goal with
  | svc : services |- _ =>
      destruct svc as [chat emb cnt sel chk cre chkc addc mt];
      unfold calls, result, run, findSimilarTickets, ensure, search,
        generateEmbedding, try_catch, bind, await, ret, throw,
        store_ready, similarity_failure, store_unreachable, store_empty,
        extension_unavailable, column_unavailable, no_embedded_rows,
        embedding_failed, search_failed, search_error, embedding_sent,
        embedded_text, threw, reported_error; simpl;
      destruct cnt as [?|[? [?|] [[|?]|]]]; simpl; try solve [tac];
      destruct chk as [?|[? [?|] ?]]; simpl; try solve [tac];
      destruct cre as [?|?]; simpl; try solve [tac];
      destruct chkc as [?|[? [?|] ?]]; simpl; try solve [tac];
      destruct addc as [?|?]; simpl; try solve [tac];
      destruct sel as [?|[[[|? ?]|] [?|] ?]]; simpl; try solve [tac];
      destruct (emb _) as [?|[[|? ?]]] eqn:?; simpl; try solve [tac];
      match goal with
      | |- context [mt ?e] => destruct (mt e) as [?|[[?|] [?|] ?]]; simpl; solve [tac]
      end
  end.

(** Splits a membership in a concrete list into its cases. *)
Ltac in_cases H :=
  simpl in H;
  repeat (destruct H as [H|H]; [try discriminate H|]); try contradiction.

(** When the ticket history cannot be counted or is empty, the similarity
    classifier stops after that one query: no other database call is made
    and no embedding is requested. *)
Theorem similarity_stops_at_unusable_store (trim : string -> string)
    (svc : services) (subject description : string) :
  store_unreachable svc || store_empty svc = true ->
  calls (findSimilarTickets trim svc subject description) = [CountTicketHistory].
Proof.
  similarity_paths ltac:(intros H; first [reflexivity | discriminate H]).
Qed.

Lemma similarity_stops_at_unusable_store_witness :
  store_unreachable store_down || store_empty store_down = true
  /\ calls (findSimilarTickets (fun s => s) store_down "VPN is down" "")
     = [CountTicketHistory].
Proof.
  assert (H : store_unreachable store_down || store_empty store_down = true)
    by reflexivity.
  split; [exact H|].
  exact (similarity_stops_at_unusable_store (fun s => s) store_down "VPN is down" "" H).
Defined.

(** X7. An embedding is requested exactly when every check of the store has
    passed, and then once, from the model text-embedding-ada-002, for the
    trimmed text of subject, a space and the description. *)
Theorem embedding_requested_when_store_ready (trim : string -> string)
    (svc : services) (subject description : string) :
  filter is_embedding_call (calls (findSimilarTickets trim svc subject description))
  = if store_ready svc
    then [CreateEmbedding "text-embedding-ada-002"
                          (embedded_text trim subject description)]
    else [].
Proof.
  similarity_paths ltac:(reflexivity).
Qed.

(** X8. The search is only ever asked with the threshold 0.5 and the count 5,
    and for the embedding the provider returned for the ticket text. *)
Theorem search_is_asked_as_configured (trim : string -> string)
    (svc : services) (subject description : string)
    (embedding : list float) (threshold : float) (count : nat) :
  In (MatchTickets embedding threshold count)
     (calls (findSimilarTickets trim svc subject description)) ->
  threshold = match_threshold /\ count = match_count
  /\ embedding_sent trim svc subject description = Some embedding
  /\ store_ready svc = true.
Proof.
  similarity_paths
    ltac:(intros H; in_cases H; injection H as <- <- <-;
          repeat split; reflexivity).
Qed.

Lemma search_is_asked_as_configured_witness :
  In (MatchTickets [0.25%float; 0.5%float] 0.5 5)
     (calls (findSimilarTickets (fun s => s) (history_of five_neighbours)
                                "VPN is down" ""))
  /\ embedding_sent (fun s => s) (history_of five_neighbours) "VPN is down" ""
     = Some [0.25%float; 0.5%float].
Proof.
  assert (H : In (MatchTickets [0.25%float; 0.5%float] 0.5 5)
                 (calls (findSimilarTickets (fun s => s) (history_of five_neighbours)
                                            "VPN is down" ""))).
  { vm_compute. tauto. }
  split; [exact H|].
  exact (proj1 (proj2 (proj2 (search_is_asked_as_configured
                                (fun s => s) (history_of five_neighbours)
                                "VPN is down" "" _ _ _ H)))).
Defined.

(** X9. The similarity classifier alters the database only after a check has
    reported an error: it asks to create the extension only when the check
    of the extension resolved with an error, and to add the column only
    when the check of the column did. *)
Theorem creation_follows_reported_error (trim : string -> string)
    (svc : services) (subject description : string) :
  (In (Rpc "create_vector_extension")
      (calls (findSimilarTickets trim svc subject description)) ->
   reported_error (check_vector_extension svc) = true)
  /\ (In (Rpc "add_embedding_column")
         (calls (findSimilarTickets trim svc subject description)) ->
      reported_error (check_embedding_column svc) = true).
Proof.
  similarity_paths
    ltac:(split; intros H; first [reflexivity | in_cases H]).
Qed.

Lemma creation_follows_reported_error_witness :
  In (Rpc "create_vector_extension")
     (calls (findSimilarTickets (fun s => s) creation_denied "Suspicious email" ""))
  /\ reported_error (check_vector_extension creation_denied) = true.
Proof.
  assert (H : In (Rpc "create_vector_extension")
                 (calls (findSimilarTickets (fun s => s) creation_denied
                                            "Suspicious email" "")))
    by (vm_compute; tauto).
  split; [exact H|].
  exact (proj1 (creation_follows_reported_error
                  (fun s => s) creation_denied "Suspicious email" "") H).
Defined.

(** X10. Within one run the similarity classifier makes no call twice, and at
    most eight calls in all, the count of the ticket history first. *)
Theorem similarity_calls_once (trim : string -> string)
    (svc : services) (subject description : string) :
  NoDup (calls (findSimilarTickets trim svc subject description))
  /\ List.length (calls (findSimilarTickets trim svc subject description)) <= 8
  /\ hd_error (calls (findSimilarTickets trim svc subject description))
     = Some CountTicketHistory.
Proof.
  similarity_paths
    ltac:(split;
          [repeat (constructor; [simpl; intuition discriminate|]); constructor
          |split; [simpl; lia | reflexivity]]).
Qed.


(* ------------------------------------------------------------------ *)
(** *** The handler *)

Lemma findSimilarTickets_returns (trim : string -> string) (svc : services)
    (subject description : string) :
  exists v,
    result (findSimilarTickets trim svc subject description) = inr v
    /\ Similarity.results v = rank_groups (Similarity.similarTickets v)
    /\ (Similarity.success v = true -> Similarity.error v = None)
    /\ (Similarity.success v = false ->
        Similarity.error v <> None /\ Similarity.similarTickets v = []).
Proof.
  similarity_paths
    ltac:(eexists; split; [reflexivity|]; simpl;
          split; [reflexivity|]; split; intros H;
          first [discriminate H | reflexivity | split; [discriminate | reflexivity]]).
Qed.

(** The reconciler makes no call. *)
Lemma reconcile_pure (reconcile_untyped : json -> list Vector.Match -> exn + json)
    (j : json) (results : list Vector.Match) (log : list call) :
  reconcile reconcile_untyped j results log
  = (log, result (reconcile reconcile_untyped j results)).
Proof.
  unfold result, run, reconcile, ret, throw.
  repeat match goal with
         | |- context [match ?x with _ => _ end] => destruct x
         end; reflexivity.
Qed.

Lemma reconcile_typed (reconcile_untyped : json -> list Vector.Match -> exn + json)
    (j pg : json) (g : Pattern.Group) (results : list Vector.Match) :
  field j "primaryGroup" = Some pg ->
  as_group pg = Some g ->
  result (reconcile reconcile_untyped j results)
  = inr (Typed (determineFinalRecommendation
                  {| Pattern.primaryGroup := g;
                     Pattern.alternativeGroups := alternatives_of j |}
                  results)).
Proof.
  intros Hpg Hg. unfold result, run, reconcile.
  destruct j; try discriminate Hpg. rewrite Hpg.
  destruct pg; try discriminate Hg; rewrite Hg; reflexivity.
Qed.

Lemma reconcile_missing (reconcile_untyped : json -> list Vector.Match -> exn + json)
    (j : json) (results : list Vector.Match) :
  j <> JNull ->
  field j "primaryGroup" = None ->
  result (reconcile reconcile_untyped j results)
  = inl (TypeError "Cannot read properties of undefined (reading 'name')").
Proof.
  intros Hj Hpg. unfold result, run, reconcile.
  destruct j; try (now elim Hj); rewrite Hpg; reflexivity.
Qed.

Lemma POST_run (JSON_parse : string -> option json) (trim : string -> string)
    (reconcile_untyped : json -> list Vector.Match -> exn + json)
    (svc : services) (body : Http.Request) (subject : string) :
  Http.subject body = Some subject ->
  subject <> "" ->
  run (POST JSON_parse trim reconcile_untyped svc (Resolves body))
  = match result (classifyWithOpenAI JSON_parse svc subject (description_of body)) with
    | inl e => ([chat_call subject (description_of body)], inr (failure_response e))
    | inr j =>
        (chat_call subject (description_of body)
           :: calls (findSimilarTickets trim svc subject (description_of body)),
         match result (findSimilarTickets trim svc subject (description_of body)) with
         | inl e => inr (failure_response e)
         | inr v => inr (combined_response reconcile_untyped j v)
         end)
    end.
Proof.
  intros Hsubject Hne. rewrite classifyWithOpenAI_result.
  unfold run, POST, try_catch, bind at 1.
  rewrite Hsubject, (proj2 (String.eqb_neq subject "") Hne).
  unfold bind at 1. rewrite classifyWithOpenAI_from. simpl.
  destruct (classified _ _) as [e|j]; [reflexivity|].
  unfold bind at 1. rewrite (findSimilarTickets_framed trim svc subject _ _).
  simpl. destruct (result (findSimilarTickets _ _ _ _)) as [e|v]; [reflexivity|].
  unfold bind. rewrite reconcile_pure. unfold combined_response.
  destruct (result (reconcile _ _ _)); reflexivity.
Qed.

Lemma POST_rejects (JSON_parse : string -> option json)
    (trim : string -> string)
    (reconcile_untyped : json -> list Vector.Match -> exn + json) (svc : services) :
  (forall e,
     run (POST JSON_parse trim reconcile_untyped svc (Throws e))
     = ([], inr (failure_response e)))
  /\ (forall body,
        Http.subject body = None \/ Http.subject body = Some "" ->
        run (POST JSON_parse trim reconcile_untyped svc (Resolves body))
        = ([], inr subject_required)).
Proof.
  split.
  - intros e. reflexivity.
  - intros body [H|H]; unfold run, POST, try_catch, bind; rewrite H; reflexivity.
Qed.

(** X11. A request that cannot be answered is turned away before any call
    leaves the process: a body that cannot be read gives status 500 with
    the message of the exception, and a body whose subject is missing or
    empty gives status 400 with "Subject is required". *)
Theorem handler_rejects_before_any_call (JSON_parse : string -> option json)
    (trim : string -> string)
    (reconcile_untyped : json -> list Vector.Match -> exn + json) (svc : services) :
  (forall e,
     run (POST JSON_parse trim reconcile_untyped svc (Throws e))
     = ([], inr (failure_response e)))
  /\ (forall body,
        Http.subject body = None \/ Http.subject body = Some "" ->
        run (POST JSON_parse trim reconcile_untyped svc (Resolves body))
        = ([], inr subject_required)).
Proof.
  split.
  - intros e. reflexivity.
  - intros body [H|H]; unfold run, POST, try_catch, bind; rewrite H; reflexivity.
Qed.

(** X12. The handler always answers, and never throws: the status is 200, 400
    or 500; it is 400 exactly when the body was read and names no subject;
    and a 200 answer is the only one that carries a classification. *)
Theorem handler_always_answers (JSON_parse : string -> option json)
    (trim : string -> string)
    (reconcile_untyped : json -> list Vector.Match -> exn + json) (svc : services)
    (request : outcome Http.Request) :
  exists r,
    result (POST JSON_parse trim reconcile_untyped svc request) = inr r
    /\ In (Http.status r) [200; 400; 500]
    /\ (Http.status r = 400
        <-> exists body,
              request = Resolves body
              /\ (Http.subject body = None \/ Http.subject body = Some ""))
    /\ (Http.status r = 200 <-> exists c, Http.body r = Http.Success c).
Proof.
  destruct request as [e|body].
  { exists (failure_response e). split; [reflexivity|]. simpl.
    split; [tauto|]. split; split; try discriminate.
    - intros (body & H & _). discriminate H.
    - intros (c & H). discriminate H. }
  destruct (Http.subject body) as [subject|] eqn:Hsubject;
    [destruct (string_dec subject "") as [->|Hne]|].
  2: { unfold result. rewrite (POST_run _ _ _ _ body subject Hsubject Hne).
       assert (Hfail : forall e,
                 In (Http.status (failure_response e)) [200; 400; 500]
                 /\ (Http.status (failure_response e) = 400
                     <-> exists body0,
                           Resolves body = Resolves body0
                           /\ (Http.subject body0 = None
                               \/ Http.subject body0 = Some ""))
                 /\ (Http.status (failure_response e) = 200
                     <-> exists c, Http.body (failure_response e) = Http.Success c)).
       { intros e. simpl. split; [tauto|]. split; split; try discriminate.
         - intros (b & Hb & [H|H]); injection Hb as <-; rewrite Hsubject in H;
             [discriminate H | injection H as ->; now elim Hne].
         - intros (c & H). discriminate H. }
       destruct (result (classifyWithOpenAI _ _ _ _)) as [e|j]; simpl;
         [eexists; split; [reflexivity | apply Hfail]|].
       destruct (findSimilarTickets_returns trim svc subject (description_of body))
         as (v & -> & _).
       eexists. split; [reflexivity|].
       unfold combined_response.
       destruct (result (reconcile _ _ _)) as [e|final]; [apply Hfail|].
       simpl. split; [tauto|]. split; split; try discriminate; try reflexivity.
       - intros (b & Hb & [H|H]); injection Hb as <-; rewrite Hsubject in H;
           [discriminate H | injection H as ->; now elim Hne].
       - intros _. eexists. reflexivity. }
  all: exists subject_required;
    (split; [unfold result;
             rewrite (proj2 (POST_rejects JSON_parse trim
                               reconcile_untyped svc) body) by auto;
             reflexivity|]);
    simpl; (split; [tauto|]); split; split; try discriminate; try reflexivity.
  all: try (intros _; exists body; split; [reflexivity | auto]).
  all: intros (c & H); discriminate H.
Qed.

Lemma handler_rejects_before_any_call_witness :
  (Http.subject {| Http.subject := Some ""; Http.description := Some "no network" |} = None
   \/ Http.subject {| Http.subject := Some ""; Http.description := Some "no network" |}
      = Some "")
  /\ run (POST (parses "{}" (JObject [])) (fun s => s) (fun j _ => inr j) over_quota
               (Resolves {| Http.subject := Some "";
                            Http.description := Some "no network" |}))
     = ([], inr subject_required).
Proof.
  assert (H : Http.subject {| Http.subject := Some "";
                              Http.description := Some "no network" |} = None
              \/ Http.subject {| Http.subject := Some "";
                                 Http.description := Some "no network" |} = Some "")
    by (right; reflexivity).
  split; [exact H|].
  exact (proj2 (handler_rejects_before_any_call
                  (parses "{}" (JObject [])) (fun s => s) (fun j _ => inr j) over_quota)
               _ H).
Defined.

(** X13. The handler asks the model first and consults the ticket history only
    once the model has answered with text that parses: the calls of a
    request with a subject are the completion call, followed by the calls
    of the similarity classifier when the pattern classifier returned. *)
Theorem handler_consults_history_after_model (JSON_parse : string -> option json)
    (trim : string -> string)
    (reconcile_untyped : json -> list Vector.Match -> exn + json)
    (svc : services) (body : Http.Request) (subject : string) :
  Http.subject body = Some subject ->
  subject <> "" ->
  calls (POST JSON_parse trim reconcile_untyped svc (Resolves body))
  = chat_call subject (description_of body)
      :: match result (classifyWithOpenAI JSON_parse svc subject (description_of body)) with
         | inl _ => []
         | inr _ => calls (findSimilarTickets trim svc subject (description_of body))
         end.
Proof.
  intros Hsubject Hne. unfold calls at 1.
  rewrite (POST_run _ _ _ _ body subject Hsubject Hne).
  destruct (result (classifyWithOpenAI _ _ _ _)); reflexivity.
Qed.

Lemma handler_consults_history_after_model_witness :
  Http.subject vpn_down = Some "VPN is down"
  /\ "VPN is down" <> ""
  /\ calls (POST (parses network_text network_answer) (fun s => s) (fun j _ => inr j)
                 (ready_store (says network_text) (pg_ok (Some five_neighbours) None))
                 (Resolves vpn_down))
     = [ chat_call "VPN is down" "";
         CountTicketHistory;
         Rpc "check_vector_extension";
         Rpc "check_embedding_column";
         SelectEmbedded;
         CreateEmbedding "text-embedding-ada-002" "VPN is down ";
         MatchTickets [0.25%float; 0.5%float] 0.5 5 ].
Proof.
  assert (H1 : Http.subject vpn_down = Some "VPN is down") by reflexivity.
  assert (H2 : "VPN is down" <> "") by discriminate.
  split; [exact H1 | split; [exact H2|]].
  rewrite (handler_consults_history_after_model
             (parses network_text network_answer) (fun s => s) (fun j _ => inr j)
             (ready_store (says network_text) (pg_ok (Some five_neighbours) None))
             vpn_down "VPN is down" H1 H2).
  vm_compute. reflexivity.
Defined.




(** On other answers the status can depend on the history. A confidence
    that is an object whose [valueOf] and [toString] are no functions is
    copied by rule 1 and multiplied by rule 2: with an empty history the
    answer is 200, with a neighbour of the same group the multiplication
    throws and the answer is 500. *)
Example status_can_depend_on_history :
  shaped_or_missing unconvertible_answer = false
  /\ Http.status
       (combined_response (fun _ _ => inl conversion_error) unconvertible_answer
                          (failed "Ticket history table not accessible"))
     = 200
  /\ Http.status
       (combined_response (fun _ _ => inl conversion_error) unconvertible_answer
                          (ranked [neighbour (Some "Security")]
                                  (rank_groups [neighbour (Some "Security")])))
     = 500.
Proof. repeat split; vm_compute; reflexivity. Qed.

(** X15. Cold start. When the model answers with a well-formed primary group
    and the similarity classifier fails, for whatever reason, the handler
    still answers with status 200: the recommendation is the model's
    primary group with the model's confidence and reasoning and the source
    "pattern-based", and the similarity part of the answer reports the
    failure with no recommendations, a count of 0 and a confidence of 0. *)
Theorem cold_start_answer (JSON_parse : string -> option json)
    (trim : string -> string)
    (reconcile_untyped : json -> list Vector.Match -> exn + json)
    (svc : services) (body : Http.Request) (subject : string)
    (j pg : json) (g : Pattern.Group) :
  Http.subject body = Some subject ->
  subject <> "" ->
  result (classifyWithOpenAI JSON_parse svc subject (description_of body)) = inr j ->
  field j "primaryGroup" = Some pg ->
  as_group pg = Some g ->
  similarity_failure trim svc subject (description_of body) = true ->
  exists reason,
    result (POST JSON_parse trim reconcile_untyped svc (Resolves body))
    = inr (json_response 200
             (Http.Success
                {| Http.patternBasedClassification := j;
                   Http.vectorSimilarityClassification := no_history reason;
                   Http.finalRecommendation := Typed (pattern_only g) |})).
Proof.
  intros Hsubject Hne Hj Hpg Hg Hfail.
  unfold result at 1. rewrite (POST_run _ _ _ _ body subject Hsubject Hne), Hj.
  destruct (findSimilarTickets_paths trim svc subject (description_of body))
    as (v & -> & Hsuccess & Hfailure).
  destruct (Hfailure Hfail) as (Hresults & Htickets & reason & Hreason & _).
  rewrite Hfail in Hsuccess. exists reason. simpl.
  unfold combined_response, view_of.
  rewrite (reconcile_typed reconcile_untyped j pg g _ Hpg Hg).
  rewrite Hresults, Htickets, Hsuccess, Hreason. reflexivity.
Qed.

Lemma cold_start_answer_witness :
  similarity_failure (fun s => s)
    (ready_store (says network_text) (Throws (ProviderError "fetch failed")))
    "VPN is down" "" = true
  /\ exists reason,
       result (POST (parses network_text network_answer) (fun s => s) (fun j _ => inr j)
                    (ready_store (says network_text)
                                 (Throws (ProviderError "fetch failed")))
                    (Resolves vpn_down))
       = inr (json_response 200
                (Http.Success
                   {| Http.patternBasedClassification := network_answer;
                      Http.vectorSimilarityClassification := no_history reason;
                      Http.finalRecommendation :=
                        Typed (pattern_only
                                 {| Pattern.name := "Network Operations";
                                    Pattern.confidence := 90;
                                    Pattern.reasoning := "vpn" |}) |})).
Proof.
  assert (H : similarity_failure (fun s => s)
                (ready_store (says network_text)
                             (Throws (ProviderError "fetch failed")))
                "VPN is down" "" = true) by reflexivity.
  split; [exact H|].
  refine (cold_start_answer
            (parses network_text network_answer) (fun s => s) (fun j _ => inr j)
            (ready_store (says network_text) (Throws (ProviderError "fetch failed")))
            vpn_down "VPN is down" network_answer
            (json_group "Network Operations" 90 "vpn") _
            eq_refl _ _ eq_refl eq_refl H).
  - discriminate.
  - rewrite classifyWithOpenAI_result. reflexivity.
Defined.

(** X16. An answer of the model that parses but has no [primaryGroup] fails the
    request with status 500, and only after the similarity classifier has
    run: its calls were made and its result is dropped. *)
Theorem unshaped_answer_fails_after_search (JSON_parse : string -> option json)
    (trim : string -> string)
    (reconcile_untyped : json -> list Vector.Match -> exn + json)
    (svc : services) (body : Http.Request) (subject : string) (j : json) :
  Http.subject body = Some subject ->
  subject <> "" ->
  result (classifyWithOpenAI JSON_parse svc subject (description_of body)) = inr j ->
  j <> JNull ->
  field j "primaryGroup" = None ->
  run (POST JSON_parse trim reconcile_untyped svc (Resolves body))
  = (chat_call subject (description_of body)
       :: calls (findSimilarTickets trim svc subject (description_of body)),
     inr (failure_response
            (TypeError "Cannot read properties of undefined (reading 'name')"))).
Proof.
  intros Hsubject Hne Hj Hnull Hpg.
  rewrite (POST_run _ _ _ _ body subject Hsubject Hne), Hj.
  destruct (findSimilarTickets_returns trim svc subject (description_of body))
    as (v & -> & _).
  unfold combined_response.
  rewrite (reconcile_missing reconcile_untyped j _ Hnull Hpg). reflexivity.
Qed.

Lemma unshaped_answer_fails_after_search_witness :
  field (JObject []) "primaryGroup" = None
  /\ run (POST (parses "{}" (JObject [])) (fun s => s) (fun j _ => inr j)
               (history_of five_neighbours) (Resolves vpn_down))
     = ([ chat_call "VPN is down" "";
          CountTicketHistory;
          Rpc "check_vector_extension";
          Rpc "check_embedding_column";
          SelectEmbedded;
          CreateEmbedding "text-embedding-ada-002" "VPN is down ";
          MatchTickets [0.25%float; 0.5%float] 0.5 5 ],
        inr (failure_response
               (TypeError "Cannot read properties of undefined (reading 'name')"))).
Proof.
  split; [reflexivity|].
  refine (eq_trans
            (unshaped_answer_fails_after_search
               (parses "{}" (JObject [])) (fun s => s) (fun j _ => inr j)
               (history_of five_neighbours) vpn_down "VPN is down" (JObject [])
               eq_refl _ _ _ eq_refl) _).
  - discriminate.
  - rewrite classifyWithOpenAI_result. reflexivity.
  - discriminate.
  - vm_compute. reflexivity.
Defined.

(* ================================================================== *)
(** ** Further properties of the ranking *)

(* ---- the keys of the tally, whatever the names ---- *)

Lemma own_present (gc : JSObject.t) (k : string) (c : counter) :
  JSObject.own gc k = Some c -> In k (map fst gc).
Proof.
  induction gc as [|[k' v] gc IH]; simpl; [discriminate|].
  destruct (String.eqb k' k) eqn:E.
  - apply String.eqb_eq in E. now left.
  - intros H. right. now apply IH.
Qed.

Lemma keys_set (gc : JSObject.t) (g : string) (v : counter) (k : string) :
  In k (map fst (JSObject.set gc g v))
  <-> In k (map fst gc) \/ (k = g /\ g <> "__proto__").
Proof.
  unfold JSObject.set. destruct (JSObject.own gc g) as [c|] eqn:E.
  - rewrite keys_replace. split; [now left|].
    intros [H|[-> _]]; [exact H | exact (own_present gc g c E)].
  - destruct (String.eqb g "__proto__") eqn:Ep.
    + apply String.eqb_eq in Ep. split; [now left|].
      intros [H|[_ H]]; [exact H | contradiction].
    + apply String.eqb_neq in Ep. rewrite map_app, in_app_iff. simpl.
      split.
      * intros [H|[<-|[]]]; [now left | right; now split].
      * intros [H|[-> _]]; [now left | right; now left].
Qed.

Lemma keys_count_labels (l : list string) (st : JSObject.t * nat) (k : string) :
  In k (map fst (fst (fold_left count_label l st)))
  <-> In k (map fst (fst st)) \/ (In k l /\ k <> "__proto__").
Proof.
  revert st. induction l as [|x l IH]; intros st; simpl; [tauto|].
  rewrite IH. unfold count_label at 1. simpl. rewrite keys_set.
  split.
  - intros [[H|[-> H]]|[H H']]; auto.
  - intros [H|[[->|H] H']]; auto.
Qed.

Lemma ranked_names_perm (similarTickets : list ticket) :
  Permutation (ranked_names similarTickets) (map fst (fst (tally similarTickets))).
Proof.
  unfold ranked_names, rank_groups. destruct (tally similarTickets) as [gc total].
  simpl.
  eapply perm_trans;
    [apply Permutation_map, Permutation_sym, (sort_perm by_confidence)|].
  rewrite map_map.
  erewrite map_ext; [apply Permutation_map, entries_perm|].
  intros [g c]. reflexivity.
Qed.

Lemma ranked_names_In (similarTickets : list ticket) (g : string) :
  In g (ranked_names similarTickets)
  <-> In g (labels similarTickets) /\ g <> "__proto__".
Proof.
  split.
  - intros H. apply (Permutation_in _ (ranked_names_perm similarTickets)) in H.
    unfold tally in H. rewrite tally_over_labels, keys_count_labels in H.
    simpl in H. tauto.
  - intros H.
    apply (Permutation_in _ (Permutation_sym (ranked_names_perm similarTickets))).
    unfold tally. rewrite tally_over_labels, keys_count_labels. now right.
Qed.

Lemma ranked_names_length (similarTickets : list ticket) :
  List.length (rank_groups similarTickets) <= labelled similarTickets.
Proof.
  rewrite <- (length_map Vector.name). unfold labelled.
  apply NoDup_incl_length; [apply rank_groups_names_distinct|].
  intros g Hg. now apply ranked_names_In in Hg.
Qed.

(** X17. Whatever the groups of the neighbours are called, the ranking names
    every group that labels a neighbour exactly once, names no other group,
    and is no longer than the list of neighbours. The one exception is
    a group called [__proto__]: its neighbours are counted in the total but
    the group is never ranked. *)
Theorem ranking_names_the_groups (similarTickets : list ticket) :
  NoDup (ranked_names similarTickets)
  /\ (forall g,
        In g (ranked_names similarTickets)
        <-> (exists tk, In tk similarTickets /\ truthy_group tk = Some g)
            /\ g <> "__proto__")
  /\ List.length (rank_groups similarTickets) <= List.length similarTickets.
Proof.
  split; [apply rank_groups_names_distinct|]. split.
  - intros g. rewrite ranked_names_In. unfold labels. rewrite in_flat_map.
    split; intros [(tk & Htk & Hg) Hp]; (split; [|exact Hp]); exists tk;
      (split; [exact Htk|]).
    + destruct (truthy_group tk) as [g'|]; [|contradiction].
      destruct Hg as [->|[]]. reflexivity.
    + rewrite Hg. now left.
  - pose proof (ranked_names_length similarTickets).
    pose proof (labels_length similarTickets). unfold labelled in *. lia.
Qed.

Example proto_group_is_dropped :
  rank_groups proto_neighbours = [vmatch "Security" 67 2].
Proof. vm_compute. reflexivity. Qed.

(** X18. When no neighbour carries a group, the ranking is empty and nothing is
    divided by the total of zero; the recommendation is then the one of
    rule 1, although the similarity classifier reports success. *)
Theorem unlabelled_history_ranks_nothing (p : Pattern.Result)
    (similarTickets : list ticket) :
  (forall tk, In tk similarTickets -> truthy_group tk = None) ->
  rank_groups similarTickets = []
  /\ determineFinalRecommendation p (rank_groups similarTickets)
     = pattern_only (Pattern.primaryGroup p).
Proof.
  intros H.
  assert (Hl : labels similarTickets = []).
  { unfold labels. induction similarTickets as [|tk tks IH]; [reflexivity|].
    simpl. rewrite (H tk (or_introl eq_refl)). simpl.
    apply IH. intros tk' Htk'. apply H. now right. }
  assert (Hr : rank_groups similarTickets = []).
  { pose proof (ranked_names_length similarTickets) as Hlen.
    unfold labelled in Hlen. rewrite Hl in Hlen.
    destruct (rank_groups similarTickets); [reflexivity | simpl in Hlen; lia]. }
  rewrite Hr. split; reflexivity.
Qed.


Lemma unlabelled_history_ranks_nothing_witness :
  (forall tk, In tk unlabelled_neighbours -> truthy_group tk = None)
  /\ rank_groups unlabelled_neighbours = []
  /\ determineFinalRecommendation (pattern_of "Security" 85 "phishing")
                                  (rank_groups unlabelled_neighbours)
     = pattern_only (Pattern.primaryGroup (pattern_of "Security" 85 "phishing")).
Proof.
  assert (H : forall tk, In tk unlabelled_neighbours -> truthy_group tk = None).
  { intros tk [<-|[<-|[<-|[]]]]; reflexivity. }
  split; [exact H|].
  exact (unlabelled_history_ranks_nothing
           (pattern_of "Security" 85 "phishing") unlabelled_neighbours H).
Defined.

(* ---- counts on plain names ---- *)

Lemma list_sum_filter {A} (f : A -> nat) (p : A -> bool) (l : list A) :
  list_sum (map f l)
  = list_sum (map f (filter p l)) + list_sum (map f (filter (fun x => negb (p x)) l)).
Proof.
  induction l as [|x l IH]; simpl; [reflexivity|].
  destruct (p x); simpl; lia.
Qed.

Lemma count_occ_skip (l : list string) (x g : string) :
  g <> x -> count_occ string_dec (x :: l) g = count_occ string_dec l g.
Proof. intros H. apply count_occ_cons_neq. congruence. Qed.

Lemma sum_skip (l d : list string) (x : string) :
  list_sum (map (count_occ string_dec (x :: l))
                (filter (fun y => negb (String.eqb y x)) d))
  = list_sum (map (count_occ string_dec l)
                  (filter (fun y => negb (String.eqb y x)) d)).
Proof.
  f_equal. apply map_ext_in. intros g Hg. apply filter_In in Hg.
  destruct Hg as [_ Hg]. apply count_occ_skip.
  intros ->. rewrite String.eqb_refl in Hg. discriminate.
Qed.

Lemma sum_same (l d : list string) (x : string) :
  NoDup d -> (In x d <-> In x l) ->
  list_sum (map (count_occ string_dec l)
                (filter (fun y => negb (negb (String.eqb y x))) d))
  = count_occ string_dec l x.
Proof.
  intros Hnd Hin.
  assert (Hf : forall d', NoDup d' ->
             filter (fun y => negb (negb (String.eqb y x))) d'
             = if in_dec string_dec x d' then [x] else []).
  { induction d' as [|y d' IH]; intros Hd; [reflexivity|].
    inversion Hd as [|? ? Hy Hd']. subst. simpl. rewrite (IH Hd').
    destruct (String.eqb y x) eqn:E; simpl.
    - apply String.eqb_eq in E. subst y.
      destruct (string_dec x x) as [N0|N]; [|now elim N].
      destruct (in_dec string_dec x d'); [contradiction | reflexivity].
    - apply String.eqb_neq in E.
      destruct (string_dec y x) as [N|N0]; [contradiction|].
      destruct (in_dec string_dec x d'); reflexivity. }
  rewrite (Hf d Hnd). destruct (in_dec string_dec x d) as [H|H]; simpl.
  - lia.
  - symmetry. apply count_occ_not_In. tauto.
Qed.

Lemma occurrences_sum (l : list string) :
  list_sum (map (count_occ string_dec l) (distinct l)) = List.length l.
Proof.
  induction l as [|x l IH]; [reflexivity|].
  change (distinct (x :: l))
    with (x :: filter (fun y => negb (String.eqb y x)) (distinct l)).
  rewrite map_cons.
  change (list_sum (?a :: ?r)) with (a + list_sum r).
  rewrite sum_skip, count_occ_cons_eq by reflexivity.
  rewrite (list_sum_filter _ (fun y => negb (String.eqb y x)) (distinct l)) in IH.
  rewrite (sum_same l (distinct l) x (distinct_NoDup l) (distinct_In l x)) in IH.
  simpl. lia.
Qed.

Lemma ranked_counts_perm (similarTickets : list ticket) :
  (forall g, In g (labels similarTickets) -> plain_name g = true) ->
  Permutation
    (map (fun e => count_value (Vector.count e)) (rank_groups similarTickets))
    (map (count_occ string_dec (labels similarTickets)) (distinct (labels similarTickets))).
Proof.
  intros Hp. rewrite (rank_groups_plain similarTickets Hp).
  eapply perm_trans;
    [apply Permutation_map, Permutation_sym, (sort_perm by_confidence)|].
  rewrite map_map. apply Permutation_refl.
Qed.

Lemma list_sum_perm (l l' : list nat) : Permutation l l' -> list_sum l = list_sum l'.
Proof. induction 1; simpl; lia. Qed.

(** X19. On plain group names, and however many neighbours the store returns,
    the count of every ranked group is the number of neighbours filed under
    it, and the counts add up to the number of neighbours that carry a
    group. *)
Theorem ranking_counts_add_up (similarTickets : list ticket) :
  (forall g, In g (labels similarTickets) -> plain_name g = true) ->
  (forall e, In e (rank_groups similarTickets) ->
     Vector.count e = Num (occurrences (Vector.name e) similarTickets)
     /\ 1 <= occurrences (Vector.name e) similarTickets)
  /\ list_sum (map (fun e => count_value (Vector.count e))
                   (rank_groups similarTickets))
     = labelled similarTickets.
Proof.
  intros Hp. split.
  - intros e He. rewrite (rank_groups_plain similarTickets Hp) in He.
    apply (Permutation_in _ (Permutation_sym (sort_perm by_confidence _))) in He.
    apply in_map_iff in He. destruct He as (g & <- & Hg).
    apply (proj1 (distinct_In _ _)) in Hg. simpl. split; [reflexivity|].
    apply (occurrences_range similarTickets g Hg).
  - rewrite (list_sum_perm _ _ (ranked_counts_perm similarTickets Hp)).
    apply occurrences_sum.
Qed.

Lemma ranking_counts_add_up_witness :
  (forall g, In g (labels five_neighbours) -> plain_name g = true)
  /\ list_sum (map (fun e => count_value (Vector.count e))
                   (rank_groups five_neighbours))
     = 5.
Proof.
  split; [exact five_neighbours_plain|].
  exact (proj2 (ranking_counts_add_up five_neighbours five_neighbours_plain)).
Defined.

(* ---- the top of the ranking ---- *)

Lemma percentage_strict (n m t : nat) :
  1 <= t <= 100 -> n < m -> percentage n t < percentage m t.
Proof.
  intros Ht Hnm. unfold percentage.
  apply Nat.lt_le_trans with ((200 * n + t + 1 * (2 * t)) / (2 * t)).
  - rewrite Nat.div_add by lia. lia.
  - apply Nat.Div0.div_le_mono. lia.
Qed.

Lemma share_reads_occurrences (similarTickets : list ticket) (a b : string) :
  1 <= labelled similarTickets <= 100 ->
  share similarTickets b <= share similarTickets a ->
  occurrences b similarTickets <= occurrences a similarTickets.
Proof.
  intros Ht Hs. unfold share in Hs.
  destruct (Nat.le_gt_cases (occurrences b similarTickets)
                            (occurrences a similarTickets)) as [H|H]; [exact H|].
  pose proof (percentage_strict _ _ _ Ht H). lia.
Qed.

(** X20. With fewer than 40 counted neighbours and plain group names, the first
    recommendation is a group under which the most neighbours are filed:
    no group labels more neighbours than it does, and a group that labels
    as many was first met later. *)
Theorem top_recommendation_is_most_frequent (similarTickets : list ticket)
    (top : Vector.Match) (rest : list Vector.Match) :
  (forall g, In g (labels similarTickets) -> plain_name g = true) ->
  labelled similarTickets < rounding_bound ->
  rank_groups similarTickets = top :: rest ->
  forall g,
    g <> Vector.name top ->
    occurrences g similarTickets <= occurrences (Vector.name top) similarTickets
    /\ (occurrences g similarTickets = occurrences (Vector.name top) similarTickets ->
        In g (labels similarTickets) ->
        first_seen (Vector.name top) similarTickets < first_seen g similarTickets).
Proof.
  intros Hp Ht Hr g Hg.
  destruct (in_dec string_dec g (labels similarTickets)) as [Hin|Hin].
  2: { split; [|contradiction].
       unfold occurrences. rewrite (proj1 (count_occ_not_In string_dec _ g) Hin).
       lia. }
  assert (Hpos : 1 <= labelled similarTickets <= 100).
  { pose proof (occurrences_range similarTickets g Hin).
    unfold rounding_bound in Ht. lia. }
  destruct (ranked_entries similarTickets Hp Ht) as [_ Hsorted].
  assert (Hnamed : In g (ranked_names similarTickets)).
  { apply ranked_names_In. split; [exact Hin|].
    intros ->. specialize (Hp _ Hin). discriminate Hp. }
  unfold ranked_names in Hnamed. rewrite Hr in Hsorted, Hnamed.
  destruct Hnamed as [E|Hnamed]; [now elim Hg|].
  apply in_map_iff in Hnamed. destruct Hnamed as (e & <- & He).
  inversion Hsorted as [|? ? _ Hall]. subst.
  rewrite Forall_forall in Hall. specialize (Hall e He).
  unfold outranks in Hall. split.
  - apply share_reads_occurrences; [exact Hpos | lia].
  - intros Hocc _. destruct Hall as [Hlt|[_ Hfirst]]; [|exact Hfirst].
    unfold share in Hlt. rewrite Hocc in Hlt. lia.
Qed.

Lemma top_recommendation_is_most_frequent_witness :
  (forall g, In g (labels five_neighbours) -> plain_name g = true)
  /\ labelled five_neighbours < rounding_bound
  /\ rank_groups five_neighbours
     = vmatch "Security" 40 2
         :: [vmatch "Network Operations" 40 2; vmatch "Desktop Support" 20 1]
  /\ "Network Operations" <> "Security"
  /\ occurrences "Network Operations" five_neighbours
     <= occurrences "Security" five_neighbours.
Proof.
  assert (H1 : labelled five_neighbours < rounding_bound) by (vm_compute; lia).
  assert (H2 : rank_groups five_neighbours
               = vmatch "Security" 40 2
                   :: [vmatch "Network Operations" 40 2;
                       vmatch "Desktop Support" 20 1])
    by (vm_compute; reflexivity).
  assert (H3 : "Network Operations" <> "Security") by discriminate.
  split; [exact five_neighbours_plain|].
  split; [exact H1 | split; [exact H2 | split; [exact H3|]]].
  exact (proj1 (top_recommendation_is_most_frequent
                  five_neighbours (vmatch "Security" 40 2)
                  [vmatch "Network Operations" 40 2; vmatch "Desktop Support" 20 1]
                  five_neighbours_plain H1 H2 "Network Operations" H3)).
Defined.

(* ================================================================== *)
(** ** From the neighbours to the answer *)

Lemma ranked_confidence_whole (similarTickets : list ticket) (e : Vector.Match) :
  (forall g, In g (labels similarTickets) -> plain_name g = true) ->
  labelled similarTickets < rounding_bound ->
  In e (rank_groups similarTickets) ->
  whole_between 0 100 (Vector.confidence e).
Proof.
  intros Hp Ht He.
  destruct (proj1 (ranked_entries similarTickets Hp Ht) e He) as (Hin & _ & Hc).
  exists (share similarTickets (Vector.name e)). split; [|exact Hc].
  split; [lia|]. apply percentage_bound, occurrences_range, Hin.
Qed.

(** X21. From the neighbours to the recommendation, confidences stay whole
    percentages: when the model's confidence is a whole number between 0
    and 100, the group names are plain and fewer than 40 neighbours carry a
    group, the confidence of the recommendation computed from the ranking
    of those neighbours is a whole number between 0 and 100. *)
Theorem recommendation_confidence_is_whole_percent (p : Pattern.Result)
    (similarTickets : list ticket) :
  whole_between 0 100 (Pattern.confidence (Pattern.primaryGroup p)) ->
  (forall g, In g (labels similarTickets) -> plain_name g = true) ->
  labelled similarTickets < rounding_bound ->
  whole_between 0 100
    (Final.confidence
       (determineFinalRecommendation p (rank_groups similarTickets))).
Proof.
  intros (a & Ha & Ea) Hp Ht.
  pose proof (fun r => ranked_confidence_whole similarTickets r Hp Ht) as Hs.
  destruct (reconcile_rules p (rank_groups similarTickets))
    as [(_ & _ & Hc & _)
       |[(top & rest & Hr & _ & _ & Hc & _)
        |[(top & rest & m & Hr & _ & Hm & _ & _ & Hc & _)
         |[(top & rest & Hr & _ & _ & _ & Hc & _)
          |(top & rest & Hr & _ & H70 & _ & Hc & _)]]]];
    rewrite Hc; clear Hc; try rewrite Hr in Hs.
  - exists a. auto.
  - destruct (Hs top (or_introl eq_refl)) as (b & Hb & Eb).
    exact (proj1 (blends_within 0 100 a b _ _ (le_n 100) Ha Hb Ea Eb)).
  - destruct (Hs m (or_intror Hm)) as (b & Hb & Eb).
    exact (proj1 (proj2 (blends_within 0 100 a b _ _ (le_n 100) Ha Hb Ea Eb))).
  - exact (Hs top (or_introl eq_refl)).
  - destruct (Hs top (or_introl eq_refl)) as (b & Hb & Eb).
    exact (proj2 (proj2 (blends_within 0 100 a b _ _ (le_n 100) Ha Hb Ea Eb)) H70).
Qed.

Lemma recommendation_confidence_is_whole_percent_witness :
  whole_between 0 100
    (Pattern.confidence (Pattern.primaryGroup (pattern_of "Security" 85 "phishing")))
  /\ (forall g, In g (labels five_neighbours) -> plain_name g = true)
  /\ labelled five_neighbours < rounding_bound
  /\ whole_between 0 100
       (Final.confidence
          (determineFinalRecommendation (pattern_of "Security" 85 "phishing")
                                        (rank_groups five_neighbours))).
Proof.
  assert (H1 : whole_between 0 100
                 (Pattern.confidence
                    (Pattern.primaryGroup (pattern_of "Security" 85 "phishing")))).
  { exists 85. split; [lia | vm_compute; reflexivity]. }
  assert (H2 : labelled five_neighbours < rounding_bound) by (vm_compute; lia).
  split; [exact H1 | split; [exact five_neighbours_plain | split; [exact H2|]]].
  exact (recommendation_confidence_is_whole_percent
           (pattern_of "Security" 85 "phishing") five_neighbours
           H1 five_neighbours_plain H2).
Defined.

Lemma count_occ_all (l : list string) (g : string) :
  (forall x, In x l -> x = g) -> count_occ string_dec l g = List.length l.
Proof.
  induction l as [|x l IH]; intros H; [reflexivity|].
  rewrite (H x (or_introl eq_refl)), count_occ_cons_eq by reflexivity.
  simpl. f_equal. apply IH. intros y Hy. apply H. now right.
Qed.

Lemma unanimous_ranking (similarTickets : list ticket) (g : string) :
  unanimous similarTickets g ->
  plain_name g = true ->
  labelled similarTickets < rounding_bound ->
  exists top,
    rank_groups similarTickets = [top]
    /\ Vector.name top = g
    /\ Vector.confidence top = number_of 100
    /\ Vector.count top = Num (labelled similarTickets).
Proof.
  intros [Hin Hall] Hg Ht.
  assert (Hp : forall g', In g' (labels similarTickets) -> plain_name g' = true).
  { intros g' Hg'. now rewrite (Hall g' Hg'). }
  destruct (ranked_entries similarTickets Hp Ht) as [Hentries _].
  assert (Hname : forall e, In e (rank_groups similarTickets) -> Vector.name e = g).
  { intros e He. apply Hall. now apply Hentries. }
  assert (Hnamed : In g (ranked_names similarTickets)).
  { apply ranked_names_In. split; [exact Hin|].
    intros ->. discriminate Hg. }
  pose proof (rank_groups_names_distinct similarTickets) as Hnd.
  unfold ranked_names in Hnamed.
  destruct (rank_groups similarTickets) as [|top [|second rest]] eqn:Hr.
  - contradiction.
  - exists top. split; [reflexivity|].
    destruct (Hentries top (or_introl eq_refl)) as (_ & Hcount & Hconf).
    rewrite (Hname top (or_introl eq_refl)) in *.
    assert (Hocc : occurrences g similarTickets = labelled similarTickets).
    { unfold occurrences, labelled. now apply count_occ_all. }
    split; [reflexivity|]. split.
    + rewrite Hconf. unfold share. rewrite Hocc. f_equal. unfold percentage.
      pose proof (occurrences_range similarTickets g Hin) as Hrange.
      replace (200 * labelled similarTickets + labelled similarTickets)
        with (labelled similarTickets + 100 * (2 * labelled similarTickets)) by lia.
      rewrite Nat.div_add by lia. rewrite Nat.div_small by lia. reflexivity.
    + now rewrite Hcount, Hocc.
  - exfalso. simpl in Hnd.
    rewrite (Hname top (or_introl eq_refl)) in Hnd.
    rewrite (Hname second (or_intror (or_introl eq_refl))) in Hnd.
    inversion Hnd as [|? ? Hnot _]. apply Hnot. now left.
Qed.

(** X22. A unanimous history decides the group. When every neighbour that
    carries a group carries the same plain group (fewer than 40 of them),
    the ranking is that one group with confidence 100, and the
    recommendation is that group whatever the model said: with source
    "combined" when the model named it too, and "history-weighted"
    otherwise. *)
Theorem unanimous_history_decides (p : Pattern.Result)
    (similarTickets : list ticket) (g : string) :
  unanimous similarTickets g ->
  plain_name g = true ->
  labelled similarTickets < rounding_bound ->
  Final.group (determineFinalRecommendation p (rank_groups similarTickets)) = g
  /\ Final.source (determineFinalRecommendation p (rank_groups similarTickets))
     = if String.eqb (Pattern.name (Pattern.primaryGroup p)) g
       then "combined" else "history-weighted".
Proof.
  intros Hu Hg Ht.
  destruct (unanimous_ranking similarTickets g Hu Hg Ht)
    as (top & -> & Hname & Hconf & _).
  unfold determineFinalRecommendation. rewrite Hname.
  destruct (String.eqb (Pattern.name (Pattern.primaryGroup p)) g) eqn:E.
  - apply String.eqb_eq in E. simpl. auto.
  - simpl. rewrite Hname, String.eqb_sym, E, Hconf. simpl.
    replace (70 <? number_of 100)%float with true by (vm_compute; reflexivity).
    simpl. auto.
Qed.

Lemma unanimous_history_decides_witness :
  unanimous security_neighbours "Security"
  /\ plain_name "Security" = true
  /\ labelled security_neighbours < rounding_bound
  /\ Final.group (determineFinalRecommendation
                    (pattern_of "Desktop Support" 95 "laptop")
                    (rank_groups security_neighbours))
     = "Security".
Proof.
  assert (H1 : unanimous security_neighbours "Security").
  { split; [simpl; tauto|]. simpl.
    intros g' [<-|[<-|[<-|[]]]]; reflexivity. }
  assert (H2 : plain_name "Security" = true) by reflexivity.
  assert (H3 : labelled security_neighbours < rounding_bound) by (vm_compute; lia).
  split; [exact H1 | split; [exact H2 | split; [exact H3|]]].
  exact (proj1 (unanimous_history_decides
                  (pattern_of "Desktop Support" 95 "laptop")
                  security_neighbours "Security" H1 H2 H3)).
Defined.

(** X23. In every answer with status 200 the similarity part is consistent: the
    recommendations are the ranking of as many neighbours as the count
    says, so they name no group twice and are no more than the count; the
    confidence is that of the first recommendation, or 0 when there is
    none; and an error is reported exactly when success is false, in which
    case there are no recommendations and the count is 0. *)
Theorem answer_view_consistent (JSON_parse : string -> option json)
    (trim : string -> string)
    (reconcile_untyped : json -> list Vector.Match -> exn + json) (svc : services)
    (request : outcome Http.Request) (r : Http.Response) (c : Http.Classification) :
  result (POST JSON_parse trim reconcile_untyped svc request) = inr r ->
  Http.body r = Http.Success c ->
  let view := Http.vectorSimilarityClassification c in
  (exists similarTickets,
     Http.recommendations view = rank_groups similarTickets
     /\ Http.similarTicketsCount view = List.length similarTickets)
  /\ NoDup (map Vector.name (Http.recommendations view))
  /\ List.length (Http.recommendations view) <= Http.similarTicketsCount view
  /\ Http.confidence view
     = match Http.recommendations view with
       | top :: _ => Vector.confidence top
       | [] => 0%float
       end
  /\ (Http.success view = true -> Http.error view = None)
  /\ (Http.success view = false ->
      Http.error view <> None
      /\ Http.recommendations view = []
      /\ Http.similarTicketsCount view = 0).
Proof.
  intros Hr Hbody.
  destruct request as [e|body];
    [injection Hr as <-; discriminate Hbody|].
  destruct (Http.subject body) as [subject|] eqn:Hsubject;
    [destruct (string_dec subject "") as [->|Hne]|].
  1, 3: unfold result in Hr;
    rewrite (proj2 (POST_rejects JSON_parse trim reconcile_untyped svc) body)
      in Hr by auto;
    injection Hr as <-; discriminate Hbody.
  unfold result in Hr. rewrite (POST_run _ _ _ _ body subject Hsubject Hne) in Hr.
  destruct (result (classifyWithOpenAI _ _ _ _)) as [e|j];
    [injection Hr as <-; discriminate Hbody|].
  destruct (findSimilarTickets_returns trim svc subject (description_of body))
    as (v & Hv & Hranked & Hok & Hfailed).
  rewrite Hv in Hr. simpl in Hr. injection Hr as <-.
  unfold combined_response in Hbody.
  destruct (result (reconcile _ _ _)) as [e|final]; [discriminate Hbody|].
  injection Hbody as <-. simpl.
  split; [exists (Similarity.similarTickets v); split; [exact Hranked | reflexivity]|].
  rewrite Hranked.
  split; [apply rank_groups_names_distinct|].
  split.
  { pose proof (ranked_names_length (Similarity.similarTickets v)).
    pose proof (labels_length (Similarity.similarTickets v)).
    unfold labelled in *. lia. }
  split; [reflexivity|]. split; [exact Hok|].
  intros Hf. destruct (Hfailed Hf) as [Herr Hempty].
  rewrite Hempty. auto.
Qed.

Lemma answer_view_consistent_witness :
  result (POST (parses network_text network_answer) (fun s => s) (fun j _ => inr j)
               (ready_store (says network_text) (pg_ok (Some five_neighbours) None))
               (Resolves vpn_down))
  = inr (json_response 200 (Http.Success network_classification))
  /\ List.length (Http.recommendations
                    (Http.vectorSimilarityClassification network_classification))
     <= Http.similarTicketsCount
          (Http.vectorSimilarityClassification network_classification).
Proof.
  assert (H1 : result (POST (parses network_text network_answer) (fun s => s)
                            (fun j _ => inr j)
                            (ready_store (says network_text)
                                         (pg_ok (Some five_neighbours) None))
                            (Resolves vpn_down))
               = inr (json_response 200 (Http.Success network_classification)))
    by (vm_compute; reflexivity).
  split; [exact H1|].
  exact (proj1 (proj2 (proj2 (answer_view_consistent
                                (parses network_text network_answer) (fun s => s)
                                (fun j _ => inr j)
                                (ready_store (says network_text)
                                             (pg_ok (Some five_neighbours) None))
                                (Resolves vpn_down)
                                (json_response 200
                                   (Http.Success network_classification))
                                network_classification H1 eq_refl)))).
Defined.

(* ================================================================== *)
(** ** The batch route *)

Lemma embed_ticket_returns (trim : string -> string)
    (svc : UpdateEmbeddings.services) (position : nat)
    (ticket : UpdateEmbeddings.ticket_row) (log : list UpdateEmbeddings.call) :
  exists entry added,
    UpdateEmbeddings.embed_ticket trim svc position ticket log
    = ((log ++ added)%list, inr entry)
    /\ UpdateEmbeddings.item_id entry = UpdateEmbeddings.id ticket
    /\ (forall model input format,
          In (UpdateEmbeddings.CreateEmbedding model input format) added ->
          model = "text-embedding-3-small")
    /\ List.length (filter is_batch_embedding added) = 1.
Proof.
  unfold UpdateEmbeddings.embed_ticket, UpdateEmbeddings.generateEmbedding,
    Async.try_catch, Async.bind, Async.await,
    Async.ret, Async.throw.
  destruct (UpdateEmbeddings.embeddings_create svc position _)
    as [e|[[|first others]]]; simpl;
    [| |destruct (UpdateEmbeddings.update_embedding svc position first)
          as [e|[d [err|] c]]; simpl; rewrite <- app_assoc];
    eexists; eexists; (split; [reflexivity|]); simpl;
    (split; [reflexivity|]); (split; [|reflexivity]);
    intros model input format H;
    repeat (destruct H as [H|H]; [try discriminate H; now injection H|]);
    contradiction.
Qed.

Lemma embed_each_returns (trim : string -> string)
    (svc : UpdateEmbeddings.services) (tickets : list UpdateEmbeddings.ticket_row) :
  forall (position : nat) (results : list UpdateEmbeddings.item)
         (log : list UpdateEmbeddings.call),
  exists entries added,
    UpdateEmbeddings.embed_each trim svc position tickets results log
    = ((log ++ added)%list, inr (results ++ entries)%list)
    /\ map UpdateEmbeddings.item_id entries = map UpdateEmbeddings.id tickets
    /\ (forall model input format,
          In (UpdateEmbeddings.CreateEmbedding model input format) added ->
          model = "text-embedding-3-small")
    /\ List.length (filter is_batch_embedding added) = List.length tickets.
Proof.
  induction tickets as [|ticket rest IH]; intros position results log.
  - exists [], []. simpl. unfold Async.ret.
    rewrite !app_nil_r. repeat split. intros model input format [].
  - simpl. unfold Async.bind at 1.
    destruct (embed_ticket_returns trim svc position ticket log)
      as (entry & added & -> & Hid & Hmodel & Hone).
    destruct (IH (S position) (results ++ [entry])%list (log ++ added)%list)
      as (entries & added' & -> & Hids & Hall & Hcount).
    exists (entry :: entries), (added ++ added')%list.
    rewrite <- !app_assoc. simpl. split; [reflexivity|].
    split; [now rewrite Hid, Hids|]. split.
    + intros model input format Hin. apply in_app_or in Hin.
      destruct Hin as [Hin|Hin]; [exact (Hmodel _ _ _ Hin) | exact (Hall _ _ _ Hin)].
    + now rewrite filter_app, length_app, Hone, Hcount.
Qed.

Lemma filter_split_length {A} (f : A -> bool) (l : list A) :
  List.length (filter f l) + List.length (filter (fun x => negb (f x)) l)
  = List.length l.
Proof.
  induction l as [|x l IH]; simpl; [reflexivity|].
  destruct (f x); simpl; lia.
Qed.

(** Runs through the checks and the query that precede the loop. *)
Ltac batch_paths tac :=
  match goal with
  | svc : UpdateEmbeddings.services |- _ =>
      destruct svc as [chk cre chkc addc sel emb upd];
      unfold Async.result, Async.calls, Async.run,
        UpdateEmbeddings.POST, UpdateEmbeddings.ensure, Async.try_catch,
        Async.bind, Async.await, Async.ret,
        Async.throw, batch_prepared, threw, reported_error; simpl;
      destruct chk as [?|[? [?|] ?]]; simpl; try solve [tac];
      destruct cre as [?|?]; simpl; try solve [tac];
      destruct chkc as [?|[? [?|] ?]]; simpl; try solve [tac];
      destruct addc as [?|?]; simpl; try solve [tac];
      destruct sel as [?|[[[|ticket rest]|] [?|] ?]];
        cbn -[UpdateEmbeddings.embed_each]; try solve [tac]
  end.

(** X24. The batch route always answers. A summary has status 200 and accounts
    for every ticket that was selected: [processed] is their number,
    [successful] and [failed] add up to it, and [results] holds one entry
    per ticket, in the order of the tickets and under their ids. Any other
    answer is the note that nothing needs an embedding, with status 200, or
    an error, with status 500. *)
Theorem batch_summary_accounts_for_every_ticket (trim : string -> string)
    (svc : UpdateEmbeddings.services) :
  exists r,
    Async.result (UpdateEmbeddings.POST trim svc) = inr r
    /\ match UpdateEmbeddings.body r with
       | UpdateEmbeddings.Summary processed successful failed results =>
           UpdateEmbeddings.status r = 200
           /\ successful + failed = processed
           /\ successful
              = List.length (filter UpdateEmbeddings.success results)
           /\ exists fetched tickets,
                UpdateEmbeddings.select_without_embedding svc = Resolves fetched
                /\ Pg.data fetched = Some tickets
                /\ processed = List.length tickets
                /\ map UpdateEmbeddings.item_id results
                   = map UpdateEmbeddings.id tickets
       | UpdateEmbeddings.Nothing _ => UpdateEmbeddings.status r = 200
       | UpdateEmbeddings.Failure _ => UpdateEmbeddings.status r = 500
       end.
Proof.
  batch_paths ltac:(eexists; split; [reflexivity|]; reflexivity).
  all: match goal with
       | |- context [UpdateEmbeddings.embed_each ?t ?s ?p ?ts ?rs ?log] =>
           destruct (embed_each_returns t s ts p rs log)
             as (entries & added & -> & Hids & _ & _)
       end.
  all: cbn -[UpdateEmbeddings.embed_each]; eexists; (split; [reflexivity|]);
    cbn -[filter]; (split; [reflexivity|]);
    (split; [rewrite filter_split_length, <- (length_map UpdateEmbeddings.item_id),
               Hids, length_map; reflexivity|]);
    (split; [reflexivity|]);
    eexists; eexists; (split; [reflexivity|]); simpl;
    (split; [reflexivity|]); split; [reflexivity | exact Hids].
Qed.

(** X25. A ticket that cannot be embedded or updated never fails the batch.
    Once the checks before the loop went through and the query returned
    tickets, the answer is a summary of all of them, whatever the embedding
    provider and the updates do, and exactly one embedding was requested
    per ticket. *)
Theorem batch_survives_failing_tickets (trim : string -> string)
    (svc : UpdateEmbeddings.services) (fetched : Pg.response (list UpdateEmbeddings.ticket_row))
    (tickets : list UpdateEmbeddings.ticket_row) :
  batch_prepared svc = true ->
  UpdateEmbeddings.select_without_embedding svc = Resolves fetched ->
  Pg.error fetched = None ->
  Pg.data fetched = Some tickets ->
  tickets <> [] ->
  (exists successful failed results,
     Async.result (UpdateEmbeddings.POST trim svc)
     = inr (UpdateEmbeddings.json_response 200
              (UpdateEmbeddings.Summary (List.length tickets) successful failed results))
     /\ map UpdateEmbeddings.item_id results = map UpdateEmbeddings.id tickets)
  /\ List.length (filter is_batch_embedding
                         (Async.calls (UpdateEmbeddings.POST trim svc)))
     = List.length tickets.
Proof.
  intros Hprepared Hsel Herror Hdata Hne. revert Hprepared Hsel.
  batch_paths ltac:(intros H1 H2; first [discriminate H1 | discriminate H2
    | injection H2 as <-; simpl in *; first [discriminate | congruence]]).
  all: intros _ Hsel; injection Hsel as <-; simpl in Herror, Hdata;
    try discriminate Herror; injection Hdata as <-.
  all: match goal with
       | |- context [UpdateEmbeddings.embed_each ?t ?s ?p ?ts ?rs ?log] =>
           destruct (embed_each_returns t s ts p rs log)
             as (entries & added & -> & Hids & _ & Hcount)
       end.
  all: cbn -[UpdateEmbeddings.embed_each]; split;
    [eexists; eexists; eexists; split; [reflexivity | exact Hids]
    |exact Hcount].
Qed.

Lemma batch_survives_failing_tickets_witness :
  batch_prepared flaky_batch = true
  /\ Async.result (UpdateEmbeddings.POST (fun s => s) flaky_batch)
     = inr (UpdateEmbeddings.json_response 200
              (UpdateEmbeddings.Summary 3 1 2
                 [ {| UpdateEmbeddings.item_id := 7;
                      UpdateEmbeddings.success := true;
                      UpdateEmbeddings.error := None |};
                   {| UpdateEmbeddings.item_id := 8;
                      UpdateEmbeddings.success := false;
                      UpdateEmbeddings.error := Some "429 Rate limit reached" |};
                   {| UpdateEmbeddings.item_id := 9;
                      UpdateEmbeddings.success := false;
                      UpdateEmbeddings.error := Some "value too long" |} ]))
  /\ List.length (filter is_batch_embedding
                         (Async.calls
                            (UpdateEmbeddings.POST (fun s => s) flaky_batch)))
     = 3.
Proof.
  assert (H : batch_prepared flaky_batch = true) by reflexivity.
  split; [exact H|]. split; [vm_compute; reflexivity|].
  refine (proj2 (batch_survives_failing_tickets
                   (fun s => s) flaky_batch
                   {| Pg.data := Some three_waiting; Pg.error := None;
                      Pg.count := None |}
                   three_waiting H eq_refl eq_refl eq_refl _)).
  discriminate.
Defined.

(** X26. The batch route and the search embed with different models. Every
    embedding the batch route stores was requested from
    text-embedding-3-small, and every embedding the similarity classifier
    searches with was requested from text-embedding-ada-002: the vectors
    that are compared do not come from the same model. *)
Theorem batch_and_search_embed_with_different_models
    (trim : string -> string) (batch : UpdateEmbeddings.services)
    (svc : services) (subject description : string) :
  (forall model input format,
     In (UpdateEmbeddings.CreateEmbedding model input format)
        (Async.calls (UpdateEmbeddings.POST trim batch)) ->
     model = "text-embedding-3-small")
  /\ (forall model input,
        In (CreateEmbedding model input)
           (calls (findSimilarTickets trim svc subject description)) ->
        model = "text-embedding-ada-002")
  /\ "text-embedding-3-small" <> "text-embedding-ada-002".
Proof.
  split; [|split; [|discriminate]].
  - clear svc. rename batch into svc.
    batch_paths ltac:(intros model input format H; in_cases H).
    all: match goal with
         | |- context [UpdateEmbeddings.embed_each ?t ?s ?p ?ts ?rs ?log] =>
             destruct (embed_each_returns t s ts p rs log)
               as (entries & added & -> & _ & Hall & _)
         end.
    all: cbn -[UpdateEmbeddings.embed_each]; intros model input format H;
      repeat (destruct H as [H|H]; [discriminate H|]); exact (Hall _ _ _ H).
  - clear batch.
    similarity_paths ltac:(intros model input H; in_cases H; now injection H).
Qed.

(* ================================================================== *)
(** ** The chat route *)

(* ------------------------------------------------------------------ *)
(** *** The conversation of a session *)

Lemma keep_recent_spec (first : Chat.Message) (rest : list Chat.Message) :
  exists kept,
    Chat.keep_recent (first :: rest) = first :: kept
    /\ List.length kept <= 10
    /\ (exists dropped, rest = (dropped ++ kept)%list)
    /\ (rest <> [] -> kept <> []).
Proof.
  unfold Chat.keep_recent.
  destruct (11 <? List.length (first :: rest))%nat eqn:E.
  - apply Nat.ltb_lt in E. simpl in E.
    exists (skipn (List.length (first :: rest) - 10) (first :: rest)).
    split; [reflexivity|].
    assert (Hs : skipn (List.length (first :: rest) - 10) (first :: rest)
                 = skipn (List.length rest - 10) rest).
    { simpl List.length. replace (S (List.length rest) - 10)
        with (S (List.length rest - 10)) by lia. reflexivity. }
    rewrite Hs. split; [rewrite length_skipn; lia|]. split.
    + exists (firstn (List.length rest - 10) rest). now rewrite firstn_skipn.
    + intros _ H. apply (f_equal (@List.length _)) in H.
      rewrite length_skipn in H. simpl in H. lia.
  - apply Nat.ltb_ge in E. simpl in E. exists rest.
    split; [reflexivity|]. split; [lia|]. split; [now exists []|auto].
Qed.

Lemma conversation_shape (c : list Chat.Message) :
  conversation c ->
  exists rest, c = Chat.system_message :: rest /\ List.length rest <= 11.
Proof.
  induction 1 as [|before after _ (rest & -> & Hlen) Hturn].
  - exists []. simpl. split; [reflexivity | lia].
  - destruct Hturn as [message reply|message reply|message];
      unfold Chat.answered_directly, Chat.answered_by_model, Chat.sent_to_model;
      simpl app.
    + destruct (keep_recent_spec Chat.system_message
                  (rest ++ [Chat.user_says message; Chat.assistant_says reply]))
        as (kept & -> & Hk & _).
      exists kept. split; [reflexivity | lia].
    + destruct (keep_recent_spec Chat.system_message
                  (rest ++ [Chat.user_says message]))
        as (kept & -> & Hk & _).
      exists (kept ++ [Chat.assistant_says reply])%list.
      split; [reflexivity|]. rewrite length_app. simpl. lia.
    + destruct (keep_recent_spec Chat.system_message
                  (rest ++ [Chat.user_says message]))
        as (kept & -> & Hk & _).
      exists kept. split; [reflexivity | lia].
Qed.

(** X27. Whatever the requests of a session were, its conversation starts with
    the system message and holds at most 12 messages; and what the next
    request sends to the model starts with the system message, ends with
    the message of the user, and holds at most 11 messages. *)
Theorem conversation_stays_bounded (c : list Chat.Message) (message : string) :
  conversation c ->
  hd_error c = Some Chat.system_message
  /\ List.length c <= 12
  /\ hd_error (Chat.sent_to_model c message) = Some Chat.system_message
  /\ last (Chat.sent_to_model c message) Chat.system_message
     = Chat.user_says message
  /\ List.length (Chat.sent_to_model c message) <= 11.
Proof.
  intros Hc. destruct (conversation_shape c Hc) as (rest & -> & Hlen).
  split; [reflexivity|]. split; [simpl; lia|].
  unfold Chat.sent_to_model. simpl app.
  destruct (keep_recent_spec Chat.system_message (rest ++ [Chat.user_says message]))
    as (kept & -> & Hk & (dropped & Hd) & Hne).
  split; [reflexivity|]. split; [|simpl; lia].
  assert (Hkept : kept <> []) by (apply Hne; now destruct rest).
  destruct (exists_last Hkept) as (front & final & ->).
  rewrite app_assoc in Hd. apply app_inj_tail in Hd. destruct Hd as [_ <-].
  change (Chat.system_message :: front ++ [Chat.user_says message])%list
    with ((Chat.system_message :: front) ++ [Chat.user_says message])%list.
  apply last_last.
Qed.

Lemma conversation_stays_bounded_witness :
  conversation (Chat.answered_by_model [Chat.system_message] "vpn is down" "Try again")
  /\ List.length (Chat.answered_by_model [Chat.system_message] "vpn is down" "Try again")
     <= 12.
Proof.
  assert (H : conversation
                (Chat.answered_by_model [Chat.system_message] "vpn is down" "Try again")).
  { apply (conversation_continued [Chat.system_message]);
      [apply conversation_opened | apply turn_model]. }
  split; [exact H|].
  exact (proj1 (proj2 (conversation_stays_bounded _ "printer" H))).
Defined.

(* ------------------------------------------------------------------ *)
(** *** Small talk *)

Lemma phrases_bounded :
  forallb (fun phrase => (js_length phrase <=? phrase_bound)%nat)
          Chat.conversationalPhrases = true.
Proof. vm_compute. reflexivity. Qed.

(** X28. Whether a message is taken for small talk is a matter of its length.
    A message that contains one of the conversational phrases anywhere,
    even inside a word, and is less than 15 characters longer than that
    phrase is conversational, so it is answered with a canned reply and
    never classified; a message of 34 characters or more never is. The
    lengths are those of the lower-cased, trimmed message, counted in
    UTF-16 code units as [length] counts them. *)
Theorem small_talk_is_decided_by_length (toLowerCase trim : string -> string)
    (message : string) :
  (forall phrase,
     In phrase Chat.conversationalPhrases ->
     includes (trim (toLowerCase message)) phrase = true ->
     js_length (trim (toLowerCase message)) < js_length phrase + 15 ->
     Chat.isConversationalPhrase toLowerCase trim message = true)
  /\ (34 <= js_length (trim (toLowerCase message)) ->
      Chat.isConversationalPhrase toLowerCase trim message = false).
Proof.
  unfold Chat.isConversationalPhrase. split.
  - intros phrase Hin Hinc Hlen.
    destruct (existsb (String.eqb _) _); [reflexivity|].
    apply existsb_exists. exists phrase. split; [exact Hin|].
    rewrite Hinc. apply Nat.ltb_lt in Hlen. now rewrite Hlen.
  - intros Hlong.
    pose proof phrases_bounded as Hb. rewrite forallb_forall in Hb.
    assert (Hexact : existsb (String.eqb (trim (toLowerCase message)))
                             Chat.conversationalPhrases = false).
    { apply not_true_is_false. intros H. apply existsb_exists in H.
      destruct H as (phrase & Hin & E). apply String.eqb_eq in E.
      specialize (Hb phrase Hin). apply Nat.leb_le in Hb.
      rewrite E in Hlong. unfold phrase_bound in Hb. lia. }
    rewrite Hexact.
    apply not_true_is_false. intros H. apply existsb_exists in H.
    destruct H as (phrase & Hin & E). apply andb_prop in E.
    destruct E as [_ E]. apply Nat.ltb_lt in E.
    specialize (Hb phrase Hin). apply Nat.leb_le in Hb.
    unfold phrase_bound in Hb. lia.
Qed.

Lemma small_talk_is_decided_by_length_witness :
  In "ok" Chat.conversationalPhrases
  /\ includes "vpn broken" "ok" = true
  /\ js_length "vpn broken" < js_length "ok" + 15
  /\ Chat.isConversationalPhrase (fun s => s) (fun s => s) "vpn broken" = true.
Proof.
  assert (H1 : In "ok" Chat.conversationalPhrases) by (simpl; tauto).
  assert (H2 : includes "vpn broken" "ok" = true) by reflexivity.
  assert (H3 : js_length "vpn broken" < js_length "ok" + 15)
    by (vm_compute; lia).
  split; [exact H1 | split; [exact H2 | split; [exact H3|]]].
  exact (proj1 (small_talk_is_decided_by_length (fun s => s) (fun s => s) "vpn broken")
               "ok" H1 H2 H3).
Defined.

(** The length is not the number of bytes: "ok" followed by eleven euro
    signs has 35 bytes and 13 code units, and is small talk. *)
Example euros_are_counted_once :
  String.length ok_in_euros = 35
  /\ js_length ok_in_euros = 13
  /\ Chat.isConversationalPhrase (fun s => s) (fun s => s) ok_in_euros = true.
Proof. repeat split; vm_compute; reflexivity. Qed.

(** A short message about a machine is greeted: "hi" is inside
    "machine". *)
Example machine_is_greeted :
  Chat.isConversationalPhrase (fun s => s) (fun s => s) "machine broken" = true
  /\ Chat.getConversationalResponse (fun s => s) (fun s => s) "machine broken"
     = "Hello! How can I assist you with IT support today?".
Proof. split; vm_compute; reflexivity. Qed.

(* ------------------------------------------------------------------ *)
(** *** The chat route as a caller of the classification route *)


(* ================================================================== *)
(** ** The import route *)


Section Batches.

Variable number_text : float -> string.
Variable iso_date : ImportTickets.cell -> option string.
Variable insert : nat -> list ImportTickets.record
                  -> outcome (Pg.response (list ImportTickets.record)).
Variable rows : list ImportTickets.row.





End Batches.




(** Three rows, the second without a subject: one row fails, the other two
    are stored. *)
Example import_of_three_rows :
  written
    (Async.calls
       (ImportTickets.POST (fun _ => "101") (fun _ => None)
          (fun _ records => pg_ok (Some records) None) sheet_upload))
  = [ ImportTickets.Progress 3 0 0 0 0;
      ImportTickets.Progress 3 3 2 1 100;
      ImportTickets.Complete 3 2 1 ].
Proof. vm_compute. reflexivity. Qed.
